(** * FlowState: the flowchart repair pipeline and the auto-layout engine

    A shallow embedding of [server/flowchartService.js] (schema validation,
    palette normalisation, identifier sanitising, graph repair, the fallback
    documents and the generate / refine pipelines) and of the layout library
    (node size estimation, bounding area, orientation selection), followed by
    the properties established about them.

    Conventions of the embedding.
    - A JavaScript string is a [string]: a sequence of code units below
      256 (Latin-1), so [String.length] is [.length].
    - A scalar position of an untrusted JSON object is a [slot]: the key is
      missing (or [undefined]), it holds a string, or it holds something
      that is not a string.
    - [Set] and [Map] are stdpp's [gset] and [gmap] over strings.
    - A thrown exception is a [Throw] result; [await] is sequencing.
    - JavaScript numbers in the layout code are IEEE-754 binary64
      numbers, the primitive [float]: sums, differences, products and
      quotients round as the code's do, and the infinities, the two
      zeros and NaN are values ([num]). *)

From Stdlib Require Floats.
Import PrimFloat.
From Stdlib Require Import ZArith String Ascii.
From stdpp Require Import gmap strings list pretty.

Open Scope string_scope.

(** ** JavaScript string primitives *)

Module Js.

Definition inRange (lo hi : nat) (c : ascii) : bool :=
  let n := nat_of_ascii c in (lo <=? n)%nat && (n <=? hi)%nat.

(** [A-Z], and the upper-case letters of Latin-1 (all of 192 to 222 but
    the multiplication sign). *)
Definition isUpper (c : ascii) : bool :=
  inRange 65 90 c || (inRange 192 222 c && negb (nat_of_ascii c =? 215)%nat).
Definition isLower (c : ascii) : bool := inRange 97 122 c.
Definition isDigit (c : ascii) : bool := inRange 48 57 c.

Definition toLowerChar (c : ascii) : ascii :=
  if isUpper c then ascii_of_nat (nat_of_ascii c + 32) else c.

(** [s.toLowerCase()] *)
Fixpoint toLowerCase (s : string) : string :=
  match s with
  | EmptyString => EmptyString
  | String c r => String (toLowerChar c) (toLowerCase r)
  end.

(** [s.slice(0, n)] *)
Definition slice0 (n : nat) (s : string) : string := substring 0 n s.

(** [hay.includes(needle)] *)
Fixpoint includes (hay needle : string) : bool :=
  String.prefix needle hay ||
  match hay with
  | EmptyString => false
  | String _ r => includes r needle
  end.

(** White space removed by [trim()], among the 8-bit code units. *)
Definition isSpace (c : ascii) : bool :=
  let n := nat_of_ascii c in
  inRange 9 13 c || (n =? 32)%nat || (n =? 160)%nat.

Fixpoint trimStart (s : string) : string :=
  match s with
  | EmptyString => EmptyString
  | String c r => if isSpace c then trimStart r else s
  end.

Fixpoint allChars (p : ascii -> bool) (s : string) : bool :=
  match s with
  | EmptyString => true
  | String c r => p c && allChars p r
  end.

Fixpoint trimEnd (s : string) : string :=
  match s with
  | EmptyString => EmptyString
  | String c r => if allChars isSpace s then EmptyString else String c (trimEnd r)
  end.

(** [s.trim()] *)
Definition trim (s : string) : string := trimEnd (trimStart s).

(** A string is truthy when it is not empty. *)
Definition truthy (s : string) : bool :=
  match s with EmptyString => false | _ => true end.

(** [a || b] on strings. *)
Definition orElse (a b : string) : string := if truthy a then a else b.

(** [`${n}`] for a non-negative integer. *)
Definition ofNat (n : nat) : string := pretty n.

(** [[a, b, ...].join(sep)] *)
Fixpoint join (sep : string) (l : list string) : string :=
  match l with
  | [] => ""
  | [a] => a
  | a :: r => a +:+ sep +:+ join sep r
  end.

End Js.

(** ** The part of zod the schemas use *)

Module Zod.

Inductive slot : Type :=
| Missing
| Str (s : string)
| NotString.

Definition lengthBetween (lo hi : nat) (s : string) : bool :=
  (lo <=? String.length s)%nat && (String.length s <=? hi)%nat.

(** [z.string().min(lo).max(hi)] *)
Definition zString (lo hi : nat) (v : slot) : option string :=
  match v with
  | Str s => if lengthBetween lo hi s then Some s else None
  | _ => None
  end.

(** [z.string().regex(re)] for a regular expression given as a recogniser. *)
Definition zRegex (re : string -> bool) (v : slot) : option string :=
  match v with
  | Str s => if re s then Some s else None
  | _ => None
  end.

(** [z.enum(values)] *)
Definition zEnum (values : list string) (v : slot) : option string :=
  match v with
  | Str s => if bool_decide (s ∈ values) then Some s else None
  | _ => None
  end.

(** [inner.default(d)] and [inner.optional().default(d)]: a missing value is
    replaced by [d] before [inner] sees it. *)
Definition zDefault {A} (inner : slot -> option A) (d : A) (v : slot) : option A :=
  match v with
  | Missing => Some d
  | _ => inner v
  end.

(** [inner.optional()] *)
Definition zOptional {A} (inner : slot -> option A) (v : slot) : option (option A) :=
  match v with
  | Missing => Some None
  | _ => Some <$> inner v
  end.

(** [z.array(elem).min(lo).max(hi)] *)
Definition zArray {R A} (elem : R -> option A) (lo hi : nat) (l : list R)
  : option (list A) :=
  items ← mapM elem l;
  if (lo <=? length items)%nat && (length items <=? hi)%nat then Some items else None.

(** [schema.optional()] on an object or array position. *)
Definition zOptionalObj {R A} (inner : R -> option A) (v : option R)
  : option (option A) :=
  match v with
  | None => Some None
  | Some r => Some <$> inner r
  end.

End Zod.

(** ** server/flowchartService.js: constants, records and schemas *)

Module Service.
Import Js Zod.

Definition NODE_TYPES : list string :=
  ["start"; "process"; "decision"; "data"; "subprocess"; "end"; "actor"; "document"].

Definition isHexDigit (c : ascii) : bool :=
  isDigit c || inRange 97 102 c || inRange 65 70 c.

(** [/^#([0-9a-f]{6})$/i] *)
Definition HEX_COLOR_REGEX (s : string) : bool :=
  match s with
  | String "#" r => (String.length r =? 6)%nat && allChars isHexDigit r
  | _ => false
  end.

Record NodeColors : Type := mkNodeColors {
  nc_start : string;
  nc_process : string;
  nc_decision : string;
  nc_data : string;
  nc_subprocess : string;
  nc_end : string;
  nc_actor : string;
  nc_document : string
}.

Record Palette : Type := mkPalette {
  p_name : string;
  p_canvas : string;
  p_panel : string;
  p_text : string;
  p_mutedText : string;
  p_edge : string;
  p_accent : string;
  p_nodeColors : NodeColors
}.

Definition DEFAULT_PALETTE : Palette :=
  {| p_name := "Clean Blueprint";
     p_canvas := "#eef3ff";
     p_panel := "#ffffff";
     p_text := "#1e2b43";
     p_mutedText := "#5d6e90";
     p_edge := "#48658f";
     p_accent := "#0f8b8d";
     p_nodeColors :=
       {| nc_start := "#2a9d8f";
          nc_process := "#4f7cff";
          nc_decision := "#f4a261";
          nc_data := "#e76f51";
          nc_subprocess := "#9b7de6";
          nc_end := "#e63973";
          nc_actor := "#22b8b0";
          nc_document := "#e9c46a" |} |}.

Record DomainPalette : Type := mkDomainPalette {
  keywords : list string;
  dp_palette : Palette
}.

Definition DOMAIN_PALETTES : list DomainPalette :=
  [ {| keywords := ["health"; "medical"; "hospital"; "patient"; "triage"];
       dp_palette :=
         {| p_name := "Clinical Signal";
            p_canvas := "#edf8fb";
            p_panel := "#ffffff";
            p_text := "#1b2b40";
            p_mutedText := "#5b6f87";
            p_edge := "#2c728f";
            p_accent := "#168aad";
            p_nodeColors :=
              {| nc_start := "#2a9d8f";
                 nc_process := "#3a86ff";
                 nc_decision := "#ff9f1c";
                 nc_data := "#f28482";
                 nc_subprocess := "#6f5cc2";
                 nc_end := "#d7263d";
                 nc_actor := "#00a896";
                 nc_document := "#e9c46a" |} |} |};
    {| keywords := ["finance"; "bank"; "business"; "sales"; "customer"; "onboarding"];
       dp_palette :=
         {| p_name := "Executive Deck";
            p_canvas := "#f4f6fb";
            p_panel := "#ffffff";
            p_text := "#1f2a3d";
            p_mutedText := "#60708d";
            p_edge := "#4f5d95";
            p_accent := "#1f7a8c";
            p_nodeColors :=
              {| nc_start := "#2e8b57";
                 nc_process := "#2d6cdf";
                 nc_decision := "#f4a259";
                 nc_data := "#b56576";
                 nc_subprocess := "#7a5ad9";
                 nc_end := "#d1495b";
                 nc_actor := "#1f9e89";
                 nc_document := "#d4a72c" |} |} |};
    {| keywords := ["education"; "student"; "classroom"; "learning"; "school"];
       dp_palette :=
         {| p_name := "Classroom Focus";
            p_canvas := "#f9f6ef";
            p_panel := "#fffefb";
            p_text := "#2c2a3a";
            p_mutedText := "#69657e";
            p_edge := "#5f6f9c";
            p_accent := "#2a9d8f";
            p_nodeColors :=
              {| nc_start := "#2b9348";
                 nc_process := "#4361ee";
                 nc_decision := "#ff8800";
                 nc_data := "#ef476f";
                 nc_subprocess := "#8e7dbe";
                 nc_end := "#d90429";
                 nc_actor := "#1ea896";
                 nc_document := "#e9c46a" |} |} |} ].

(** Untrusted palette objects, as the schema sees them. *)
Record RawNodeColors : Type := mkRawNodeColors {
  rnc_start : slot;
  rnc_process : slot;
  rnc_decision : slot;
  rnc_data : slot;
  rnc_subprocess : slot;
  rnc_end : slot;
  rnc_actor : slot;
  rnc_document : slot
}.

Record RawPalette : Type := mkRawPalette {
  rp_name : slot;
  rp_canvas : slot;
  rp_panel : slot;
  rp_text : slot;
  rp_mutedText : slot;
  rp_edge : slot;
  rp_accent : slot;
  rp_nodeColors : option RawNodeColors
}.

(** A well-typed palette object read back as untrusted input. *)
Definition rawOfNodeColors (c : NodeColors) : RawNodeColors :=
  {| rnc_start := Str (nc_start c);
     rnc_process := Str (nc_process c);
     rnc_decision := Str (nc_decision c);
     rnc_data := Str (nc_data c);
     rnc_subprocess := Str (nc_subprocess c);
     rnc_end := Str (nc_end c);
     rnc_actor := Str (nc_actor c);
     rnc_document := Str (nc_document c) |}.

Definition rawOfPalette (p : Palette) : RawPalette :=
  {| rp_name := Str (p_name p);
     rp_canvas := Str (p_canvas p);
     rp_panel := Str (p_panel p);
     rp_text := Str (p_text p);
     rp_mutedText := Str (p_mutedText p);
     rp_edge := Str (p_edge p);
     rp_accent := Str (p_accent p);
     rp_nodeColors := Some (rawOfNodeColors (p_nodeColors p)) |}.

Definition zColor (d : string) : slot -> option string :=
  zDefault (zRegex HEX_COLOR_REGEX) d.

Definition nodeColorsSchema (raw : RawNodeColors) : option NodeColors :=
  let d := p_nodeColors DEFAULT_PALETTE in
  start ← zColor (nc_start d) (rnc_start raw);
  process ← zColor (nc_process d) (rnc_process raw);
  decision ← zColor (nc_decision d) (rnc_decision raw);
  data ← zColor (nc_data d) (rnc_data raw);
  subprocess ← zColor (nc_subprocess d) (rnc_subprocess raw);
  end_ ← zColor (nc_end d) (rnc_end raw);
  actor ← zColor (nc_actor d) (rnc_actor raw);
  document ← zColor (nc_document d) (rnc_document raw);
  Some (mkNodeColors start process decision data subprocess end_ actor document).

(** [paletteSchema.safeParse(raw)]: [Some data] on success. The
    [nodeColors] object itself has no default and is required. *)
Definition paletteSchema (raw : RawPalette) : option Palette :=
  let d := DEFAULT_PALETTE in
  name ← zDefault (zString 2 80) (p_name d) (rp_name raw);
  canvas ← zColor (p_canvas d) (rp_canvas raw);
  panel ← zColor (p_panel d) (rp_panel raw);
  text ← zColor (p_text d) (rp_text raw);
  mutedText ← zColor (p_mutedText d) (rp_mutedText raw);
  edge ← zColor (p_edge d) (rp_edge raw);
  accent ← zColor (p_accent d) (rp_accent raw);
  nodeColors ← rp_nodeColors raw ≫= nodeColorsSchema;
  Some (mkPalette name canvas panel text mutedText edge accent nodeColors).

(** Nodes and edges: untrusted, schema-parsed, and repaired. *)
Record RawNode : Type := mkRawNode {
  rn_id : slot;
  rn_label : slot;
  rn_type : slot;
  rn_details : slot;
  rn_notes : slot
}.

Record Node : Type := mkNode {
  n_id : string;
  n_label : string;
  n_type : string;
  n_details : string;
  n_notes : string
}.

Record RawEdge : Type := mkRawEdge {
  re_id : slot;
  re_source : slot;
  re_target : slot;
  re_label : slot;
  re_condition : slot
}.

Record ParsedEdge : Type := mkParsedEdge {
  pe_id : option string;
  pe_source : string;
  pe_target : string;
  pe_label : string;
  pe_condition : string
}.

Record Edge : Type := mkEdge {
  e_id : string;
  e_source : string;
  e_target : string;
  e_label : string;
  e_condition : string
}.

Record RawFlowchart : Type := mkRawFlowchart {
  rf_title : slot;
  rf_summary : slot;
  rf_rationale : slot;
  rf_suggestions : option (list slot);
  rf_nodes : list RawNode;
  rf_edges : list RawEdge;
  rf_palette : option RawPalette;
  rf_sourcePrompt : slot
}.

Record ParsedFlowchart : Type := mkParsedFlowchart {
  pf_title : string;
  pf_summary : string;
  pf_rationale : string;
  pf_suggestions : list string;
  pf_nodes : list Node;
  pf_edges : list ParsedEdge;
  pf_palette : option Palette
}.

Record RefineInput : Type := mkRefineInput {
  ri_title : string;
  ri_summary : string;
  ri_rationale : string;
  ri_suggestions : list string;
  ri_nodes : list Node;
  ri_edges : list ParsedEdge;
  ri_palette : option Palette;
  ri_sourcePrompt : string
}.

Record Flowchart : Type := mkFlowchart {
  title : string;
  summary : string;
  rationale : string;
  suggestions : list string;
  palette : Palette;
  nodes : list Node;
  edges : list Edge;
  sourcePrompt : string
}.

Definition nodeSchema (raw : RawNode) : option Node :=
  id ← zString 1 60 (rn_id raw);
  label ← zString 1 120 (rn_label raw);
  type ← zEnum NODE_TYPES (rn_type raw);
  details ← zDefault (zString 0 350) "" (rn_details raw);
  notes ← zDefault (zString 0 220) "" (rn_notes raw);
  Some (mkNode id label type details notes).

Definition edgeSchema (raw : RawEdge) : option ParsedEdge :=
  id ← zOptional (zString 0 80) (re_id raw);
  source ← zString 1 60 (re_source raw);
  target ← zString 1 60 (re_target raw);
  label ← zDefault (zString 0 120) "" (re_label raw);
  condition ← zDefault (zString 0 120) "" (re_condition raw);
  Some (mkParsedEdge id source target label condition).

(** [flowchartSchema.shape.nodes] and [flowchartSchema.shape.edges] *)
Definition nodesSchema : list RawNode -> option (list Node) := zArray nodeSchema 2 35.
Definition edgesSchema : list RawEdge -> option (list ParsedEdge) := zArray edgeSchema 0 90.

Definition suggestionsSchema (lo : nat) (v : option (list slot)) : option (list string) :=
  match v with
  | None => Some []
  | Some l => zArray (zString lo 160) 0 8 l
  end.

(** [flowchartSchema.parse(raw)]: [None] stands for the thrown ZodError.
    Keys the schema does not list ([sourcePrompt]) are stripped. *)
Definition flowchartSchema (raw : RawFlowchart) : option ParsedFlowchart :=
  title ← zString 3 140 (rf_title raw);
  summary ← zString 10 1000 (rf_summary raw);
  rationale ← zString 10 1200 (rf_rationale raw);
  suggestions ← suggestionsSchema 2 (rf_suggestions raw);
  nodes ← nodesSchema (rf_nodes raw);
  edges ← edgesSchema (rf_edges raw);
  palette ← zOptionalObj paletteSchema (rf_palette raw);
  Some (mkParsedFlowchart title summary rationale suggestions nodes edges palette).

(** [refineInputSchema.parse(raw)] *)
Definition refineInputSchema (raw : RawFlowchart) : option RefineInput :=
  title ← zDefault (zString 0 140) "Refined Flowchart" (rf_title raw);
  summary ← zDefault (zString 0 1000)
              "Refined flowchart based on follow-up instructions." (rf_summary raw);
  rationale ← zDefault (zString 0 1200)
                "Refinement preserves structure and applies the requested update."
                (rf_rationale raw);
  suggestions ← suggestionsSchema 1 (rf_suggestions raw);
  nodes ← nodesSchema (rf_nodes raw);
  edges ← edgesSchema (rf_edges raw);
  palette ← zOptionalObj paletteSchema (rf_palette raw);
  sourcePrompt ← zDefault (zString 0 5000) "" (rf_sourcePrompt raw);
  Some (mkRefineInput title summary rationale suggestions nodes edges palette sourcePrompt).

(** ** Palette normaliser and keyword palette pick *)

(** [normalizePalette(rawPalette, fallbackPalette = DEFAULT_PALETTE)].
    [None] is an absent ([undefined] or [null]) argument. *)
Definition normalizePalette (rawPalette fallbackPalette : option RawPalette) : Palette :=
  let attemptedPalette :=
    match rawPalette with
    | Some r => r
    | None => default (rawOfPalette DEFAULT_PALETTE) fallbackPalette
    end in
  match paletteSchema attemptedPalette with
  | Some data => data
  | None =>
      match paletteSchema (rawOfPalette DEFAULT_PALETTE) with
      | Some data => data
      | None => DEFAULT_PALETTE
      end
  end.

Fixpoint pickPaletteFrom (entries : list DomainPalette) (lowerPrompt : string) : Palette :=
  match entries with
  | [] => DEFAULT_PALETTE
  | entry :: rest =>
      if existsb (fun word => includes lowerPrompt word) (keywords entry)
      then dp_palette entry
      else pickPaletteFrom rest lowerPrompt
  end.

Definition pickPaletteFromPrompt (prompt : string) : Palette :=
  pickPaletteFrom DOMAIN_PALETTES (toLowerCase prompt).

(** ** Identifier sanitiser *)

Definition isSlugChar (c : ascii) : bool := isLower c || isDigit c.

(** [.replace(/[^a-z0-9]+/g, "-")]; [inRun] tells that the previous code
    unit already belongs to the run being replaced. *)
Fixpoint replaceRuns (inRun : bool) (s : string) : string :=
  match s with
  | EmptyString => EmptyString
  | String c r =>
      if isSlugChar c then String c (replaceRuns false r)
      else if inRun then replaceRuns true r
      else String "-" (replaceRuns true r)
  end.

Definition isHyphen (c : ascii) : bool := (nat_of_ascii c =? 45)%nat.

Fixpoint stripLeadingHyphens (s : string) : string :=
  match s with
  | EmptyString => EmptyString
  | String c r => if isHyphen c then stripLeadingHyphens r else s
  end.

Fixpoint stripTrailingHyphens (s : string) : string :=
  match s with
  | EmptyString => EmptyString
  | String c r =>
      if allChars isHyphen s then EmptyString else String c (stripTrailingHyphens r)
  end.

(** [.replace(/^-+|-+$/g, "")] *)
Definition stripHyphens (s : string) : string :=
  stripTrailingHyphens (stripLeadingHyphens s).

Definition sanitizeId (value fallback : string) : string :=
  let safe := slice0 50 (stripHyphens (replaceRuns false (toLowerCase value))) in
  orElse safe fallback.

(** ** Graph repair *)

Definition withId (node : Node) (id : string) : Node :=
  mkNode id (n_label node) (n_type node) (n_details node) (n_notes node).

Definition withType (type : string) (node : Node) : Node :=
  mkNode (n_id node) (n_label node) type (n_details node) (n_notes node).

(** The state the node callback closes over. *)
Record IdState : Type := mkIdState {
  usedIds : gset string;
  idMap : gmap string string
}.

(** The node callback of [parsed.nodes.map((node, index) => ...)]. *)
Definition normalizeNode (st : IdState) (index : nat) (node : Node) : Node * IdState :=
  let candidate := sanitizeId (n_id node) ("node-" +:+ ofNat (index + 1)) in
  let candidate :=
    if bool_decide (candidate ∈ usedIds st)
    then candidate +:+ "-" +:+ ofNat (index + 1)
    else candidate in
  (withId node candidate,
   {| usedIds := {[candidate]} ∪ usedIds st;
      idMap := <[n_id node := candidate]> (idMap st) |}).

Fixpoint normalizeNodes (st : IdState) (index : nat) (l : list Node)
  : list Node * IdState :=
  match l with
  | [] => ([], st)
  | node :: rest =>
      let '(node', st') := normalizeNode st index node in
      let '(rest', st'') := normalizeNodes st' (S index) rest in
      (node' :: rest', st'')
  end.

(** The edge callback: [None] is the [null] that [filter(Boolean)] drops. *)
Definition normalizeEdge (idMap : gmap string string) (validIdSet : gset string)
    (index : nat) (edge : ParsedEdge) : option Edge :=
  let source := default (sanitizeId (pe_source edge) "") (idMap !! pe_source edge) in
  let target := default (sanitizeId (pe_target edge) "") (idMap !! pe_target edge) in
  if negb (bool_decide (source ∈ validIdSet)) || negb (bool_decide (target ∈ validIdSet))
  then None
  else
    let edgeId :=
      match pe_id edge with
      | Some id =>
          if truthy id then sanitizeId id ("edge-" +:+ ofNat (index + 1))
          else "edge-" +:+ source +:+ "-" +:+ target +:+ "-" +:+ ofNat (index + 1)
      | None => "edge-" +:+ source +:+ "-" +:+ target +:+ "-" +:+ ofNat (index + 1)
      end in
    Some (mkEdge edgeId source target (pe_label edge) (pe_condition edge)).

Fixpoint normalizeEdges (idMap : gmap string string) (validIdSet : gset string)
    (index : nat) (l : list ParsedEdge) : list Edge :=
  match l with
  | [] => []
  | edge :: rest =>
      match normalizeEdge idMap validIdSet index edge with
      | Some e => e :: normalizeEdges idMap validIdSet (S index) rest
      | None => normalizeEdges idMap validIdSet (S index) rest
      end
  end.

Definition hasType (type : string) (l : list Node) : bool :=
  existsb (fun node => String.eqb (n_type node) type) l.

(** Terminal enforcement. The two assignments are in range: the schema
    admits no node list shorter than two. *)
Definition enforceTerminals (l : list Node) : list Node :=
  let l := if negb (hasType "start" l) then alter (withType "start") 0%nat l else l in
  if negb (hasType "end" l) then alter (withType "end") (length l - 1)%nat l else l.

(** The loop [for (i = 0; i < nodes.length - 1; i += 1) edges.push(...)],
    entered at index [i] with the nodes from position [i] on. *)
Fixpoint chainEdges (i : nat) (l : list Node) : list Edge :=
  match l with
  | a :: (b :: _) as rest =>
      mkEdge ("edge-" +:+ n_id a +:+ "-" +:+ n_id b +:+ "-" +:+ ofNat (i + 1))
             (n_id a) (n_id b) "" ""
      :: chainEdges (S i) rest
  | _ => []
  end.

(** The node pass and the edge pass, on a parsed document. *)
Definition repairNodes (parsed : ParsedFlowchart) : list Node * IdState :=
  normalizeNodes (mkIdState ∅ ∅) 0 (pf_nodes parsed).

Definition repairEdges (parsed : ParsedFlowchart) : list Edge :=
  let '(nodes, st) := repairNodes parsed in
  let validIdSet : gset string := list_to_set (n_id <$> nodes) in
  normalizeEdges (idMap st) validIdSet 0 (pf_edges parsed).

(** [normalizeFlowchart(rawFlowchart, prompt, fallbackPalette = DEFAULT_PALETTE)];
    [None] is the ZodError thrown by [flowchartSchema.parse]. *)
Definition normalizeFlowchart (rawFlowchart : RawFlowchart) (prompt : string)
    (fallbackPalette : option RawPalette) : option Flowchart :=
  parsed ← flowchartSchema rawFlowchart;
  let fallbackPalette := default (rawOfPalette DEFAULT_PALETTE) fallbackPalette in
  let palette := normalizePalette (rawOfPalette <$> pf_palette parsed)
                                  (Some fallbackPalette) in
  let nodes := fst (repairNodes parsed) in
  let edges := repairEdges parsed in
  let nodes := enforceTerminals nodes in
  let edges := match edges with [] => chainEdges 0 nodes | _ => edges end in
  Some {| title := pf_title parsed;
          summary := pf_summary parsed;
          rationale := pf_rationale parsed;
          suggestions := pf_suggestions parsed;
          palette := palette;
          nodes := nodes;
          edges := edges;
          sourcePrompt := prompt |}.

(** ** Fallback documents *)

Definition fallbackNodes (shortPrompt detailLevel audience : string) : list Node :=
  [ mkNode "problem-definition" "Define Problem" "start" shortPrompt
           (if truthy audience then "Audience: " +:+ audience else "");
    mkNode "requirements" "Extract Requirements" "process"
           "Identify goals, constraints, and success metrics."
           ("Detail level: " +:+ detailLevel);
    mkNode "modeling" "Model Diagram Logic" "subprocess"
           "Draft node semantics, decision points, and transitions."
           "Explainability and presentation clarity are prioritized.";
    mkNode "review" "Review & Iterate" "decision"
           "Check correctness, readability, and audience fit."
           "If no, refine structure. If yes, finalize.";
    mkNode "final-diagram" "Final Diagram" "end"
           "Interactive flowchart ready for slides and technical documentation."
           "" ].

Definition fallbackEdges : list Edge :=
  [ mkEdge "edge-problem-requirements-1" "problem-definition" "requirements"
           "clarify goal" "";
    mkEdge "edge-requirements-modeling-2" "requirements" "modeling"
           "structure steps" "";
    mkEdge "edge-modeling-review-3" "modeling" "review" "validate" "";
    mkEdge "edge-review-modeling-4" "review" "modeling" "No" "needs improvement";
    mkEdge "edge-review-final-5" "review" "final-diagram" "Yes" "ready" ].

Definition fallbackFlowchart (prompt detailLevel audience : string) : Flowchart :=
  let shortPrompt :=
    if (120 <? String.length prompt)%nat then slice0 117 prompt +:+ "..." else prompt in
  let summary :=
    join " "
      [ "This fallback diagram was generated because the model response was incomplete.";
        "It provides a safe baseline flow that you can edit directly in React Flow." ] in
  {| title := "Fallback Flowchart";
     summary := summary;
     rationale :=
       "Fallback logic keeps the system usable even when model output is malformed, while preserving explainability-first structure.";
     suggestions :=
       [ "Use precise domain language in your prompt.";
         "Specify target audience and depth.";
         "Mention decision branches explicitly." ];
     palette := pickPaletteFromPrompt prompt;
     nodes := fallbackNodes shortPrompt detailLevel audience;
     edges := fallbackEdges;
     sourcePrompt := prompt |}.

Definition refinedFallback (currentFlowchart : Flowchart) (followUpPrompt : string)
  : Flowchart :=
  {| title := title currentFlowchart;
     summary := summary currentFlowchart +:+ " Refinement applied: " +:+ followUpPrompt;
     rationale :=
       "Model refinement failed, so the system preserved the existing diagram with a traceable refinement note.";
     suggestions :=
       take 5 (suggestions currentFlowchart)
       ++ ["Try a shorter follow-up prompt with one change request at a time."];
     palette := palette currentFlowchart;
     nodes := nodes currentFlowchart;
     edges := edges currentFlowchart;
     sourcePrompt := sourcePrompt currentFlowchart |}.

(** ** Exceptions, the environment and the two pipelines *)

Inductive thrown : Type :=
| ErrorObject (message : string)
| NotAnError.

Inductive result (A : Type) : Type :=
| Return (a : A)
| Throw (e : thrown).
Arguments Return {A} a.
Arguments Throw {A} e.

#[global] Instance result_ret : MRet result := fun A a => Return a.
#[global] Instance result_bind : MBind result := fun A B f m =>
  match m with
  | Return a => f a
  | Throw e => Throw e
  end.

(** [error instanceof Error ? error.message : "Unknown LLM error"] *)
Definition messageOf (error : thrown) : string :=
  match error with
  | ErrorObject message => message
  | NotAnError => "Unknown LLM error"
  end.

Record Env : Type := mkEnv {
  GROQ_API_KEY : option string;
  GROQ_MODEL : option string
}.

Record GroqClient : Type := mkGroq { apiKey : string }.

Definition getGroqClient (env : Env) : result GroqClient :=
  match GROQ_API_KEY env with
  | Some key => if truthy key then Return (mkGroq key)
                else Throw (ErrorObject "Missing GROQ_API_KEY in environment.")
  | None => Throw (ErrorObject "Missing GROQ_API_KEY in environment.")
  end.

(** What the messages sent to the model are built from. *)
Inductive Request : Type :=
| GenerateRequest (prompt detailLevel audience : string)
| RefineRequest (currentFlowchart : Flowchart) (followUpPrompt detailLevel audience : string).

(** A well-typed document read back as untrusted input. *)
Definition rawOfNode (node : Node) : RawNode :=
  mkRawNode (Str (n_id node)) (Str (n_label node)) (Str (n_type node))
            (Str (n_details node)) (Str (n_notes node)).

Definition rawOfParsedEdge (edge : ParsedEdge) : RawEdge :=
  mkRawEdge (from_option Str Missing (pe_id edge)) (Str (pe_source edge))
            (Str (pe_target edge)) (Str (pe_label edge)) (Str (pe_condition edge)).

(** The object [{ ...parsedCurrent, summary, rationale }] that
    [refineFlowchartFromPrompt] hands to the repair, with the [summary] and
    [rationale] it computes just before. *)
Definition safeInput (parsedCurrent : RefineInput) : RawFlowchart :=
  let summary :=
    if (10 <=? String.length (trim (ri_summary parsedCurrent)))%nat
    then ri_summary parsedCurrent
    else "Refined flowchart based on follow-up instructions." in
  let rationale :=
    if (10 <=? String.length (trim (ri_rationale parsedCurrent)))%nat
    then ri_rationale parsedCurrent
    else "Refinement preserves structure and applies the requested update." in
  {| rf_title := Str (ri_title parsedCurrent);
     rf_summary := Str summary;
     rf_rationale := Str rationale;
     rf_suggestions := Some (Str <$> ri_suggestions parsedCurrent);
     rf_nodes := rawOfNode <$> ri_nodes parsedCurrent;
     rf_edges := rawOfParsedEdge <$> ri_edges parsedCurrent;
     rf_palette := rawOfPalette <$> ri_palette parsedCurrent;
     rf_sourcePrompt := Str (ri_sourcePrompt parsedCurrent) |}.

(** The repair of the current flowchart, with the prompt and the fallback
    palette [refineFlowchartFromPrompt] passes. *)
Definition repairCurrent (parsedCurrent : RefineInput) (raw : RawFlowchart)
  : option Flowchart :=
  normalizeFlowchart raw (orElse (ri_sourcePrompt parsedCurrent) "")
    (Some (rawOfPalette
             (normalizePalette (rawOfPalette <$> ri_palette parsedCurrent) None))).

(** [process.env.GROQ_MODEL || "llama-3.1-8b-instant"] *)
Definition modelName (env : Env) : string :=
  orElse (default "" (GROQ_MODEL env)) "llama-3.1-8b-instant".

(** The schema a ZodError comes from. *)
Inductive schemaName : Type :=
| FlowchartSchema
| RefineInputSchema.

Section Pipeline.

(** The message text zod puts in the ZodError of a schema for a rejected
    input. *)
Variable zodMessage : schemaName -> RawFlowchart -> string.

(** The awaited model step [runModel({ messages, model, groq })], the
    messages being determined by the request: it returns the JSON the
    completion parsed to, or throws. *)
Variable runModel : Request -> string -> GroqClient -> result RawFlowchart.

Definition parseOrThrow {A} (name : schemaName) (schema : RawFlowchart -> option A)
    (raw : RawFlowchart) : result A :=
  match schema raw with
  | Some a => Return a
  | None => Throw (ErrorObject (zodMessage name raw))
  end.

(** [try { body } catch (error) { ... }] of both pipelines. *)
Definition catchModelFailure (body : result Flowchart) (fallback : Flowchart)
  : result Flowchart :=
  match body with
  | Return flowchart => Return flowchart
  | Throw error =>
      if includes (messageOf error) "Missing GROQ_API_KEY" then Throw error
      else Return fallback
  end.

Definition generateFlowchartFromPrompt (env : Env) (prompt : string)
    (detailLevel audience : option string) : result Flowchart :=
  let detailLevel := default "balanced" detailLevel in
  let audience := default "" audience in
  let model := modelName env in
  groq ← getGroqClient env;
  let fallbackPalette := pickPaletteFromPrompt prompt in
  catchModelFailure
    (parsed ← runModel (GenerateRequest prompt detailLevel audience) model groq;
     parseOrThrow FlowchartSchema
       (fun raw => normalizeFlowchart raw prompt (Some (rawOfPalette fallbackPalette)))
       parsed)
    (fallbackFlowchart prompt detailLevel audience).

Definition refineFlowchartFromPrompt (env : Env) (currentFlowchart : RawFlowchart)
    (followUpPrompt : string) (detailLevel audience : option string)
  : result Flowchart :=
  let detailLevel := default "balanced" detailLevel in
  let audience := default "" audience in
  parsedCurrent ← parseOrThrow RefineInputSchema refineInputSchema currentFlowchart;
  safeCurrent ← parseOrThrow FlowchartSchema (repairCurrent parsedCurrent)
                             (safeInput parsedCurrent);
  let model := modelName env in
  groq ← getGroqClient env;
  catchModelFailure
    (parsed ← runModel (RefineRequest safeCurrent followUpPrompt detailLevel audience)
                       model groq;
     parseOrThrow FlowchartSchema
       (fun raw =>
          normalizeFlowchart raw (orElse (sourcePrompt safeCurrent) followUpPrompt)
            (Some (rawOfPalette (palette safeCurrent))))
       parsed)
    (refinedFallback safeCurrent followUpPrompt).

End Pipeline.

End Service.

(** ** The HTTP handlers of [server/index.js] *)

Module Http.
Import Js Zod Service.

(** What a handler answers: [res.json({ flowchart })], or
    [res.status(status).json({ error })]. *)
Inductive Response : Type :=
| Json (flowchart : Flowchart)
| Failure (status : nat) (error : string).

(** [typeof v === "string" ? v.trim() : ""] *)
Definition trimmedText (v : slot) : string :=
  match v with
  | Str s => trim s
  | _ => ""
  end.

(** [typeof v === "string" ? v : d] *)
Definition textOr (d : string) (v : slot) : string :=
  match v with
  | Str s => s
  | _ => d
  end.

Record GenerateBody : Type := mkGenerateBody {
  gb_prompt : slot;
  gb_detailLevel : slot;
  gb_audience : slot
}.

(** [rb_flowchart] is [None] when [req.body?.flowchart] is falsy or not an
    object. *)
Record RefineBody : Type := mkRefineBody {
  rb_followUpPrompt : slot;
  rb_detailLevel : slot;
  rb_audience : slot;
  rb_flowchart : option RawFlowchart
}.

(** [error instanceof Error ? error.message : "Unexpected server error"] *)
Definition errorMessage (error : thrown) : string :=
  match error with
  | ErrorObject message => message
  | NotAnError => "Unexpected server error"
  end.

(** [message.includes("GROQ_API_KEY") ? 500 : 502] *)
Definition errorStatus (message : string) : nat :=
  if includes message "GROQ_API_KEY" then 500 else 502.

(** [try { res.json({ flowchart: await call }) } catch (error) { ... }] *)
Definition answer (outcome : result Flowchart) : Response :=
  match outcome with
  | Return flowchart => Json flowchart
  | Throw error =>
      let message := errorMessage error in
      Failure (errorStatus message) message
  end.

Section Handlers.

Variable zodMessage : schemaName -> RawFlowchart -> string.
Variable runModel : Request -> string -> GroqClient -> result RawFlowchart.

(** [app.post("/api/generate", ...)] *)
Definition postGenerate (env : Env) (body : GenerateBody) : Response :=
  let prompt := trimmedText (gb_prompt body) in
  let detailLevel := textOr "balanced" (gb_detailLevel body) in
  let audience := trimmedText (gb_audience body) in
  if negb (truthy prompt) || (String.length prompt <? 10)%nat
  then Failure 400 "Prompt must contain at least 10 characters."
  else answer (generateFlowchartFromPrompt zodMessage runModel env prompt
                 (Some detailLevel) (Some audience)).

(** [app.post("/api/refine", ...)] *)
Definition postRefine (env : Env) (body : RefineBody) : Response :=
  let followUpPrompt := trimmedText (rb_followUpPrompt body) in
  let detailLevel := textOr "balanced" (rb_detailLevel body) in
  let audience := trimmedText (rb_audience body) in
  match rb_flowchart body with
  | None => Failure 400 "A valid existing flowchart object is required."
  | Some currentFlowchart =>
      if (String.length followUpPrompt <? 5)%nat
      then Failure 400 "Follow-up prompt must contain at least 5 characters."
      else answer (refineFlowchartFromPrompt zodMessage runModel env currentFlowchart
                     followUpPrompt (Some detailLevel) (Some audience))
  end.

End Handlers.

End Http.

(** ** JavaScript numbers of the layout code *)

Module Num.

Definition num : Type := PrimFloat.float.

Definition NaN : num := PrimFloat.nan.
Definition PosInf : num := PrimFloat.infinity.
Definition NegInf : num := PrimFloat.neg_infinity.

(** [a < b], [a <= b] and [a === b] *)
Definition ltb (a b : num) : bool := (a <? b)%float.
Definition leb (a b : num) : bool := (a <=? b)%float.
Definition eqb (a b : num) : bool := (a =? b)%float.

(** [a + b], [a - b], [a * b] and [a / b] *)
Definition add (a b : num) : num := (a + b)%float.
Definition sub (a b : num) : num := (a - b)%float.
Definition mul (a b : num) : num := (a * b)%float.
Definition div (a b : num) : num := (a / b)%float.

(** [Number.isNaN(a)] and [Number.isFinite(a)] *)
Definition isNaN (a : num) : bool := negb (eqb a a).

Definition isFinite (a : num) : bool := ltb (PrimFloat.abs a) PosInf.

(** [Object.is(a, -0)] *)
Definition isNegZero (a : num) : bool :=
  match PrimFloat.classify a with
  | FloatClass.NZero => true
  | _ => false
  end.

(** [Math.min(a, b)] and [Math.max(a, b)]: NaN when an argument is NaN,
    and the negative zero counts as less than the positive one. *)
Definition min (a b : num) : num :=
  if isNaN a || isNaN b then NaN
  else if ltb b a then b
  else if ltb a b then a
  else if isNegZero b then b else a.

Definition max (a b : num) : num :=
  if isNaN a || isNaN b then NaN
  else if ltb a b then b
  else if ltb b a then a
  else if isNegZero a then b else a.

(** An integer literal of the code, below 2^53 in magnitude. *)
Definition ofZ (z : Z) : num :=
  if (z <? 0)%Z then PrimFloat.opp (PrimFloat.of_uint63 (Uint63Axioms.of_Z (- z)))
  else PrimFloat.of_uint63 (Uint63Axioms.of_Z z).

End Num.

(** ** The layout library: node sizes, bounding area, orientation choice *)

Module Layout.
Import Js Num.

Record Dimensions : Type := mkDimensions {
  width : Z;
  height : Z
}.

Definition NODE_DIMENSIONS : list (string * Dimensions) :=
  [ ("start", mkDimensions 250 130);
    ("process", mkDimensions 250 140);
    ("decision", mkDimensions 240 240);
    ("data", mkDimensions 260 150);
    ("subprocess", mkDimensions 250 150);
    ("end", mkDimensions 250 130);
    ("actor", mkDimensions 250 145);
    ("document", mkDimensions 255 155) ].

Fixpoint lookupKey {A} (key : string) (table : list (string * A)) : option A :=
  match table with
  | [] => None
  | (k, v) :: rest => if String.eqb k key then Some v else lookupKey key rest
  end.

(** [NODE_DIMENSIONS[kind] || NODE_DIMENSIONS.process], on the table's own
    keys. *)
Definition getNodeDimensions (kind : string) : Dimensions :=
  default (mkDimensions 250 140) (lookupKey kind NODE_DIMENSIONS).

(** [Math.ceil(a / b)] for integers with [b > 0] *)
Definition ceilDiv (a b : Z) : Z := (- ((- a) / b))%Z.

Record Payload : Type := mkPayload {
  label : option string;
  details : option string;
  notes : option string
}.

(** [String(value || "")] on a string or absent value *)
Definition textOf (value : option string) : string := orElse (default "" value) "".

Definition len (s : string) : Z := Z.of_nat (String.length s).

Definition estimateNodeDimensions (kind : string) (payload : Payload) : Dimensions :=
  let base := getNodeDimensions kind in
  let label := textOf (label payload) in
  let details := textOf (details payload) in
  let notes := textOf (notes payload) in
  let labelLines := Z.max 1 (ceilDiv (len label) 24) in
  let detailLines := ceilDiv (len details) 42 in
  let noteLines := ceilDiv (len notes) 44 in
  let estimatedLines := (labelLines + detailLines + noteLines)%Z in
  let width := width base in
  let height := height base in
  let extraLines := Z.max 0 (estimatedLines - 5) in
  let height := (height + extraLines * 18)%Z in
  let '(width, height) :=
    if String.eqb kind "decision"
    then (Z.max width (280 + extraLines * 12), Z.max height (280 + extraLines * 24))
    else (width, height) in
  let width :=
    if String.eqb kind "data"
    then Z.max width (280 + Z.max 0 (detailLines - 3) * 10)
    else width in
  let '(width, height) :=
    if String.eqb kind "actor" then (Z.max width 270, (height + 8)%Z)
    else (width, height) in
  let '(width, height) :=
    if String.eqb kind "document" then (Z.max width 270, (height + 8)%Z)
    else (width, height) in
  let width := Z.min width 420 in
  let height := Z.min height 560 in
  mkDimensions width height.

(** React Flow nodes and edges, with the fields the layout reads or writes.
    A configured size is a number or absent ([undefined] or [null]), as
    the application sets it. *)
Record Position : Type := mkPosition {
  x : num;
  y : num
}.

Record Configured : Type := mkConfigured {
  c_width : option num;
  c_height : option num
}.

Record FlowNode : Type := mkFlowNode {
  id : string;
  data_kind : option string;
  data_size : option Configured;
  node_width : option num;
  node_height : option num;
  style : option Configured;
  position : Position;
  sourcePosition : option string;
  targetPosition : option string
}.

Record Marker : Type := mkMarker {
  marker_type : string;
  color : string
}.

Record FlowEdge : Type := mkFlowEdge {
  edge_id : string;
  source : string;
  target : string;
  markerEnd : option Marker
}.

Record Size : Type := mkSize {
  size_width : num;
  size_height : num
}.

(** [toNumber(value, fallback)] on a number *)
Definition toNumber (value fallback : num) : num :=
  if isFinite value then value else fallback.

(** [a ?? b] *)
Definition coalesce {A} (a : option A) (b : option A) : option A :=
  match a with Some _ => a | None => b end.

Definition getNodeSize (node : FlowNode) : Size :=
  let kind := orElse (default "" (data_kind node)) "process" in
  let dims := getNodeDimensions kind in
  let configuredWidth :=
    default (ofZ (width dims))
      (coalesce (data_size node ≫= c_width)
         (coalesce (node_width node) (style node ≫= c_width))) in
  let configuredHeight :=
    default (ofZ (height dims))
      (coalesce (data_size node ≫= c_height)
         (coalesce (node_height node) (style node ≫= c_height))) in
  mkSize (toNumber configuredWidth (ofZ (width dims)))
         (toNumber configuredHeight (ofZ (height dims))).

Definition withPosition (node : FlowNode) (p : Position) : FlowNode :=
  mkFlowNode (id node) (data_kind node) (data_size node) (node_width node)
             (node_height node) (style node) p (sourcePosition node)
             (targetPosition node).

(** [normalizePositions(nodes, margin = 20)] *)
Definition normalizePositions (nodes : list FlowNode) (margin : num) : list FlowNode :=
  match nodes with
  | [] => nodes
  | _ =>
      let minX := foldl (fun acc node => min acc (x (position node))) PosInf nodes in
      let minY := foldl (fun acc node => min acc (y (position node))) PosInf nodes in
      let shiftX := if ltb minX margin then sub margin minX else 0%float in
      let shiftY := if ltb minY margin then sub margin minY else 0%float in
      if eqb shiftX 0%float && eqb shiftY 0%float then nodes
      else
        (fun node =>
           withPosition node
             (mkPosition (add (x (position node)) shiftX)
                         (add (y (position node)) shiftY))) <$> nodes
  end.

Record Bounds : Type := mkBounds {
  minX : num;
  minY : num;
  maxX : num;
  maxY : num
}.

Definition getBoundingArea (nodes : list FlowNode) : num :=
  match nodes with
  | [] => PosInf
  | _ =>
      let b :=
        foldl
          (fun b node =>
             let size := getNodeSize node in
             mkBounds (min (minX b) (x (position node)))
                      (min (minY b) (y (position node)))
                      (max (maxX b) (add (x (position node)) (size_width size)))
                      (max (maxY b) (add (y (position node)) (size_height size))))
          (mkBounds PosInf PosInf NegInf NegInf) nodes in
      mul (max 1%float (sub (maxX b) (minX b))) (max 1%float (sub (maxY b) (minY b)))
  end.

Record LayoutOptions : Type := mkLayoutOptions {
  direction : string;
  ranksep : Z;
  nodesep : Z;
  marginx : Z;
  marginy : Z
}.

(** The graph handed to the placement routine: its configuration, the
    [setNode] calls and the [setEdge] calls, in order. *)
Record Graph : Type := mkGraph {
  graphOptions : LayoutOptions;
  graphNodes : list (string * Size);
  graphEdges : list (string * string)
}.

Record LayoutRun : Type := mkLayoutRun {
  run_nodes : list FlowNode;
  run_edges : list FlowEdge;
  run_direction : string;
  area : num
}.

Record Layouted : Type := mkLayouted {
  nodes : list FlowNode;
  edges : list FlowEdge
}.

(** A computation that logs every graph it hands to the placement routine. *)
Definition Traced (A : Type) : Type := A * list Graph.

Definition ret {A} (a : A) : Traced A := (a, []).

Definition bind {A B} (m : Traced A) (f : A -> Traced B) : Traced B :=
  let '(a, log) := m in
  let '(b, log') := f a in
  (b, (log ++ log')%list).

Fixpoint mapT {A B} (f : A -> Traced B) (l : list A) : Traced (list B) :=
  match l with
  | [] => ret []
  | a :: rest => bind (f a) (fun b => bind (mapT f rest) (fun bs => ret (b :: bs)))
  end.

(** [array.sort(compare)]: stable, [compare(a, b) > 0] puts [a] after [b],
    a NaN comparison counts as zero. *)
Definition isPositive (v : num) : bool := ltb 0%float v.

Fixpoint insertSorted {A} (compare : A -> A -> num) (a : A) (sorted : list A) : list A :=
  match sorted with
  | [] => [a]
  | b :: rest =>
      if isPositive (compare b a) then a :: sorted
      else b :: insertSorted compare a rest
  end.

Definition sort {A} (compare : A -> A -> num) (l : list A) : list A :=
  foldl (fun sorted a => insertSorted compare a sorted) [] l.

(** The graph [runDagreLayout] builds before it calls the placement routine. *)
Definition buildGraph (nodes : list FlowNode) (edges : list FlowEdge)
    (options : LayoutOptions) : Graph :=
  mkGraph options
    ((fun node => (id node, getNodeSize node)) <$> nodes)
    ((fun edge => (source edge, target edge)) <$> edges).

Section Placement.

(** The layered-graph placement routine: [dagre.layout(graph)] followed
    by [graph.node(id)], the centre computed for a node id. *)
Variable place : Graph -> string -> Position.

Definition dagreLayout (graph : Graph) : Traced (string -> Position) :=
  (place graph, [graph]).

Definition runDagreLayout (nodes : list FlowNode) (edges : list FlowEdge)
    (options : LayoutOptions) : Traced LayoutRun :=
  let graph := buildGraph nodes edges options in
  bind (dagreLayout graph) (fun positionOf =>
  let horizontal := String.eqb (direction options) "LR" in
  let layoutedNodes :=
    (fun node =>
       let position := positionOf (id node) in
       let size := getNodeSize node in
       mkFlowNode (id node) (data_kind node) (data_size node)
         (Some (size_width size)) (Some (size_height size)) (style node)
         (mkPosition (sub (x position) (div (size_width size) 2%float))
                     (sub (y position) (div (size_height size) 2%float)))
         (Some (if horizontal then "right" else "bottom"))
         (Some (if horizontal then "left" else "top"))) <$> nodes in
  let nextNodes := normalizePositions layoutedNodes 20%float in
  let nextEdges :=
    (fun edge =>
       mkFlowEdge (edge_id edge) (source edge) (target edge)
         (Some (mkMarker "arrowclosed" "var(--edge-color)"))) <$> edges in
  ret (mkLayoutRun nextNodes nextEdges (direction options) (getBoundingArea nextNodes))).

Definition compactOptions (candidateDirection : string) : LayoutOptions :=
  mkLayoutOptions candidateDirection 45 30 20 20.

(** [getLayoutedElements(nodes, edges, direction = "TB")]; [None] would be
    the TypeError of reading [best.nodes] on an empty candidate array. *)
Definition getLayoutedElements (nodes : list FlowNode) (edges : list FlowEdge)
    (direction : string) : Traced (option Layouted) :=
  if String.eqb direction "COMPACT" then
    bind (mapT (fun candidateDirection =>
                  runDagreLayout nodes edges (compactOptions candidateDirection))
               ["TB"; "LR"])
      (fun compactCandidates =>
         ret ((fun best => mkLayouted (run_nodes best) (run_edges best))
                <$> head (sort (fun a b => sub (area a) (area b)) compactCandidates)))
  else
    let safeDirection := if String.eqb direction "LR" then "LR" else "TB" in
    bind (runDagreLayout nodes edges (mkLayoutOptions safeDirection 100 80 30 30))
      (fun result => ret (Some (mkLayouted (run_nodes result) (run_edges result)))).

End Placement.

End Layout.

(** ** Vocabulary of the statements, and the inputs they are checked on *)

Module Spec.
Import Js Zod Service.

(** A colour position fails the hex check: it is present and is not a
    string of the form [#rrggbb]. *)
Definition failsHex (v : slot) : Prop :=
  match v with
  | Missing => False
  | Str s => HEX_COLOR_REGEX s = false
  | NotString => True
  end.

Definition nodeColorSlots (c : RawNodeColors) : list slot :=
  [ rnc_start c; rnc_process c; rnc_decision c; rnc_data c;
    rnc_subprocess c; rnc_end c; rnc_actor c; rnc_document c ].

(** The six top-level colours and, when present, the eight node colours. *)
Definition colorSlots (raw : RawPalette) : list slot :=
  [ rp_canvas raw; rp_panel raw; rp_text raw; rp_mutedText raw;
    rp_edge raw; rp_accent raw ]
  ++ from_option nodeColorSlots [] (rp_nodeColors raw).

Definition someColorFails (raw : RawPalette) : Prop :=
  Exists failsHex (colorSlots raw).

(** The text a schema-accepted optional string position stands for. *)
Definition slotText (v : slot) : string :=
  match v with
  | Str s => s
  | _ => ""
  end.

Definition credentialAbsent (env : Env) : Prop :=
  GROQ_API_KEY env = None \/ GROQ_API_KEY env = Some "".

Definition missingKeyError : thrown :=
  ErrorObject "Missing GROQ_API_KEY in environment.".

Definition mentionsMissingKey (e : thrown) : bool :=
  includes (messageOf e) "Missing GROQ_API_KEY".

(** Sample inputs. *)
Definition sampleNode (id type : string) : RawNode :=
  mkRawNode (Str id) (Str "Step") (Str type) Missing Missing.

Definition sampleDocument (nodes : list RawNode) (palette : option RawPalette)
  : RawFlowchart :=
  {| rf_title := Str "Order handling";
     rf_summary := Str "How an order is handled.";
     rf_rationale := Str "Three steps are enough.";
     rf_suggestions := None;
     rf_nodes := nodes;
     rf_edges := [];
     rf_palette := palette;
     rf_sourcePrompt := Missing |}.

(** Three distinct raw ids; the third collides with the first after
    sanitising and its suffixed form collides with the second. *)
Definition collidingIds : RawFlowchart :=
  sampleDocument
    [sampleNode "Step" "start"; sampleNode "step-3" "process"; sampleNode "step" "end"]
    None.

(** The only start-typed node is the last one and no node is end-typed. *)
Definition startLast : RawFlowchart :=
  sampleDocument [sampleNode "intake" "process"; sampleNode "ship" "start"] None.

Definition abc : RawFlowchart :=
  sampleDocument
    [sampleNode "a" "start"; sampleNode "b" "process"; sampleNode "c" "end"] None.

(** The default palette with [accent] set to ["not-a-color"]. *)
Definition badAccent : RawPalette :=
  {| rp_name := Str (p_name DEFAULT_PALETTE);
     rp_canvas := Str (p_canvas DEFAULT_PALETTE);
     rp_panel := Str (p_panel DEFAULT_PALETTE);
     rp_text := Str (p_text DEFAULT_PALETTE);
     rp_mutedText := Str (p_mutedText DEFAULT_PALETTE);
     rp_edge := Str (p_edge DEFAULT_PALETTE);
     rp_accent := Str "not-a-color";
     rp_nodeColors := Some (rawOfNodeColors (p_nodeColors DEFAULT_PALETTE)) |}.

Definition clinicalSignal : Palette := pickPaletteFromPrompt "hospital triage".

Definition sampleEnv : Env := mkEnv (Some "gsk-test") None.

Definition failingModel (message : string)
  : Request -> string -> GroqClient -> result RawFlowchart :=
  fun _ _ _ => Throw (ErrorObject message).

Definition sampleZodMessage : schemaName -> RawFlowchart -> string :=
  fun _ _ => "[ZodError]".

(** A model step that answers with the given JSON. *)
Definition answeringModel (answer : RawFlowchart)
  : Request -> string -> GroqClient -> result RawFlowchart :=
  fun _ _ _ => Return answer.

(** An answer with a single node, which the schema rejects. *)
Definition oneNodeAnswer : RawFlowchart :=
  sampleDocument [sampleNode "only" "start"] None.

(** The default palette under a one-letter name: every colour is valid,
    the name is shorter than the schema allows. *)
Definition shortName : RawPalette :=
  {| rp_name := Str "X";
     rp_canvas := Str (p_canvas DEFAULT_PALETTE);
     rp_panel := Str (p_panel DEFAULT_PALETTE);
     rp_text := Str (p_text DEFAULT_PALETTE);
     rp_mutedText := Str (p_mutedText DEFAULT_PALETTE);
     rp_edge := Str (p_edge DEFAULT_PALETTE);
     rp_accent := Str (p_accent DEFAULT_PALETTE);
     rp_nodeColors := Some (rawOfNodeColors (p_nodeColors DEFAULT_PALETTE)) |}.

(** The hint [refinedFallback] appends to the suggestions. *)
Definition refinementHint : string :=
  "Try a shorter follow-up prompt with one change request at a time.".

(** The note [refinedFallback] puts in place of the rationale. *)
Definition refinementNote : string :=
  "Model refinement failed, so the system preserved the existing diagram with a traceable refinement note.".

(** The slug the node callback starts from, for the node at [index]. *)
Definition candidateOf (index : nat) (node : Node) : string :=
  sanitizeId (n_id node) ("node-" +:+ ofNat (index + 1)).

(** The checks of [paletteSchema] on a well-typed palette. *)
Definition validNodeColors (c : NodeColors) : bool :=
  HEX_COLOR_REGEX (nc_start c) && HEX_COLOR_REGEX (nc_process c) &&
  HEX_COLOR_REGEX (nc_decision c) && HEX_COLOR_REGEX (nc_data c) &&
  HEX_COLOR_REGEX (nc_subprocess c) && HEX_COLOR_REGEX (nc_end c) &&
  HEX_COLOR_REGEX (nc_actor c) && HEX_COLOR_REGEX (nc_document c).

Definition validPalette (p : Palette) : bool :=
  lengthBetween 2 80 (p_name p) &&
  HEX_COLOR_REGEX (p_canvas p) && HEX_COLOR_REGEX (p_panel p) &&
  HEX_COLOR_REGEX (p_text p) && HEX_COLOR_REGEX (p_mutedText p) &&
  HEX_COLOR_REGEX (p_edge p) && HEX_COLOR_REGEX (p_accent p) &&
  validNodeColors (p_nodeColors p).

(** Vocabulary of the further properties. *)
Definition isSlugOrHyphen (c : ascii) : bool := isSlugChar c || isHyphen c.

Definition startsWithHyphen (s : string) : bool :=
  match s with
  | String c _ => isHyphen c
  | EmptyString => false
  end.

(** A slug: between 1 and 50 code units from [a-z0-9-], the first not a
    hyphen. *)
Definition isSlug (s : string) : bool :=
  lengthBetween 1 50 s && allChars isSlugOrHyphen s && negb (startsWithHyphen s).


(** The checks of [nodeSchema] on a well-typed node. *)
Definition validNode (n : Node) : bool :=
  lengthBetween 1 60 (n_id n) && lengthBetween 1 120 (n_label n) &&
  bool_decide (n_type n ∈ NODE_TYPES) &&
  lengthBetween 0 350 (n_details n) && lengthBetween 0 220 (n_notes n).

(** What a defaulted string position of a schema parses to, when it
    parses. *)
Definition slotOr (d : string) (v : slot) : string :=
  match v with
  | Str s => s
  | _ => d
  end.

Definition sampleEdge (source target : string) : RawEdge :=
  mkRawEdge Missing (Str source) (Str target) Missing Missing.

(** The nodes a, b, c with the edges a to b, b to c. *)
Definition abcLinked : RawFlowchart :=
  {| rf_title := Str "Order handling";
     rf_summary := Str "How an order is handled.";
     rf_rationale := Str "Three steps are enough.";
     rf_suggestions := None;
     rf_nodes := rf_nodes abc;
     rf_edges := [sampleEdge "a" "b"; sampleEdge "b" "c"];
     rf_palette := None;
     rf_sourcePrompt := Missing |}.

End Spec.

(** ** Vocabulary of the binary64 specification *)

Module Ieee.

Abbreviation prec := FloatOps.prec.
Abbreviation emax := FloatOps.emax.
Abbreviation emin := (SpecFloat.emin FloatOps.prec FloatOps.emax).

(** A number of the binary64 specification that is finite and not zero,
    or infinite, with the sign [s]. *)
Definition signed (s : bool) (v : SpecFloat.spec_float) : Prop :=
  match v with
  | SpecFloat.S754_finite s' _ _ | SpecFloat.S754_infinity s' => s' = s
  | _ => False
  end.

End Ieee.

Module LayoutSpec.
Import Js Num Layout.

Definition compactTB : LayoutOptions := mkLayoutOptions "TB" 45 30 20 20.
Definition compactLR : LayoutOptions := mkLayoutOptions "LR" 45 30 20 20.

(** The kind [getNodeSize] reads from a node. *)
Definition nodeKind (node : FlowNode) : string :=
  orElse (default "" (data_kind node)) "process".





Definition plainNode (id : string) : FlowNode :=
  mkFlowNode id (Some "process") None None None None
             (mkPosition 0%float 0%float) None None.

(** A node with a configured size. *)
Definition sizedNode (id : string) (w h : num) : FlowNode :=
  mkFlowNode id (Some "process") (Some (mkConfigured (Some w) (Some h))) None None None
             (mkPosition 0%float 0%float) None None.

(** A placement that stacks the nodes "a" and "b" along the rank axis,
    45 apart, as a layered layout of the edge a to b does. *)
Definition stackingPlace (graph : Graph) (id : string) : Position :=
  if String.eqb id "a" then mkPosition 145%float 90%float
  else if String.eqb (direction (graphOptions graph)) "LR"
       then mkPosition 440%float 90%float
       else mkPosition 145%float 275%float.

Definition twoNodes : list FlowNode := [plainNode "a"; plainNode "b"].

(** One node of 100.1 by 50, and a placement that centres it at
    (70.05, 45) in the top-to-bottom run and at (95.1, 45) in the
    left-to-right run. *)
Definition wideNode : FlowNode := sizedNode "a" 0x1.9066666666666p+6%float 50%float.

Definition driftingPlace (graph : Graph) (id : string) : Position :=
  if String.eqb (direction (graphOptions graph)) "LR"
  then mkPosition 0x1.7c66666666666p+6%float 45%float
  else mkPosition 0x1.1833333333333p+6%float 45%float.

(** A details text of 2400 code units. *)
Definition longDetails : string :=
  String.concat "" (replicate 200 "lorem ipsum ").
Definition oneEdge : list FlowEdge := [mkFlowEdge "e1" "a" "b" None].

(** [after] is the node [before] as a layout run returns it: the same id,
    kind and configured sizes, its width and height set to the size the
    layout used for it. *)
Definition laidOut (before after : FlowNode) : Prop :=
  id after = id before /\ data_kind after = data_kind before /\
  data_size after = data_size before /\ style after = style before /\
  node_width after = Some (size_width (getNodeSize before)) /\
  node_height after = Some (size_height (getNodeSize before)).

(** [after] is the edge [before] with the closed arrow as its end marker. *)
Definition marked (before after : FlowEdge) : Prop :=
  edge_id after = edge_id before /\ source after = source before /\
  target after = target before /\
  markerEnd after = Some (mkMarker "arrowclosed" "var(--edge-color)").

(** The handles of a node laid out in direction [horizontal] or not. *)
Definition handles (horizontal : bool) (node : FlowNode) : Prop :=
  sourcePosition node = Some (if horizontal then "right" else "bottom") /\
  targetPosition node = Some (if horizontal then "left" else "top").

(** A node whose configured width is not a finite number. *)
Definition unboundedNode : FlowNode :=
  mkFlowNode "a" (Some "decision")
    (Some (mkConfigured (Some PosInf) (Some 120%float))) None None None
    (mkPosition 0%float 0%float) None None.

End LayoutSpec.

(** * Properties of the repair pipeline *)

Module ServiceProps.
Import Js Zod Service Spec.

Ltac bind_inv H := repeat (apply bind_Some in H as (? & ? & H)).

Ltac bind_chain :=
  repeat match goal with
         | |- (None ≫= _) = None => reflexivity
         | |- (?m ≫= _) = None => destruct m eqn:?; [cbn [mbind option_bind]|reflexivity]
         end.

(** ** The sanitiser on the documented samples *)

Example sanitizeId_start_node : sanitizeId "Start Node!!" "node-1" = "start-node".
Proof. reflexivity. Qed.

Example sanitizeId_empty_slug : sanitizeId "?!" "node-4" = "node-4".
Proof. reflexivity. Qed.

Example same_raw_id_twice :
  (n_id <$> (normalizeNodes (mkIdState ∅ ∅) 0
               [mkNode "step" "A" "start" "" ""; mkNode "step" "B" "end" "" ""]).1)
  = ["step"; "step-2"].
Proof. vm_compute. reflexivity. Qed.

(** ** Schemas *)

(** What the node schema keeps of an accepted raw node. *)
Lemma nodeSchema_Some rn n :
  nodeSchema rn = Some n ->
  rn_id rn = Str (n_id n) /\ rn_label rn = Str (n_label n) /\
  rn_type rn = Str (n_type n) /\
  n_details n = slotText (rn_details rn) /\ n_notes n = slotText (rn_notes rn).
Proof.
  unfold nodeSchema, zString, zEnum, zDefault.
  destruct rn as [i l t d o]; simpl.
  intros H.
  destruct i, l, t, d, o; simpl in H; try discriminate;
    repeat (case_match; simpl in H; try discriminate); simplify_eq; auto.
Qed.

Lemma zArray_Some {R A} (elem : R -> option A) lo hi l k :
  zArray elem lo hi l = Some k ->
  Forall2 (fun r a => elem r = Some a) l k /\ (lo <= length k <= hi)%nat.
Proof.
  unfold zArray. intros H.
  apply bind_Some in H as (items & Hitems & H).
  destruct (Nat.leb_spec lo (length items)), (Nat.leb_spec (length items) hi);
    simpl in H; simplify_eq.
  split; [by apply mapM_Some|lia].
Qed.

Lemma flowchartSchema_Some raw parsed :
  flowchartSchema raw = Some parsed ->
  zString 3 140 (rf_title raw) = Some (pf_title parsed) /\
  zString 10 1000 (rf_summary raw) = Some (pf_summary parsed) /\
  zString 10 1200 (rf_rationale raw) = Some (pf_rationale parsed) /\
  suggestionsSchema 2 (rf_suggestions raw) = Some (pf_suggestions parsed) /\
  nodesSchema (rf_nodes raw) = Some (pf_nodes parsed) /\
  edgesSchema (rf_edges raw) = Some (pf_edges parsed) /\
  zOptionalObj paletteSchema (rf_palette raw) = Some (pf_palette parsed).
Proof.
  unfold flowchartSchema. intros H. bind_inv H. by simplify_eq.
Qed.

(** The schema admits between 2 and 35 nodes. *)
Lemma accepted_node_count raw parsed :
  flowchartSchema raw = Some parsed ->
  length (pf_nodes parsed) = length (rf_nodes raw) /\
  (2 <= length (pf_nodes parsed) <= 35)%nat.
Proof.
  intros Hparsed.
  apply flowchartSchema_Some in Hparsed as (_ & _ & _ & _ & Hnodes & _ & _).
  apply zArray_Some in Hnodes as [Hall Hbounds].
  split; [symmetry; by eapply Forall2_length|done].
Qed.

(** ** The node pass *)

Lemma normalizeNodes_cons st index node rest :
  normalizeNodes st index (node :: rest) =
  ((normalizeNode st index node).1
     :: (normalizeNodes (normalizeNode st index node).2 (S index) rest).1,
   (normalizeNodes (normalizeNode st index node).2 (S index) rest).2).
Proof.
  cbn [normalizeNodes].
  destruct (normalizeNode st index node) as [node' st'].
  cbn [fst snd].
  by destruct (normalizeNodes st' (S index) rest).
Qed.

(** The node pass changes ids only. *)
Lemma normalizeNodes_lookup l : forall st index k n,
  l !! k = Some n ->
  exists n', (normalizeNodes st index l).1 !! k = Some n' /\
    n_label n' = n_label n /\ n_type n' = n_type n /\
    n_details n' = n_details n /\ n_notes n' = n_notes n.
Proof.
  induction l as [|node rest IH]; intros st index k n Hk; [done|].
  rewrite normalizeNodes_cons.
  destruct k as [|k]; cbn [fst lookup list_lookup] in *.
  - injection Hk as ->. eexists; split; [reflexivity|]. by repeat split.
  - by apply IH.
Qed.

Lemma normalizeNodes_length l : forall st index,
  length (normalizeNodes st index l).1 = length l.
Proof.
  induction l as [|node rest IH]; intros st index; [done|].
  rewrite normalizeNodes_cons. cbn [fst length]. by rewrite IH.
Qed.

Lemma normalizeNodes_types l : forall st index,
  n_type <$> (normalizeNodes st index l).1 = n_type <$> l.
Proof.
  induction l as [|node rest IH]; intros st index; [done|].
  rewrite normalizeNodes_cons. cbn [fst fmap list_fmap]. by rewrite IH.
Qed.

(** Without a collision, every node gets its slug. *)
Lemma normalizeNodes_ids l : forall st index,
  NoDup (imap (fun k => candidateOf (index + k)) l) ->
  (forall c, c ∈ imap (fun k => candidateOf (index + k)) l -> c ∉ usedIds st) ->
  n_id <$> (normalizeNodes st index l).1 = imap (fun k => candidateOf (index + k)) l.
Proof.
  induction l as [|node rest IH]; intros st index Hnodup Hfresh; [done|].
  rewrite imap_cons in *. rewrite Nat.add_0_r in *.
  assert (imap ((fun k => candidateOf (index + k)) ∘ S) rest
          = imap (fun k => candidateOf (S index + k)) rest) as Hshift.
  { apply imap_ext. intros k x _. simpl. f_equal. lia. }
  rewrite Hshift in *.
  apply NoDup_cons in Hnodup as [Hhead Hnodup].
  rewrite normalizeNodes_cons. cbn [fst fmap list_fmap].
  assert (candidateOf index node ∉ usedIds st) as Hnew.
  { apply Hfresh. apply list_elem_of_here. }
  unfold normalizeNode at 1. fold (candidateOf index node).
  rewrite bool_decide_eq_false_2 by done. cbn [fst withId n_id].
  f_equal. apply IH; [done|].
  intros c Hc. unfold normalizeNode. fold (candidateOf index node).
  rewrite bool_decide_eq_false_2 by done. cbn [snd usedIds].
  apply not_elem_of_union. split.
  - apply not_elem_of_singleton. intros ->. done.
  - apply Hfresh. by apply list_elem_of_further.
Qed.

(** ** Terminal enforcement *)

Lemma alter_withType_lookup type k (l : list Node) i n :
  l !! i = Some n ->
  exists n', alter (withType type) k l !! i = Some n' /\
    n_id n' = n_id n /\ n_label n' = n_label n /\
    n_details n' = n_details n /\ n_notes n' = n_notes n /\
    (n_type n' = n_type n \/ (i = k /\ n_type n' = type)).
Proof.
  intros Hi. destruct (decide (k = i)) as [->|Hne].
  - rewrite list_lookup_alter_eq, Hi. simpl. eexists; split; [done|]. simpl. auto 10.
  - rewrite list_lookup_alter_ne, Hi by done. eexists; split; [done|]. auto 10.
Qed.

Lemma enforceTerminals_length l : length (enforceTerminals l) = length l.
Proof.
  unfold enforceTerminals.
  repeat case_match; rewrite ?length_alter; done.
Qed.

Lemma enforceTerminals_ids l : n_id <$> enforceTerminals l = n_id <$> l.
Proof.
  assert (forall type i (k : list Node),
            n_id <$> alter (withType type) i k = n_id <$> k) as Halter.
  { intros type i k.
    rewrite (list_fmap_alter n_id (withType type) id)
      by (apply Forall_forall; done).
    by apply list_alter_id. }
  unfold enforceTerminals. repeat case_match; rewrite ?Halter; done.
Qed.

(** Terminal enforcement changes types only, at the first position (to
    start) or at the last (to end). *)
Lemma enforceTerminals_lookup (l : list Node) i n :
  l !! i = Some n ->
  exists n', enforceTerminals l !! i = Some n' /\
    n_id n' = n_id n /\ n_label n' = n_label n /\
    n_details n' = n_details n /\ n_notes n' = n_notes n /\
    (n_type n' = n_type n \/
     (i = 0%nat /\ n_type n' = "start" /\ hasType "start" l = false) \/
     (i = (length l - 1)%nat /\ n_type n' = "end")).
Proof.
  intros Hi. unfold enforceTerminals.
  destruct (hasType "start" l) eqn:Hstart; simpl.
  - destruct (hasType "end" l); simpl.
    + exists n. auto 10.
    + destruct (alter_withType_lookup "end" (length l - 1) l i n Hi)
        as (n' & ? & ? & ? & ? & ? & [?|[? ?]]); exists n'; auto 10.
  - destruct (alter_withType_lookup "start" 0 l i n Hi)
      as (n1 & H1 & Hid & Hlab & Hdet & Hnot & Hty).
    set (l1 := alter (withType "start") 0%nat l) in *.
    assert (Hlen : length l1 = length l) by apply length_alter.
    destruct (hasType "end" l1); simpl.
    + exists n1. destruct Hty as [?|[? ?]]; auto 10.
    + destruct (alter_withType_lookup "end" (length l1 - 1) l1 i n1 H1)
        as (n' & ? & ? & ? & ? & ? & Hty').
      exists n'. rewrite Hlen in *.
      repeat split; try congruence.
      destruct Hty' as [Heq|[? ?]]; [|auto].
      destruct Hty as [?|[? ?]]; [left; congruence|].
      right; left. repeat split; congruence.
Qed.

Lemma hasType_app t l k : hasType t (l ++ k) = hasType t l || hasType t k.
Proof. apply existsb_app. Qed.

Lemma hasType_types t l :
  hasType t l = existsb (fun type => String.eqb type t) (n_type <$> l).
Proof.
  unfold hasType. induction l as [|a l IH]; [done|].
  cbn [existsb fmap list_fmap]. by f_equal.
Qed.

(** Overwriting the type at an index in range. *)
Lemma hasType_alter t t' (l : list Node) : forall i,
  (i < length l)%nat ->
  hasType t (alter (withType t') i l) =
  String.eqb t' t || hasType t (take i l) || hasType t (drop (S i) l).
Proof.
  induction l as [|a l IH]; intros i Hi; simpl in Hi; [lia|].
  destruct i as [|i].
  - cbn. by rewrite drop_0, orb_false_r.
  - cbn [alter list_alter take drop hasType existsb]. fold (hasType t).
    change (existsb (fun node => String.eqb (n_type node) t)) with (hasType t).
    rewrite IH by lia.
    destruct (String.eqb (n_type a) t), (String.eqb t' t); simpl; try done.
Qed.

(** Terminal enforcement always leaves an end-typed node. *)
Lemma enforceTerminals_end l : l <> [] -> hasType "end" (enforceTerminals l) = true.
Proof.
  intros Hne. unfold enforceTerminals.
  set (l1 := if negb (hasType "start" l) then _ else l).
  assert (length l1 = length l) as Hlen.
  { subst l1. destruct (negb _); [apply length_alter|done]. }
  destruct (hasType "end" l1) eqn:Hend; simpl; [done|].
  rewrite hasType_alter; [done|].
  destruct l; [done|]. simpl in *. lia.
Qed.

(** It leaves a start-typed node unless no node was end-typed and the last
    node was the only start-typed one. *)
Lemma enforceTerminals_start l :
  (2 <= length l)%nat ->
  hasType "start" (enforceTerminals l) =
  negb (hasType "start" l) || hasType "end" l
  || hasType "start" (take (length l - 1) l).
Proof.
  intros Hlen. unfold enforceTerminals.
  destruct (hasType "start" l) eqn:Hstart; simpl.
  - destruct (hasType "end" l) eqn:Hend; simpl; [done|].
    rewrite hasType_alter by lia. simpl.
    replace (S (length l - 1)) with (length l) by lia.
    by rewrite drop_all, orb_false_r.
  - set (l1 := alter (withType "start") 0%nat l).
    assert (length l1 = length l) as Hlen1 by apply length_alter.
    assert (hasType "start" l1 = true) as Hstart1.
    { subst l1. rewrite hasType_alter by lia. done. }
    assert (hasType "start" (take (length l1 - 1) l1) = true) as Htake.
    { subst l1. destruct l as [|a [|b l]]; simpl in Hlen; try lia.
      cbn. done. }
    destruct (hasType "end" l1) eqn:Hend1; simpl.
    + rewrite Hstart1. done.
    + rewrite hasType_alter by lia. rewrite Htake. simpl.
      by destruct (hasType "end" l), (hasType "start" (take (length l - 1) l)).
Qed.

(** ** The synthesised chain *)

Lemma chainEdges_length l : forall i, length (chainEdges i l) = (length l - 1)%nat.
Proof.
  induction l as [|a l IH]; intros i; [done|].
  destruct l as [|b rest]; [done|].
  cbn [chainEdges length] in *. rewrite IH. lia.
Qed.

Lemma chainEdges_lookup l : forall i k,
  (k + 1 < length l)%nat ->
  exists a b, l !! k = Some a /\ l !! (k + 1)%nat = Some b /\
    chainEdges i l !! k =
      Some (mkEdge ("edge-" +:+ n_id a +:+ "-" +:+ n_id b +:+ "-" +:+ ofNat (i + k + 1))
                   (n_id a) (n_id b) "" "").
Proof.
  induction l as [|a l IH]; intros i k Hk; simpl in Hk; [lia|].
  destruct l as [|b rest]; simpl in Hk; [lia|].
  destruct k as [|k].
  - exists a, b. cbn [chainEdges]. rewrite Nat.add_0_r. done.
  - destruct (IH (S i) k) as (a' & b' & Ha & Hb & He); [simpl; lia|].
    exists a', b'. cbn [chainEdges].
    replace (i + S k + 1)%nat with (S i + k + 1)%nat by lia.
    done.
Qed.

(** ** The repaired document *)

(** A schema-accepted document is always repaired, into this document. *)
Lemma normalizeFlowchart_accepted raw prompt fallbackPalette parsed :
  flowchartSchema raw = Some parsed ->
  normalizeFlowchart raw prompt fallbackPalette =
  Some {| title := pf_title parsed;
          summary := pf_summary parsed;
          rationale := pf_rationale parsed;
          suggestions := pf_suggestions parsed;
          palette :=
            normalizePalette (rawOfPalette <$> pf_palette parsed)
              (Some (default (rawOfPalette DEFAULT_PALETTE) fallbackPalette));
          nodes := enforceTerminals (repairNodes parsed).1;
          edges :=
            match repairEdges parsed with
            | [] => chainEdges 0 (enforceTerminals (repairNodes parsed).1)
            | _ => repairEdges parsed
            end;
          sourcePrompt := prompt |}.
Proof. intros Hparsed. unfold normalizeFlowchart. by rewrite Hparsed. Qed.

Lemma normalizeFlowchart_rejected raw prompt fallbackPalette :
  flowchartSchema raw = None ->
  normalizeFlowchart raw prompt fallbackPalette = None.
Proof. intros Hparsed. unfold normalizeFlowchart. by rewrite Hparsed. Qed.

Lemma repaired_nodes_length raw parsed :
  flowchartSchema raw = Some parsed ->
  length (enforceTerminals (repairNodes parsed).1) = length (rf_nodes raw).
Proof.
  intros Hparsed. apply accepted_node_count in Hparsed as [Hlen _].
  unfold repairNodes.
  by rewrite enforceTerminals_length, normalizeNodes_length.
Qed.

(** X7. Where the slugs of the nodes are pairwise distinct, so are the
    repaired ids. *)
Lemma repaired_ids_distinct raw prompt fallbackPalette parsed :
  flowchartSchema raw = Some parsed ->
  NoDup (imap candidateOf (pf_nodes parsed)) ->
  exists doc,
    normalizeFlowchart raw prompt fallbackPalette = Some doc /\
    NoDup (n_id <$> nodes doc).
Proof.
  intros Hparsed Hnodup.
  eexists; split; [by apply normalizeFlowchart_accepted|]. cbn [nodes].
  rewrite enforceTerminals_ids. unfold repairNodes.
  rewrite (normalizeNodes_ids _ (mkIdState ∅ ∅) 0%nat); [done..|].
  intros c _. cbn [usedIds]. apply not_elem_of_empty.
Qed.

(** X8. Every repaired document has an end-typed node; it has a
    start-typed node unless the input had no end-typed node and its last
    node was its only start-typed one. *)
Lemma repaired_terminals raw prompt fallbackPalette parsed :
  flowchartSchema raw = Some parsed ->
  exists doc,
    normalizeFlowchart raw prompt fallbackPalette = Some doc /\
    hasType "end" (nodes doc) = true /\
    hasType "start" (nodes doc) =
      negb (hasType "start" (pf_nodes parsed)) || hasType "end" (pf_nodes parsed)
      || hasType "start" (take (length (pf_nodes parsed) - 1) (pf_nodes parsed)).
Proof.
  intros Hparsed.
  eexists; split; [by apply normalizeFlowchart_accepted|]. cbn [nodes].
  apply accepted_node_count in Hparsed as [_ [Hmin _]].
  unfold repairNodes.
  set (l := (normalizeNodes (mkIdState ∅ ∅) 0 (pf_nodes parsed)).1).
  assert (length l = length (pf_nodes parsed)) as Hlen
    by apply normalizeNodes_length.
  assert (n_type <$> l = n_type <$> pf_nodes parsed) as Htypes
    by apply normalizeNodes_types.
  split.
  - apply enforceTerminals_end. intros Hnil. rewrite Hnil in Hlen. simpl in Hlen. lia.
  - rewrite enforceTerminals_start by lia.
    rewrite !hasType_types, !fmap_take, Htypes, Hlen. done.
Qed.

(** C10. Repair is frame-preserving on nodes: a schema-accepted document is
    repaired into one with as many nodes, in the same order; the node at
    each position keeps the label, details and notes of the input node at
    that position (an omitted details or notes being the empty string the
    schema fills in), and its type is the input type unless it is the first
    node forced to start or the last node forced to end. Only the id and
    the type can differ. *)
Theorem repair_preserves_nodes raw prompt fallbackPalette parsed :
  flowchartSchema raw = Some parsed ->
  exists doc,
    normalizeFlowchart raw prompt fallbackPalette = Some doc /\
    length (nodes doc) = length (rf_nodes raw) /\
    forall i rn, rf_nodes raw !! i = Some rn ->
      exists pn n,
        pf_nodes parsed !! i = Some pn /\ nodes doc !! i = Some n /\
        n_label n = n_label pn /\ n_details n = n_details pn /\
        n_notes n = n_notes pn /\
        rn_label rn = Str (n_label n) /\
        n_details n = slotText (rn_details rn) /\
        n_notes n = slotText (rn_notes rn) /\
        (rn_type rn = Str (n_type n) \/
         (i = 0%nat /\ n_type n = "start") \/
         (i = (length (rf_nodes raw) - 1)%nat /\ n_type n = "end")).
Proof.
  intros Hparsed.
  eexists; split; [by apply normalizeFlowchart_accepted|]. cbn [nodes].
  split; [by apply repaired_nodes_length|].
  apply flowchartSchema_Some in Hparsed as (_ & _ & _ & _ & Hnodes & _ & _).
  apply zArray_Some in Hnodes as [Hall _].
  pose proof (Forall2_length _ _ _ Hall) as Hlen.
  unfold repairNodes.
  intros i rn Hi.
  destruct (Forall2_lookup_l _ _ _ _ _ Hall Hi) as (pn & Hpn & Hschema).
  apply nodeSchema_Some in Hschema as (_ & Hlabel & Htype & Hdetails & Hnotes).
  destruct (normalizeNodes_lookup _ (mkIdState ∅ ∅) 0%nat _ _ Hpn)
    as (n1 & Hn1 & Hl1 & Ht1 & Hd1 & Ho1).
  destruct (enforceTerminals_lookup _ _ _ Hn1)
    as (n & Hn & _ & Hl & Hd & Ho & Hty).
  exists pn, n. rewrite normalizeNodes_length, <- Hlen in Hty.
  repeat split; try congruence.
  destruct Hty as [?|[(? & ? & _)|[? ?]]]; [left; congruence|auto..].
Qed.

Lemma repair_preserves_nodes_witness :
  exists parsed,
    flowchartSchema startLast = Some parsed /\
    exists doc,
      normalizeFlowchart startLast "ship it" None = Some doc /\
      length (nodes doc) = length (rf_nodes startLast) /\
      forall i rn, rf_nodes startLast !! i = Some rn ->
        exists pn n,
          pf_nodes parsed !! i = Some pn /\ nodes doc !! i = Some n /\
          n_label n = n_label pn /\ n_details n = n_details pn /\
          n_notes n = n_notes pn /\
          rn_label rn = Str (n_label n) /\
          n_details n = slotText (rn_details rn) /\
          n_notes n = slotText (rn_notes rn) /\
          (rn_type rn = Str (n_type n) \/
           (i = 0%nat /\ n_type n = "start") \/
           (i = (length (rf_nodes startLast) - 1)%nat /\ n_type n = "end")).
Proof.
  eexists. split.
  - vm_compute. reflexivity.
  - apply (repair_preserves_nodes startLast "ship it" None).
    vm_compute. reflexivity.
Defined.

(** C5. Connectivity fallback: when no edge of a schema-accepted document
    survives remapping and dropping, the repaired document has exactly
    [n - 1] edges for its [n] nodes, the edge at position [i] leading from
    the node at position [i] to the node at position [i + 1]; in
    particular the nodes a, b, c without edges are repaired with exactly
    the edges a to b, then b to c. *)
Theorem connectivity_fallback :
  (forall raw prompt fallbackPalette parsed,
     flowchartSchema raw = Some parsed ->
     repairEdges parsed = [] ->
     exists doc,
       normalizeFlowchart raw prompt fallbackPalette = Some doc /\
       length (nodes doc) = length (rf_nodes raw) /\
       length (edges doc) = (length (nodes doc) - 1)%nat /\
       forall i, (i + 1 < length (nodes doc))%nat ->
         exists a b,
           nodes doc !! i = Some a /\ nodes doc !! (i + 1)%nat = Some b /\
           edges doc !! i =
             Some (mkEdge ("edge-" +:+ n_id a +:+ "-" +:+ n_id b +:+ "-" +:+ ofNat (i + 1))
                          (n_id a) (n_id b) "" "")) /\
  (forall prompt fallbackPalette,
     edges <$> normalizeFlowchart abc prompt fallbackPalette =
     Some [mkEdge "edge-a-b-1" "a" "b" "" ""; mkEdge "edge-b-c-2" "b" "c" "" ""]).
Proof.
  split.
  - intros raw prompt fallbackPalette parsed Hparsed Hedges.
    eexists; split; [by apply normalizeFlowchart_accepted|]. cbn [nodes edges].
    split; [by apply repaired_nodes_length|].
    rewrite Hedges.
    split; [apply chainEdges_length|].
    intros i Hi. apply (chainEdges_lookup _ 0%nat i Hi).
  - intros prompt fallbackPalette.
    erewrite normalizeFlowchart_accepted by (vm_compute; reflexivity).
    cbn [fmap option_fmap option_map edges].
    vm_compute. reflexivity.
Qed.

Lemma connectivity_fallback_witness :
  exists parsed,
    flowchartSchema abc = Some parsed /\
    repairEdges parsed = [] /\
    exists doc,
      normalizeFlowchart abc "three steps" None = Some doc /\
      length (nodes doc) = 3%nat /\
      length (edges doc) = (length (nodes doc) - 1)%nat /\
      forall i, (i + 1 < length (nodes doc))%nat ->
        exists a b,
          nodes doc !! i = Some a /\ nodes doc !! (i + 1)%nat = Some b /\
          edges doc !! i =
            Some (mkEdge ("edge-" +:+ n_id a +:+ "-" +:+ n_id b +:+ "-" +:+ ofNat (i + 1))
                         (n_id a) (n_id b) "" "").
Proof.
  eexists. split; [vm_compute; reflexivity|].
  split; [vm_compute; reflexivity|].
  eapply (proj1 connectivity_fallback abc "three steps" None).
  - vm_compute. reflexivity.
  - vm_compute. reflexivity.
Defined.

(** C1, at a failing input. The node ids "Step", "step-3", "step" are
    accepted by the schema; the third slug collides with the first, its
    suffixed form "step-3" is the id already given to the second node, and
    the repaired document carries the id "step-3" twice. *)
Theorem collision_suffix_duplicates_id :
  exists doc,
    normalizeFlowchart collidingIds "steps" None = Some doc /\
    n_id <$> nodes doc = ["step"; "step-3"; "step-3"] /\
    ~ NoDup (n_id <$> nodes doc).
Proof.
  eexists. split; [vm_compute; reflexivity|].
  split; [vm_compute; reflexivity|].
  cbn [nodes fmap list_fmap n_id]. intros Hnodup.
  apply NoDup_cons in Hnodup as [_ Hnodup].
  apply NoDup_cons in Hnodup as [Hnotin _].
  apply Hnotin. by apply list_elem_of_here.
Qed.

(** C2, at a failing input. With the nodes typed process, start and no
    end-typed node, terminal enforcement finds a start, then overwrites
    the last node (the only start) with end: the repaired document has an
    end-typed node and no start-typed node. *)
Theorem terminal_enforcement_loses_start :
  exists doc,
    normalizeFlowchart startLast "ship it" None = Some doc /\
    n_type <$> nodes doc = ["process"; "end"] /\
    hasType "start" (nodes doc) = false /\
    hasType "end" (nodes doc) = true.
Proof.
  eexists. split; [vm_compute; reflexivity|].
  repeat split; vm_compute; reflexivity.
Qed.

(** ** Palettes *)

Lemma zColor_fails d v : failsHex v -> zColor d v = None.
Proof.
  unfold zColor, zDefault, zRegex. destruct v as [|s|]; simpl; [done| |done].
  by intros ->.
Qed.

Lemma nodeColorsSchema_fails c :
  Exists failsHex (nodeColorSlots c) -> nodeColorsSchema c = None.
Proof.
  intros Hex. apply Exists_exists in Hex as (v & Hin & Hfails).
  pose proof (fun d => zColor_fails d v Hfails) as Hnone.
  unfold nodeColorSlots in Hin. rewrite !elem_of_cons, elem_of_nil in Hin.
  unfold nodeColorsSchema. cbv zeta.
  destruct_or!; try done; subst v; bind_chain; congruence.
Qed.

(** A palette with a failing colour is rejected as a whole. *)
Lemma paletteSchema_fails raw : someColorFails raw -> paletteSchema raw = None.
Proof.
  intros Hex. apply Exists_exists in Hex as (v & Hin & Hfails).
  pose proof (fun d => zColor_fails d v Hfails) as Hnone.
  unfold colorSlots in Hin. apply elem_of_app in Hin as [Hin|Hin].
  - rewrite !elem_of_cons, elem_of_nil in Hin.
    unfold paletteSchema. cbv zeta.
    destruct_or!; try done; subst v; bind_chain; congruence.
  - unfold paletteSchema. cbv zeta.
    destruct (rp_nodeColors raw) as [c|] eqn:Hc; simpl in Hin;
      [|by apply elem_of_nil in Hin].
    assert (nodeColorsSchema c = None) as Hcolors.
    { apply nodeColorsSchema_fails, Exists_exists. eauto. }
    bind_chain. simpl in *. congruence.
Qed.

Lemma paletteSchema_default :
  paletteSchema (rawOfPalette DEFAULT_PALETTE) = Some DEFAULT_PALETTE.
Proof. reflexivity. Qed.

Lemma badAccent_fails : someColorFails badAccent.
Proof.
  unfold someColorFails, colorSlots, badAccent. cbn.
  do 5 apply Exists_cons_tl. apply Exists_cons_hd. reflexivity.
Qed.

(** C3. Palette normalisation is all-or-nothing: when a colour field of the
    candidate palette fails the hex pattern, whether the candidate came as
    the palette itself or as the fallback, the result is the complete
    default palette, whatever the other fields of the candidate are; the
    default palette with accent "not-a-color" normalises to exactly the
    default palette. *)
Theorem palette_all_or_nothing :
  (forall candidate fallbackPalette,
     someColorFails candidate ->
     normalizePalette (Some candidate) fallbackPalette = DEFAULT_PALETTE /\
     normalizePalette None (Some candidate) = DEFAULT_PALETTE) /\
  (forall fallbackPalette,
     normalizePalette (Some badAccent) fallbackPalette = DEFAULT_PALETTE).
Proof.
  assert (forall candidate fallbackPalette,
     someColorFails candidate ->
     normalizePalette (Some candidate) fallbackPalette = DEFAULT_PALETTE /\
     normalizePalette None (Some candidate) = DEFAULT_PALETTE) as Hgeneral.
  { intros candidate fallbackPalette Hfails.
    apply paletteSchema_fails in Hfails.
    unfold normalizePalette. cbn [from_option id].
    by rewrite Hfails, paletteSchema_default. }
  split; [exact Hgeneral|].
  intros fallbackPalette.
  exact (proj1 (Hgeneral badAccent fallbackPalette badAccent_fails)).
Qed.

Lemma palette_all_or_nothing_witness :
  someColorFails badAccent /\
  normalizePalette (Some badAccent) (Some (rawOfPalette clinicalSignal)) = DEFAULT_PALETTE /\
  normalizePalette None (Some badAccent) = DEFAULT_PALETTE.
Proof.
  assert (someColorFails badAccent) as Hfails.
  { unfold someColorFails, colorSlots, badAccent. cbn.
    do 5 apply Exists_cons_tl. apply Exists_cons_hd. reflexivity. }
  split; [exact Hfails|].
  exact (proj1 palette_all_or_nothing badAccent (Some (rawOfPalette clinicalSignal)) Hfails).
Defined.

Lemma zColor_Some d v s :
  HEX_COLOR_REGEX d = true -> zColor d v = Some s -> HEX_COLOR_REGEX s = true.
Proof.
  unfold zColor, zDefault, zRegex. intros Hd.
  destruct v as [|s'|]; simpl; [congruence| |done].
  destruct (HEX_COLOR_REGEX s') eqn:Hs; congruence.
Qed.

Lemma zName_Some d v s :
  lengthBetween 2 80 d = true -> zDefault (zString 2 80) d v = Some s ->
  lengthBetween 2 80 s = true.
Proof.
  unfold zDefault, zString. intros Hd.
  destruct v as [|s'|]; simpl; [congruence| |done].
  destruct (lengthBetween 2 80 s') eqn:Hs; congruence.
Qed.

Ltac colour_facts :=
  repeat match goal with
         | H : zColor _ _ = Some _ |- _ => apply zColor_Some in H; [|reflexivity]
         | H : zDefault (zString 2 80) _ _ = Some _ |- _ =>
             apply zName_Some in H; [|reflexivity]
         end.

Ltac rewrite_checks :=
  repeat match goal with H : _ = true |- _ => rewrite H; clear H end.

Lemma nodeColorsSchema_valid raw c :
  nodeColorsSchema raw = Some c -> validNodeColors c = true.
Proof.
  unfold nodeColorsSchema. cbv zeta. intros H. bind_inv H. simplify_eq.
  colour_facts. unfold validNodeColors.
  cbn [nc_start nc_process nc_decision nc_data nc_subprocess nc_end nc_actor
       nc_document].
  rewrite_checks. reflexivity.
Qed.

(** What the schema accepts is a valid palette. *)
Lemma paletteSchema_valid raw p : paletteSchema raw = Some p -> validPalette p = true.
Proof.
  unfold paletteSchema. cbv zeta. intros H. bind_inv H. simplify_eq.
  match goal with H : _ ≫= nodeColorsSchema = Some _ |- _ =>
    apply bind_Some in H as (? & _ & H); apply nodeColorsSchema_valid in H end.
  colour_facts. unfold validPalette.
  cbn [p_name p_canvas p_panel p_text p_mutedText p_edge p_accent p_nodeColors].
  rewrite_checks. reflexivity.
Qed.

(** A valid palette, read back as input, parses to itself. *)
Lemma paletteSchema_rawOfPalette p :
  validPalette p = true -> paletteSchema (rawOfPalette p) = Some p.
Proof.
  destruct p as [name canvas panel text mutedText edge accent
                 [start process decision data subprocess end_ actor document]].
  unfold validPalette, validNodeColors. cbn -[HEX_COLOR_REGEX lengthBetween].
  rewrite !andb_true_iff. intros H. destruct_and!.
  unfold paletteSchema, nodeColorsSchema, zColor, zDefault, zRegex, zString.
  cbn -[HEX_COLOR_REGEX lengthBetween DEFAULT_PALETTE].
  rewrite_checks. reflexivity.
Qed.

Lemma normalizePalette_own p fallbackPalette :
  validPalette p = true ->
  normalizePalette (Some (rawOfPalette p)) fallbackPalette = p.
Proof.
  intros Hp. unfold normalizePalette. by rewrite paletteSchema_rawOfPalette.
Qed.

Lemma normalizePalette_fallback fb :
  normalizePalette None (Some fb) = default DEFAULT_PALETTE (paletteSchema fb).
Proof.
  unfold normalizePalette. cbn [from_option id].
  destruct (paletteSchema fb); [done|]. by rewrite paletteSchema_default.
Qed.

(** C4, as stated, fails. The document's own palette is present and fails
    validation (accent "not-a-color"), the supplied fallback palette is
    valid: the schema rejects the document, so no repaired document is
    returned; and the palette normaliser, given the same invalid palette
    and the same valid fallback, returns the hardcoded default, which is
    not the fallback. *)
Lemma invalid_palette_ignores_fallback :
  paletteSchema badAccent = None /\
  paletteSchema (rawOfPalette clinicalSignal) = Some clinicalSignal /\
  normalizeFlowchart (sampleDocument (rf_nodes abc) (Some badAccent)) "hospital triage"
    (Some (rawOfPalette clinicalSignal)) = None /\
  normalizePalette (Some badAccent) (Some (rawOfPalette clinicalSignal)) = DEFAULT_PALETTE /\
  DEFAULT_PALETTE <> clinicalSignal.
Proof.
  repeat split; try (vm_compute; reflexivity).
  vm_compute. discriminate.
Qed.

(** C4, amended. The chain document palette, then fallbackPalette, then
    global default goes by presence. A document whose own palette is
    present and fails validation is rejected. A schema-accepted document
    is repaired; its palette is its own palette as parsed when it has one;
    when it has none, it is the fallbackPalette as parsed when that is
    valid, and the hardcoded default when the fallbackPalette is absent or
    fails validation. The palette normaliser itself, given a palette that
    fails validation in any field, returns the hardcoded default whatever
    the fallbackPalette is; given a valid palette it returns that palette
    as parsed; given none it goes by the fallbackPalette. *)
Theorem palette_preference_chain raw prompt fallbackPalette :
  (forall own,
     rf_palette raw = Some own -> paletteSchema own = None ->
     normalizeFlowchart raw prompt fallbackPalette = None) /\
  (forall parsed,
     flowchartSchema raw = Some parsed ->
     exists doc,
       normalizeFlowchart raw prompt fallbackPalette = Some doc /\
       match rf_palette raw with
       | Some own => paletteSchema own = Some (palette doc)
       | None =>
           match fallbackPalette ≫= paletteSchema with
           | Some p => palette doc = p
           | None => palette doc = DEFAULT_PALETTE
           end
       end) /\
  (forall candidate other,
     paletteSchema candidate = None ->
     normalizePalette (Some candidate) other = DEFAULT_PALETTE) /\
  (forall candidate p other,
     paletteSchema candidate = Some p ->
     normalizePalette (Some candidate) other = p) /\
  (forall other,
     normalizePalette None other = default DEFAULT_PALETTE (other ≫= paletteSchema)).
Proof.
  split; [|split; [|split; [|split]]].
  - intros own Hown Hfails. apply normalizeFlowchart_rejected.
    unfold flowchartSchema. rewrite Hown. cbn [zOptionalObj]. rewrite Hfails.
    cbn [fmap option_fmap option_map].
    bind_chain. reflexivity.
  - intros parsed Hparsed.
    eexists; split; [by apply normalizeFlowchart_accepted|]. cbn [palette].
    apply flowchartSchema_Some in Hparsed as (_ & _ & _ & _ & _ & _ & Hpalette).
    destruct (rf_palette raw) as [own|]; cbn [zOptionalObj] in Hpalette.
    + apply fmap_Some in Hpalette as (p & Hp & ->).
      cbn [fmap option_fmap option_map].
      rewrite normalizePalette_own by by eapply paletteSchema_valid.
      done.
    + injection Hpalette as <-. cbn [fmap option_fmap option_map].
      rewrite normalizePalette_fallback.
      destruct fallbackPalette as [fb|]; cbn [mbind option_bind from_option id].
      * by destruct (paletteSchema fb).
      * by rewrite paletteSchema_default.
  - intros candidate other Hfails. unfold normalizePalette.
    by rewrite Hfails, paletteSchema_default.
  - intros candidate p other Hp. unfold normalizePalette. by rewrite Hp.
  - intros [fb|]; [apply normalizePalette_fallback|].
    unfold normalizePalette. cbn [from_option id mbind option_bind].
    by rewrite paletteSchema_default.
Qed.

Lemma palette_preference_chain_witness :
  (exists parsed,
     flowchartSchema abc = Some parsed /\
     exists doc,
       normalizeFlowchart abc "hospital triage" (Some (rawOfPalette clinicalSignal))
         = Some doc /\
       palette doc = clinicalSignal) /\
  (rf_palette (sampleDocument (rf_nodes abc) (Some shortName)) = Some shortName /\
   paletteSchema shortName = None /\
   normalizeFlowchart (sampleDocument (rf_nodes abc) (Some shortName)) "hospital triage"
     (Some (rawOfPalette clinicalSignal)) = None) /\
  (paletteSchema shortName = None /\
   normalizePalette (Some shortName) (Some (rawOfPalette clinicalSignal))
     = DEFAULT_PALETTE).
Proof.
  split; [|split].
  - eexists. split; [vm_compute; reflexivity|].
    eapply (proj1 (proj2 (palette_preference_chain abc "hospital triage"
                            (Some (rawOfPalette clinicalSignal))))).
    vm_compute. reflexivity.
  - split; [reflexivity|]. split; [vm_compute; reflexivity|].
    apply (proj1 (palette_preference_chain
                    (sampleDocument (rf_nodes abc) (Some shortName)) "hospital triage"
                    (Some (rawOfPalette clinicalSignal))) shortName).
    + reflexivity.
    + vm_compute. reflexivity.
  - split; [vm_compute; reflexivity|].
    apply (proj1 (proj2 (proj2 (palette_preference_chain abc "hospital triage" None)))).
    vm_compute. reflexivity.
Defined.

(** ** The generate and refine pipelines *)

Section PipelineFacts.
Variable zodMessage : schemaName -> RawFlowchart -> string.
Variable runModel : Request -> string -> GroqClient -> result RawFlowchart.

Lemma getGroqClient_absent env :
  credentialAbsent env -> getGroqClient env = Throw missingKeyError.
Proof. unfold getGroqClient. by intros [-> | ->]. Qed.

Lemma catchModelFailure_fatal e fallback :
  mentionsMissingKey e = true ->
  catchModelFailure (Throw e) fallback = Throw e.
Proof. unfold catchModelFailure, mentionsMissingKey. by intros ->. Qed.

Lemma catchModelFailure_absorbed e fallback :
  mentionsMissingKey e = false ->
  catchModelFailure (Throw e) fallback = Return fallback.
Proof. unfold catchModelFailure, mentionsMissingKey. by intros ->. Qed.

(** C8. Missing-credential failures are fatal. A generation call made
    without the access credential throws the missing-key error; a
    generation call whose model step, or whose repair of the model's
    answer, fails with a message that mentions the missing key throws
    that error. In each case the call throws: no document, so no
    fallback document, is returned. *)
Theorem missing_credential_is_fatal env prompt detailLevel audience :
  let call :=
    generateFlowchartFromPrompt zodMessage runModel env prompt detailLevel audience in
  let request :=
    GenerateRequest prompt (default "balanced" detailLevel) (default "" audience) in
  (credentialAbsent env -> call = Throw missingKeyError) /\
  (forall groq e,
     getGroqClient env = Return groq ->
     runModel request (modelName env) groq = Throw e ->
     mentionsMissingKey e = true ->
     call = Throw e) /\
  (forall groq parsed,
     getGroqClient env = Return groq ->
     runModel request (modelName env) groq = Return parsed ->
     normalizeFlowchart parsed prompt
       (Some (rawOfPalette (pickPaletteFromPrompt prompt))) = None ->
     mentionsMissingKey (ErrorObject (zodMessage FlowchartSchema parsed)) = true ->
     call = Throw (ErrorObject (zodMessage FlowchartSchema parsed))).
Proof.
  intros call request. subst call request.
  unfold generateFlowchartFromPrompt. cbv zeta.
  split; [|split].
  - intros Habsent. by rewrite getGroqClient_absent.
  - intros groq e -> Hrun Hkey. cbn [mbind result_bind].
    rewrite Hrun. cbn [mbind result_bind].
    by apply catchModelFailure_fatal.
  - intros groq parsed -> Hrun Hrejected Hkey. cbn [mbind result_bind].
    rewrite Hrun. cbn [mbind result_bind].
    unfold parseOrThrow. rewrite Hrejected.
    by apply catchModelFailure_fatal.
Qed.

(** C7, amended. When the model step of a refinement call fails for a
    reason other than missing credentials (the model call throws, or its
    answer is rejected by the schema, the message not mentioning the
    missing key), the call reports success and returns the repaired
    current flowchart: same title, nodes, edges, palette and source prompt;
    the summary extended by " Refinement applied: " and the follow-up
    prompt; the rationale replaced by a fixed note that refinement failed;
    the suggestions cut to the first five, with one hint appended. *)
Theorem refine_failure_preserves_diagram env currentFlowchart followUpPrompt
    detailLevel audience parsedCurrent safeCurrent groq :
  let answer :=
    runModel (RefineRequest safeCurrent followUpPrompt
                (default "balanced" detailLevel) (default "" audience))
             (modelName env) groq in
  refineInputSchema currentFlowchart = Some parsedCurrent ->
  repairCurrent parsedCurrent (safeInput parsedCurrent) = Some safeCurrent ->
  getGroqClient env = Return groq ->
  (exists e, answer = Throw e /\ mentionsMissingKey e = false) \/
  (exists raw,
     answer = Return raw /\
     normalizeFlowchart raw (orElse (sourcePrompt safeCurrent) followUpPrompt)
       (Some (rawOfPalette (palette safeCurrent))) = None /\
     mentionsMissingKey (ErrorObject (zodMessage FlowchartSchema raw)) = false) ->
  exists doc,
    refineFlowchartFromPrompt zodMessage runModel env currentFlowchart
      followUpPrompt detailLevel audience = Return doc /\
    title doc = title safeCurrent /\
    nodes doc = nodes safeCurrent /\
    edges doc = edges safeCurrent /\
    palette doc = palette safeCurrent /\
    sourcePrompt doc = sourcePrompt safeCurrent /\
    summary doc = summary safeCurrent +:+ " Refinement applied: " +:+ followUpPrompt /\
    rationale doc = refinementNote /\
    suggestions doc = (take 5 (suggestions safeCurrent) ++ [refinementHint])%list.
Proof.
  intros answer Hparsed Hsafe Hgroq Hfails. subst answer.
  exists (refinedFallback safeCurrent followUpPrompt).
  split; [|by repeat split].
  unfold refineFlowchartFromPrompt, parseOrThrow. cbv zeta.
  rewrite Hparsed. cbn [mbind result_bind].
  rewrite Hsafe. cbn [mbind result_bind].
  rewrite Hgroq. cbn [mbind result_bind].
  destruct Hfails as [(e & Hrun & Hkey)|(raw & Hrun & Hrejected & Hkey)];
    rewrite Hrun; cbn [mbind result_bind].
  - by apply catchModelFailure_absorbed.
  - rewrite Hrejected. by apply catchModelFailure_absorbed.
Qed.

End PipelineFacts.

Lemma missing_credential_is_fatal_witness :
  credentialAbsent (mkEnv None None) /\
  generateFlowchartFromPrompt sampleZodMessage (failingModel "rate limit exceeded")
    (mkEnv None None) "Describe the order handling process" None None
  = Throw missingKeyError.
Proof.
  split; [left; reflexivity|].
  apply (missing_credential_is_fatal sampleZodMessage (failingModel "rate limit exceeded")
           (mkEnv None None) "Describe the order handling process" None None).
  left. reflexivity.
Defined.

(** C7, as stated, fails. The current flowchart has the nodes a, b, c; the
    model step fails with "rate limit exceeded", which does not mention
    the missing key. The refinement call returns a document with the
    nodes a, b, c: it is not the five-node fallback template, whatever
    prompt, detail level and audience that template is built from. *)
Lemma refine_failure_is_not_the_template :
  mentionsMissingKey (ErrorObject "rate limit exceeded") = false /\
  exists doc,
    refineFlowchartFromPrompt sampleZodMessage (failingModel "rate limit exceeded")
      sampleEnv abc "Add a review step" None None = Return doc /\
    n_id <$> nodes doc = ["a"; "b"; "c"] /\
    forall prompt detailLevel audience,
      doc <> fallbackFlowchart prompt detailLevel audience.
Proof.
  split; [vm_compute; reflexivity|].
  eexists. split; [vm_compute; reflexivity|].
  split; [vm_compute; reflexivity|].
  intros prompt detailLevel audience Heq.
  apply (f_equal (fun d => length (nodes d))) in Heq.
  cbn in Heq. discriminate.
Qed.

Lemma refine_failure_preserves_diagram_witness :
  exists parsedCurrent safeCurrent groq,
    refineInputSchema abc = Some parsedCurrent /\
    repairCurrent parsedCurrent (safeInput parsedCurrent) = Some safeCurrent /\
    getGroqClient sampleEnv = Return groq /\
    mentionsMissingKey (ErrorObject "rate limit exceeded") = false /\
    normalizeFlowchart oneNodeAnswer (orElse (sourcePrompt safeCurrent) "Add a review step")
      (Some (rawOfPalette (palette safeCurrent))) = None /\
    mentionsMissingKey (ErrorObject (sampleZodMessage FlowchartSchema oneNodeAnswer))
      = false /\
    (exists doc,
       refineFlowchartFromPrompt sampleZodMessage (failingModel "rate limit exceeded")
         sampleEnv abc "Add a review step" None None = Return doc /\
       title doc = title safeCurrent /\
       nodes doc = nodes safeCurrent /\
       edges doc = edges safeCurrent /\
       palette doc = palette safeCurrent /\
       sourcePrompt doc = sourcePrompt safeCurrent /\
       summary doc
         = summary safeCurrent +:+ " Refinement applied: " +:+ "Add a review step" /\
       rationale doc = refinementNote /\
       suggestions doc = (take 5 (suggestions safeCurrent) ++ [refinementHint])%list) /\
    (exists doc,
       refineFlowchartFromPrompt sampleZodMessage (answeringModel oneNodeAnswer)
         sampleEnv abc "Add a review step" None None = Return doc /\
       title doc = title safeCurrent /\
       nodes doc = nodes safeCurrent /\
       edges doc = edges safeCurrent /\
       palette doc = palette safeCurrent /\
       sourcePrompt doc = sourcePrompt safeCurrent /\
       summary doc
         = summary safeCurrent +:+ " Refinement applied: " +:+ "Add a review step" /\
       rationale doc = refinementNote /\
       suggestions doc = (take 5 (suggestions safeCurrent) ++ [refinementHint])%list).
Proof.
  do 3 eexists.
  split; [vm_compute; reflexivity|].
  split; [vm_compute; reflexivity|].
  split; [vm_compute; reflexivity|].
  split; [vm_compute; reflexivity|].
  split; [vm_compute; reflexivity|].
  split; [vm_compute; reflexivity|].
  split.
  - eapply (refine_failure_preserves_diagram sampleZodMessage
              (failingModel "rate limit exceeded") sampleEnv abc "Add a review step"
              None None).
    + vm_compute. reflexivity.
    + vm_compute. reflexivity.
    + vm_compute. reflexivity.
    + left. eexists. split; [reflexivity|]. vm_compute. reflexivity.
  - eapply (refine_failure_preserves_diagram sampleZodMessage
              (answeringModel oneNodeAnswer) sampleEnv abc "Add a review step"
              None None).
    + vm_compute. reflexivity.
    + vm_compute. reflexivity.
    + vm_compute. reflexivity.
    + right. exists oneNodeAnswer. split; [reflexivity|].
      split; vm_compute; reflexivity.
Defined.

End ServiceProps.

(** * Further properties of the repair pipeline *)

Module ServiceMore.
Import Js Zod Service Spec ServiceProps.

Lemma length_append (a b : string) :
  String.length (a +:+ b) = (String.length a + String.length b)%nat.
Proof. induction a as [|c a IH]; [done|]. simpl. by rewrite IH. Qed.

Lemma slice0_length n s : (String.length (slice0 n s) <= n)%nat.
Proof.
  unfold slice0. revert s. induction n as [|n IH]; intros s.
  - destruct s; simpl; lia.
  - destruct s as [|c s]; simpl; [lia|]. specialize (IH s). lia.
Qed.

Lemma slice0_short n s : (String.length s <= n)%nat -> slice0 n s = s.
Proof.
  unfold slice0. revert s. induction n as [|n IH]; intros s Hs.
  - destruct s; simpl in *; [done|lia].
  - destruct s as [|c s]; simpl in *; [done|]. rewrite IH; [done|lia].
Qed.

Lemma slice0_long n s :
  (n <= String.length s)%nat -> String.length (slice0 n s) = n.
Proof.
  unfold slice0. revert s. induction n as [|n IH]; intros s Hs.
  - by destruct s.
  - destruct s as [|c s]; simpl in *; [lia|]. rewrite IH; [done|lia].
Qed.

Lemma slice0_allChars p n s : allChars p s = true -> allChars p (slice0 n s) = true.
Proof.
  unfold slice0. revert s. induction n as [|n IH]; intros s Hs.
  - by destruct s.
  - destruct s as [|c s]; simpl in *; [done|].
    apply andb_true_iff in Hs as [-> Hs]. simpl. by apply IH.
Qed.

Lemma slice0_head n s :
  startsWithHyphen s = false -> startsWithHyphen (slice0 n s) = false.
Proof. unfold slice0. destruct n, s; simpl; done. Qed.

Lemma replaceRuns_chars s : forall inRun,
  allChars isSlugOrHyphen (replaceRuns inRun s) = true.
Proof.
  induction s as [|c s IH]; intros inRun; [done|].
  cbn [replaceRuns]. destruct (isSlugChar c) eqn:Hc.
  - cbn [allChars]. unfold isSlugOrHyphen at 1. rewrite Hc. simpl. apply IH.
  - destruct inRun; [apply IH|]. cbn [allChars]. rewrite IH. done.
Qed.

Lemma stripLeadingHyphens_chars p s :
  allChars p s = true -> allChars p (stripLeadingHyphens s) = true.
Proof.
  induction s as [|c s IH]; [done|]. intros Hs. cbn [stripLeadingHyphens].
  destruct (isHyphen c); [|done].
  simpl in Hs. apply andb_true_iff in Hs as [_ Hs]. by apply IH.
Qed.

Lemma stripLeadingHyphens_head s : startsWithHyphen (stripLeadingHyphens s) = false.
Proof.
  induction s as [|c s IH]; [done|]. cbn [stripLeadingHyphens].
  destruct (isHyphen c) eqn:Hc; [done|]. simpl. done.
Qed.

Lemma stripTrailingHyphens_chars p s :
  allChars p s = true -> allChars p (stripTrailingHyphens s) = true.
Proof.
  induction s as [|c s IH]; [done|]. intros Hs. cbn [stripTrailingHyphens].
  destruct (allChars isHyphen (String c s)); [done|].
  simpl in *. apply andb_true_iff in Hs as [-> Hs]. simpl. by apply IH.
Qed.

Lemma stripTrailingHyphens_head s :
  startsWithHyphen s = false -> startsWithHyphen (stripTrailingHyphens s) = false.
Proof.
  destruct s as [|c s]; [done|]. cbn [stripTrailingHyphens].
  by destruct (allChars isHyphen (String c s)).
Qed.

(** The slug part of the sanitiser, before the fallback applies. *)
Lemma safe_shape value :
  let safe := slice0 50 (stripHyphens (replaceRuns false (toLowerCase value))) in
  (String.length safe <= 50)%nat /\ allChars isSlugOrHyphen safe = true /\
  startsWithHyphen safe = false.
Proof.
  intros safe. subst safe. unfold stripHyphens. split; [apply slice0_length|]. split.
  - apply slice0_allChars, stripTrailingHyphens_chars, stripLeadingHyphens_chars,
      replaceRuns_chars.
  - apply slice0_head, stripTrailingHyphens_head, stripLeadingHyphens_head.
Qed.

Lemma truthy_length s : truthy s = true -> (1 <= String.length s)%nat.
Proof. destruct s; simpl; [done|lia]. Qed.

(** The sanitiser returns a slug, or the fallback when nothing is left
    of the value. *)
Lemma sanitizeId_slug_or_fallback value fallback :
  isSlug (sanitizeId value fallback) = true \/
  (sanitizeId value fallback = fallback /\
   stripHyphens (replaceRuns false (toLowerCase value)) = "").
Proof.
  unfold sanitizeId, orElse.
  destruct (safe_shape value) as (Hlen & Hchars & Hhead).
  set (full := stripHyphens (replaceRuns false (toLowerCase value))) in *.
  destruct (truthy (slice0 50 full)) eqn:Htruthy.
  - left. unfold isSlug, lengthBetween.
    apply truthy_length in Htruthy.
    rewrite Hchars, Hhead.
    destruct (Nat.leb_spec 1 (String.length (slice0 50 full))); [|lia].
    destruct (Nat.leb_spec (String.length (slice0 50 full)) 50); [done|lia].
  - right. split; [done|].
    destruct full as [|c full]; [done|]. done.
Qed.






Lemma slice0_empty_iff n s : slice0 (S n) s = "" <-> s = "".
Proof. unfold slice0. destruct s; simpl; split; done. Qed.


Lemma ofNat_short n : (n <= 99)%nat -> (1 <= String.length (ofNat n) <= 2)%nat.
Proof.
  intros Hn.
  assert (forallb (fun k => (1 <=? String.length (ofNat k))%nat
                            && (String.length (ofNat k) <=? 2)%nat) (seq 0 100) = true)
    as Hall by (vm_compute; reflexivity).
  rewrite forallb_forall in Hall.
  specialize (Hall n). rewrite in_seq in Hall.
  assert (0 <= n < 0 + 100)%nat as Hrange by lia.
  apply Hall, andb_true_iff in Hrange as [H1 H2].
  apply Nat.leb_le in H1, H2. lia.
Qed.

Lemma validNode_schema n : validNode n = true -> nodeSchema (rawOfNode n) = Some n.
Proof.
  destruct n as [id label type details notes]. unfold validNode. cbn -[lengthBetween NODE_TYPES].
  rewrite !andb_true_iff. intros ((((Hid & Hlabel) & Htype) & Hdetails) & Hnotes).
  unfold nodeSchema, zString, zEnum, zDefault. cbn -[lengthBetween NODE_TYPES].
  by rewrite Hid, Hlabel, Htype, Hdetails, Hnotes.
Qed.

Lemma nodeSchema_validNode rn n : nodeSchema rn = Some n -> validNode n = true.
Proof.
  unfold nodeSchema, zString, zEnum, zDefault, validNode.
  destruct rn as [i l t d o]; cbn -[lengthBetween NODE_TYPES].
  intros H.
  destruct i, l, t, d, o; cbn -[lengthBetween NODE_TYPES] in H; try discriminate;
    repeat (case_match; cbn -[lengthBetween NODE_TYPES] in H; try discriminate);
    simplify_eq; cbn -[lengthBetween NODE_TYPES];
    repeat match goal with H : _ = true |- _ => rewrite H; clear H end; done.
Qed.

Lemma isSlug_length s : isSlug s = true -> (1 <= String.length s <= 50)%nat.
Proof.
  unfold isSlug, lengthBetween. rewrite !andb_true_iff.
  intros [[[H1 H2] _] _]. apply Nat.leb_le in H1, H2. lia.
Qed.

(** The id given to the node at [index] has between 1 and 53 code units. *)
Lemma normalizeNode_id_length st index node :
  (index < 99)%nat ->
  (1 <= String.length (n_id (normalizeNode st index node).1) <= 53)%nat.
Proof.
  intros Hindex. unfold normalizeNode. cbn [fst withId n_id].
  pose proof (ofNat_short (index + 1) ltac:(lia)) as Hnum.
  assert (1 <= String.length (sanitizeId (n_id node) ("node-" +:+ ofNat (index + 1)))
          <= 50)%nat as Hcand.
  { destruct (sanitizeId_slug_or_fallback (n_id node) ("node-" +:+ ofNat (index + 1)))
      as [Hslug|[Hfallback _]].
    - by apply isSlug_length.
    - rewrite Hfallback, length_append. simpl. lia. }
  destruct (bool_decide _); [|lia].
  rewrite !length_append. simpl. lia.
Qed.

Lemma lengthBetween_intro lo hi s :
  (lo <= String.length s <= hi)%nat -> lengthBetween lo hi s = true.
Proof.
  intros [H1 H2]. unfold lengthBetween.
  apply andb_true_iff; split; by apply Nat.leb_le.
Qed.

Lemma normalizeNodes_valid l : forall st index,
  (index + length l <= 99)%nat ->
  Forall (fun n => validNode n = true) l ->
  Forall (fun n => validNode n = true /\ (1 <= String.length (n_id n) <= 53)%nat)
         (normalizeNodes st index l).1.
Proof.
  induction l as [|node rest IH]; intros st index Hlen Hall; [by constructor|].
  rewrite normalizeNodes_cons. cbn [fst]. simpl in Hlen.
  apply Forall_cons in Hall as [Hnode Hrest].
  constructor; [|apply IH; [lia|done]].
  pose proof (normalizeNode_id_length st index node ltac:(lia)) as Hid.
  split; [|done].
  unfold validNode in *. unfold normalizeNode in *. cbn [fst withId n_id n_label n_type
    n_details n_notes] in *.
  rewrite !andb_true_iff in *. destruct Hnode as ((((_ & ?) & ?) & ?) & ?).
  repeat split; try done. apply lengthBetween_intro. lia.
Qed.

Lemma withType_valid type n :
  type ∈ NODE_TYPES -> validNode n = true -> validNode (withType type n) = true.
Proof.
  intros Htype. unfold validNode. cbn [withType n_id n_label n_type n_details n_notes].
  rewrite !andb_true_iff. intros ((((? & ?) & _) & ?) & ?).
  repeat split; try done. by apply bool_decide_eq_true.
Qed.

Lemma enforceTerminals_Forall (P : Node -> Prop) l :
  (forall type n, type ∈ NODE_TYPES -> P n -> P (withType type n)) ->
  Forall P l -> Forall P (enforceTerminals l).
Proof.
  intros Hstep Hall. unfold enforceTerminals.
  assert ("start" ∈ NODE_TYPES) as Hs by apply list_elem_of_here.
  assert ("end" ∈ NODE_TYPES) as He
    by (unfold NODE_TYPES; do 5 apply list_elem_of_further; apply list_elem_of_here).
  repeat case_match; repeat apply Forall_alter; auto.
Qed.

Lemma parsed_nodes_valid raw parsed :
  flowchartSchema raw = Some parsed ->
  Forall (fun n => validNode n = true) (pf_nodes parsed).
Proof.
  intros Hparsed.
  apply flowchartSchema_Some in Hparsed as (_ & _ & _ & _ & Hnodes & _ & _).
  apply zArray_Some in Hnodes as [Hall _].
  apply Forall_lookup. intros i n Hi.
  destruct (Forall2_lookup_r _ _ _ _ _ Hall Hi) as (rn & _ & Hschema).
  by eapply nodeSchema_validNode.
Qed.

(** X2. The nodes of a repaired document pass the node schema again,
    unchanged: read back as untrusted input they parse to themselves, and
    there are between 2 and 35 of them. Every id has between 1 and 53 code
    units (a slug of at most 50, and a suffix of at most 3). *)
Theorem repaired_nodes_pass_schema raw prompt fallbackPalette parsed :
  flowchartSchema raw = Some parsed ->
  exists doc,
    normalizeFlowchart raw prompt fallbackPalette = Some doc /\
    nodesSchema (rawOfNode <$> nodes doc) = Some (nodes doc) /\
    Forall (fun n => (1 <= String.length (n_id n) <= 53)%nat) (nodes doc).
Proof.
  intros Hparsed.
  eexists; split; [by apply normalizeFlowchart_accepted|]. cbn [nodes].
  pose proof (accepted_node_count _ _ Hparsed) as [_ [Hmin Hmax]].
  pose proof (repaired_nodes_length _ _ Hparsed) as Hlen.
  pose proof (parsed_nodes_valid _ _ Hparsed) as Hvalid.
  assert (Forall (fun n => validNode n = true /\ (1 <= String.length (n_id n) <= 53)%nat)
                 (enforceTerminals (repairNodes parsed).1)) as Hall.
  { apply enforceTerminals_Forall.
    - intros type n Htype [Hn Hid]. split; [by apply withType_valid|done].
    - unfold repairNodes. apply normalizeNodes_valid; [lia|done]. }
  split.
  - unfold nodesSchema, zArray.
    rewrite (mapM_Some_2 nodeSchema _ (enforceTerminals (repairNodes parsed).1)).
    + cbn [mbind option_bind].
      apply accepted_node_count in Hparsed as [Hraw _].
      rewrite Hlen, <- Hraw.
      destruct (Nat.leb_spec 2 (length (pf_nodes parsed))); [|lia].
      destruct (Nat.leb_spec (length (pf_nodes parsed)) 35); [done|lia].
    + apply Forall2_fmap_l, Forall_Forall2_diag.
      eapply Forall_impl; [exact Hall|].
      intros n [Hn _]. by apply validNode_schema.
  - eapply Forall_impl; [exact Hall|]. by intros n [_ Hid].
Qed.

Lemma normalizeEdge_Some idMap validIdSet index pe e :
  normalizeEdge idMap validIdSet index pe = Some e ->
  e_source e ∈ validIdSet /\ e_target e ∈ validIdSet /\
  e_source e = default (sanitizeId (pe_source pe) "") (idMap !! pe_source pe) /\
  e_target e = default (sanitizeId (pe_target pe) "") (idMap !! pe_target pe) /\
  e_label e = pe_label pe /\ e_condition e = pe_condition pe.
Proof.
  unfold normalizeEdge. cbv zeta.
  destruct (bool_decide (_ ∈ validIdSet)) eqn:Hs; simpl; [|done].
  destruct (bool_decide (default _ (idMap !! pe_target pe) ∈ validIdSet)) eqn:Ht;
    simpl; [|done].
  apply bool_decide_eq_true in Hs, Ht.
  intros [= <-]. simpl. done.
Qed.

Lemma normalizeEdges_elem idMap validIdSet l : forall index e,
  e ∈ normalizeEdges idMap validIdSet index l ->
  exists k pe, l !! k = Some pe /\
    normalizeEdge idMap validIdSet (index + k) pe = Some e.
Proof.
  induction l as [|pe rest IH]; intros index e He; [by apply elem_of_nil in He|].
  cbn [normalizeEdges] in He.
  destruct (normalizeEdge idMap validIdSet index pe) as [e0|] eqn:Hpe.
  - apply elem_of_cons in He as [->|He].
    + exists 0%nat, pe. by rewrite Nat.add_0_r.
    + destruct (IH _ _ He) as (k & pe' & Hk & Hn).
      exists (S k), pe'. split; [done|]. by replace (index + S k)%nat with (S index + k)%nat by lia.
  - destruct (IH _ _ He) as (k & pe' & Hk & Hn).
    exists (S k), pe'. split; [done|]. by replace (index + S k)%nat with (S index + k)%nat by lia.
Qed.

Lemma normalizeEdges_length idMap validIdSet l : forall index,
  (length (normalizeEdges idMap validIdSet index l) <= length l)%nat.
Proof.
  induction l as [|pe rest IH]; intros index; [done|].
  cbn [normalizeEdges]. specialize (IH (S index)).
  destruct (normalizeEdge idMap validIdSet index pe); simpl; lia.
Qed.

Lemma chainEdges_elem l : forall i e,
  e ∈ chainEdges i l -> e_source e ∈ n_id <$> l /\ e_target e ∈ n_id <$> l.
Proof.
  intros i e He. apply list_elem_of_lookup in He as [k Hk].
  pose proof (lookup_lt_Some _ _ _ Hk) as Hlt. rewrite chainEdges_length in Hlt.
  destruct (chainEdges_lookup l i k ltac:(lia)) as (a & b & Ha & Hb & Hedge).
  rewrite Hedge in Hk. injection Hk as <-. cbn [e_source e_target].
  split; apply list_elem_of_fmap_2; by eapply list_elem_of_lookup_2.
Qed.

(** X3. Referential integrity: in a repaired document the source and the
    target of every edge are ids of its nodes, whether the edges are the
    repaired ones or the chain put in their place. *)
Theorem repaired_edges_reference_nodes raw prompt fallbackPalette parsed :
  flowchartSchema raw = Some parsed ->
  exists doc,
    normalizeFlowchart raw prompt fallbackPalette = Some doc /\
    forall e, e ∈ edges doc ->
      e_source e ∈ n_id <$> nodes doc /\ e_target e ∈ n_id <$> nodes doc.
Proof.
  intros Hparsed.
  eexists; split; [by apply normalizeFlowchart_accepted|]. cbn [nodes edges].
  intros e He. destruct (repairEdges parsed) as [|e0 rest] eqn:Hedges.
  - by apply chainEdges_elem in He.
  - rewrite <- Hedges in He. unfold repairEdges in He.
    destruct (repairNodes parsed) as [ns st] eqn:Hnodes. cbn [fst].
    apply normalizeEdges_elem in He as (k & pe & _ & Hedge).
    apply normalizeEdge_Some in Hedge as (Hs & Ht & _).
    rewrite elem_of_list_to_set in Hs, Ht.
    by rewrite enforceTerminals_ids.
Qed.

Lemma normalizeNode_state st index node :
  usedIds (normalizeNode st index node).2
    = {[n_id (normalizeNode st index node).1]} ∪ usedIds st /\
  idMap (normalizeNode st index node).2
    = <[n_id node := n_id (normalizeNode st index node).1]> (idMap st).
Proof. done. Qed.

(** A raw id that no later node carries keeps its entry. *)
Lemma normalizeNodes_idMap_other l : forall st index key,
  key ∉ n_id <$> l ->
  idMap (normalizeNodes st index l).2 !! key = idMap st !! key.
Proof.
  induction l as [|node rest IH]; intros st index key Hkey; [done|].
  rewrite normalizeNodes_cons. cbn [snd].
  rewrite fmap_cons, not_elem_of_cons in Hkey. destruct Hkey as [Hne Hrest].
  rewrite IH by done.
  destruct (normalizeNode_state st index node) as [_ ->].
  by rewrite lookup_insert_ne.
Qed.

(** Every raw node id is mapped to the repaired id of a node. *)
Lemma normalizeNodes_idMap l : forall st index key,
  key ∈ n_id <$> l ->
  exists v, idMap (normalizeNodes st index l).2 !! key = Some v /\
            v ∈ n_id <$> (normalizeNodes st index l).1.
Proof.
  induction l as [|node rest IH]; intros st index key Hkey;
    [by apply elem_of_nil in Hkey|].
  rewrite normalizeNodes_cons. cbn [fst snd]. rewrite fmap_cons.
  destruct (decide (key ∈ n_id <$> rest)) as [Hin|Hnotin].
  - destruct (IH (normalizeNode st index node).2 (S index) key Hin) as (v & Hv & Hvin).
    exists v. split; [done|]. by apply list_elem_of_further.
  - rewrite fmap_cons in Hkey. apply elem_of_cons in Hkey as [->|]; [|done].
    rewrite normalizeNodes_idMap_other by done.
    destruct (normalizeNode_state st index node) as [_ ->].
    rewrite lookup_insert_eq. eexists; split; [done|]. apply list_elem_of_here.
Qed.

Lemma normalizeEdges_all idMap validIdSet l : forall index,
  Forall (fun pe =>
            default (sanitizeId (pe_source pe) "") (idMap !! pe_source pe) ∈ validIdSet /\
            default (sanitizeId (pe_target pe) "") (idMap !! pe_target pe) ∈ validIdSet) l ->
  Forall2 (fun pe e =>
             idMap !! pe_source pe = None \/ idMap !! pe_source pe = Some (e_source e))
          l (normalizeEdges idMap validIdSet index l) /\
  Forall2 (fun pe e =>
             e_source e = default (sanitizeId (pe_source pe) "") (idMap !! pe_source pe) /\
             e_target e = default (sanitizeId (pe_target pe) "") (idMap !! pe_target pe) /\
             e_label e = pe_label pe /\ e_condition e = pe_condition pe)
          l (normalizeEdges idMap validIdSet index l).
Proof.
  induction l as [|pe rest IH]; intros index Hall; [split; constructor|].
  apply Forall_cons in Hall as [[Hs Ht] Hrest].
  destruct (IH (S index) Hrest) as [IH1 IH2].
  cbn [normalizeEdges].
  destruct (normalizeEdge idMap validIdSet index pe) as [e|] eqn:Hpe.
  - apply normalizeEdge_Some in Hpe as (_ & _ & Hsrc & Htgt & Hlab & Hcond).
    split; constructor; try done.
    rewrite Hsrc. destruct (idMap !! pe_source pe); auto.
  - exfalso. unfold normalizeEdge in Hpe. cbv zeta in Hpe.
    rewrite (bool_decide_eq_true_2 _ Hs), (bool_decide_eq_true_2 _ Ht) in Hpe.
    done.
Qed.

(** X4. No edge is dropped when every endpoint is the raw id of a node:
    the repaired edges are then the parsed edges in their order, each with
    its label and condition, its source and target replaced by what the
    id map holds for them. *)
Theorem known_endpoints_never_dropped raw prompt fallbackPalette parsed :
  flowchartSchema raw = Some parsed ->
  pf_edges parsed <> [] ->
  Forall (fun pe => pe_source pe ∈ n_id <$> pf_nodes parsed /\
                    pe_target pe ∈ n_id <$> pf_nodes parsed) (pf_edges parsed) ->
  exists doc,
    normalizeFlowchart raw prompt fallbackPalette = Some doc /\
    Forall2 (fun pe e =>
               idMap (repairNodes parsed).2 !! pe_source pe = Some (e_source e) /\
               idMap (repairNodes parsed).2 !! pe_target pe = Some (e_target e) /\
               e_label e = pe_label pe /\ e_condition e = pe_condition pe)
            (pf_edges parsed) (edges doc).
Proof.
  intros Hparsed Hnonempty Hknown.
  eexists; split; [by apply normalizeFlowchart_accepted|]. cbn [edges].
  unfold repairEdges, repairNodes.
  set (pass := normalizeNodes (mkIdState ∅ ∅) 0 (pf_nodes parsed)).
  assert (forall key, key ∈ n_id <$> pf_nodes parsed ->
            exists v, idMap pass.2 !! key = Some v /\
                      v ∈ (list_to_set (n_id <$> pass.1) : gset string)) as Hmap.
  { intros key Hkey.
    destruct (normalizeNodes_idMap _ (mkIdState ∅ ∅) 0%nat key Hkey) as (v & Hv & Hin).
    exists v. split; [done|]. by apply elem_of_list_to_set. }
  destruct pass as [ns st] eqn:Hpass. cbn [fst snd] in *.
  destruct (normalizeEdges_all (idMap st) (list_to_set (n_id <$> ns)) (pf_edges parsed) 0%nat)
    as [_ Hall].
  { eapply Forall_impl; [exact Hknown|]. intros pe [Hs Ht].
    destruct (Hmap _ Hs) as (vs & -> & ?), (Hmap _ Ht) as (vt & -> & ?). done. }
  assert (Forall2 (fun pe e =>
               idMap st !! pe_source pe = Some (e_source e) /\
               idMap st !! pe_target pe = Some (e_target e) /\
               e_label e = pe_label pe /\ e_condition e = pe_condition pe)
            (pf_edges parsed)
            (normalizeEdges (idMap st) (list_to_set (n_id <$> ns)) 0 (pf_edges parsed)))
    as Hgoal.
  { apply Forall2_same_length_lookup. split; [by eapply Forall2_length|].
    intros i pe e Hpe He.
    destruct (Forall2_lookup_lr _ _ _ _ _ _ Hall Hpe He) as (Hs & Ht & Hl & Hc).
    apply Forall_lookup with (i := i) (x := pe) in Hknown as [Hks Hkt]; [|done].
    destruct (Hmap _ Hks) as (vs & Hvs & _), (Hmap _ Hkt) as (vt & Hvt & _).
    rewrite Hvs in Hs. rewrite Hvt in Ht. simpl in Hs, Ht.
    rewrite Hvs, Hvt. by subst. }
  destruct (normalizeEdges _ _ _ _) as [|e rest] eqn:Hedges; [|done].
  apply Forall2_length in Hgoal. simpl in Hgoal.
  destruct (pf_edges parsed); done.
Qed.

(** X5. When the parsed nodes have a start and an end node, terminal
    enforcement changes nothing: the repaired nodes have the types of the
    input nodes, in order. *)
Theorem terminals_present_types_kept raw prompt fallbackPalette parsed :
  flowchartSchema raw = Some parsed ->
  hasType "start" (pf_nodes parsed) = true ->
  hasType "end" (pf_nodes parsed) = true ->
  exists doc,
    normalizeFlowchart raw prompt fallbackPalette = Some doc /\
    n_type <$> nodes doc = n_type <$> pf_nodes parsed /\
    Forall2 (fun rn n => rn_type rn = Str (n_type n)) (rf_nodes raw) (nodes doc).
Proof.
  intros Hparsed Hstart Hend.
  eexists; split; [by apply normalizeFlowchart_accepted|]. cbn [nodes].
  unfold repairNodes.
  set (l := (normalizeNodes (mkIdState ∅ ∅) 0 (pf_nodes parsed)).1).
  assert (n_type <$> l = n_type <$> pf_nodes parsed) as Htypes
    by apply normalizeNodes_types.
  assert (enforceTerminals l = l) as ->.
  { unfold enforceTerminals. rewrite !hasType_types, Htypes, <- !hasType_types.
    rewrite Hstart. simpl. rewrite !hasType_types, Htypes, <- !hasType_types.
    by rewrite Hend. }
  split; [done|].
  apply flowchartSchema_Some in Hparsed as (_ & _ & _ & _ & Hnodes & _ & _).
  apply zArray_Some in Hnodes as [Hall _].
  apply Forall2_same_length_lookup. split.
  { apply Forall2_length in Hall. subst l. by rewrite normalizeNodes_length. }
  intros i rn n Hrn Hn.
  destruct (Forall2_lookup_l _ _ _ _ _ Hall Hrn) as (pn & Hpn & Hschema).
  apply nodeSchema_Some in Hschema as (_ & _ & Htype & _).
  assert ((n_type <$> l) !! i = Some (n_type n)) as Hti
    by (by rewrite list_lookup_fmap, Hn).
  rewrite Htypes, list_lookup_fmap, Hpn in Hti. simpl in Hti. congruence.
Qed.

(** X6. Sizes of a repaired document: between 2 and 35 nodes and at most
    90 edges; when an edge survives the repair there are no more edges
    than in the input, and each carries the label and the condition of
    an input edge. *)
Theorem repaired_edges_bounded raw prompt fallbackPalette parsed :
  flowchartSchema raw = Some parsed ->
  exists doc,
    normalizeFlowchart raw prompt fallbackPalette = Some doc /\
    (2 <= length (nodes doc) <= 35)%nat /\
    (length (edges doc) <= 90)%nat /\
    (repairEdges parsed <> [] ->
     (length (edges doc) <= length (rf_edges raw))%nat /\
     forall e, e ∈ edges doc ->
       exists k pe, pf_edges parsed !! k = Some pe /\
         e_label e = pe_label pe /\ e_condition e = pe_condition pe).
Proof.
  intros Hparsed.
  eexists; split; [by apply normalizeFlowchart_accepted|]. cbn [nodes edges].
  pose proof (accepted_node_count _ _ Hparsed) as [Hraw [Hmin Hmax]].
  pose proof (repaired_nodes_length _ _ Hparsed) as Hlen.
  apply flowchartSchema_Some in Hparsed as (_ & _ & _ & _ & _ & Hedges & _).
  apply zArray_Some in Hedges as [Hall [_ Hbound]].
  apply Forall2_length in Hall.
  assert (length (repairEdges parsed) <= length (pf_edges parsed))%nat as Hcount.
  { unfold repairEdges. destruct (repairNodes parsed). apply normalizeEdges_length. }
  split; [lia|].
  destruct (repairEdges parsed) as [|e0 rest] eqn:Hrep.
  - split; [rewrite chainEdges_length; lia|]. done.
  - rewrite <- Hrep in *. split; [lia|]. intros _. split; [lia|].
    intros e He. unfold repairEdges in He. destruct (repairNodes parsed).
    apply normalizeEdges_elem in He as (k & pe & Hk & Hedge).
    apply normalizeEdge_Some in Hedge as (_ & _ & _ & _ & Hl & Hc).
    eauto.
Qed.

(** X9. The palette normaliser returns a palette that is valid, that the
    schema parses to itself, and that the normaliser maps to itself
    whatever the fallback: normalising twice is normalising once. *)
Theorem normalizePalette_valid rawPalette fallbackPalette :
  validPalette (normalizePalette rawPalette fallbackPalette) = true /\
  paletteSchema (rawOfPalette (normalizePalette rawPalette fallbackPalette))
    = Some (normalizePalette rawPalette fallbackPalette) /\
  forall other,
    normalizePalette (Some (rawOfPalette (normalizePalette rawPalette fallbackPalette)))
      other = normalizePalette rawPalette fallbackPalette.
Proof.
  assert (validPalette (normalizePalette rawPalette fallbackPalette) = true) as Hvalid.
  { unfold normalizePalette.
    destruct (paletteSchema _) as [p|] eqn:Hp; [by eapply paletteSchema_valid|].
    by rewrite paletteSchema_default. }
  split; [done|]. split; [by apply paletteSchema_rawOfPalette|].
  intros other. by apply normalizePalette_own.
Qed.

Lemma zColor_value d v s : zColor d v = Some s -> s = slotOr d v.
Proof.
  unfold zColor, zDefault, zRegex. destruct v as [|s'|]; simpl; [congruence| |done].
  destruct (HEX_COLOR_REGEX s'); congruence.
Qed.

Lemma zName_value d v s : zDefault (zString 2 80) d v = Some s -> s = slotOr d v.
Proof.
  unfold zDefault, zString. destruct v as [|s'|]; simpl; [congruence| |done].
  destruct (lengthBetween 2 80 s'); congruence.
Qed.

(** X10. Defaults of the palette schema go field by field: every field
    of an accepted palette is the string the input holds there, and the
    default palette's value where the input has none; the table of node
    colours itself is required. *)
Theorem paletteSchema_field_defaults raw p :
  paletteSchema raw = Some p ->
  p_name p = slotOr (p_name DEFAULT_PALETTE) (rp_name raw) /\
  p_canvas p = slotOr (p_canvas DEFAULT_PALETTE) (rp_canvas raw) /\
  p_panel p = slotOr (p_panel DEFAULT_PALETTE) (rp_panel raw) /\
  p_text p = slotOr (p_text DEFAULT_PALETTE) (rp_text raw) /\
  p_mutedText p = slotOr (p_mutedText DEFAULT_PALETTE) (rp_mutedText raw) /\
  p_edge p = slotOr (p_edge DEFAULT_PALETTE) (rp_edge raw) /\
  p_accent p = slotOr (p_accent DEFAULT_PALETTE) (rp_accent raw) /\
  exists colors,
    rp_nodeColors raw = Some colors /\
    let d := p_nodeColors DEFAULT_PALETTE in
    let c := p_nodeColors p in
    nc_start c = slotOr (nc_start d) (rnc_start colors) /\
    nc_process c = slotOr (nc_process d) (rnc_process colors) /\
    nc_decision c = slotOr (nc_decision d) (rnc_decision colors) /\
    nc_data c = slotOr (nc_data d) (rnc_data colors) /\
    nc_subprocess c = slotOr (nc_subprocess d) (rnc_subprocess colors) /\
    nc_end c = slotOr (nc_end d) (rnc_end colors) /\
    nc_actor c = slotOr (nc_actor d) (rnc_actor colors) /\
    nc_document c = slotOr (nc_document d) (rnc_document colors).
Proof.
  unfold paletteSchema. cbv zeta. intros H. bind_inv H. simplify_eq.
  match goal with H : _ ≫= nodeColorsSchema = Some _ |- _ =>
    apply bind_Some in H as (colors & Hcolors & H) end.
  unfold nodeColorsSchema in *. cbv zeta in *.
  match goal with H : _ ≫= _ = Some _ |- _ => bind_inv H end. simplify_eq.
  repeat match goal with
         | H : zColor _ _ = Some _ |- _ => apply zColor_value in H
         | H : zDefault (zString 2 80) _ _ = Some _ |- _ => apply zName_value in H
         end.
  cbn [p_name p_canvas p_panel p_text p_mutedText p_edge p_accent p_nodeColors].
  repeat split; try done.
  exists colors. split; [done|]. cbn. done.
Qed.

Ltac decide_by_compute :=
  match goal with
  | |- ?P => refine (@bool_decide_unpack P _ _); vm_compute; exact I
  end.

Lemma pickPaletteFrom_valid lowerPrompt :
  validPalette (pickPaletteFrom DOMAIN_PALETTES lowerPrompt) = true.
Proof.
  unfold DOMAIN_PALETTES. cbn [pickPaletteFrom keywords dp_palette].
  repeat (destruct (existsb _ _); [reflexivity|]). reflexivity.
Qed.

Lemma toLowerChar_idem c : toLowerChar (toLowerChar c) = toLowerChar c.
Proof. destruct c as [[] [] [] [] [] [] [] []]; reflexivity. Qed.

Lemma toLowerCase_idem s : toLowerCase (toLowerCase s) = toLowerCase s.
Proof. induction s as [|c s IH]; [done|]. simpl. by rewrite toLowerChar_idem, IH. Qed.

(** X11. The keyword palette of a prompt is valid, parses to itself, does
    not depend on the case of the prompt, and as the document's own
    palette it is what the normaliser returns. *)
Theorem pickPaletteFromPrompt_valid prompt :
  validPalette (pickPaletteFromPrompt prompt) = true /\
  paletteSchema (rawOfPalette (pickPaletteFromPrompt prompt))
    = Some (pickPaletteFromPrompt prompt) /\
  pickPaletteFromPrompt (toLowerCase prompt) = pickPaletteFromPrompt prompt /\
  (forall fallbackPalette,
     normalizePalette (Some (rawOfPalette (pickPaletteFromPrompt prompt))) fallbackPalette
     = pickPaletteFromPrompt prompt).
Proof.
  assert (validPalette (pickPaletteFromPrompt prompt) = true) as Hvalid
    by apply pickPaletteFrom_valid.
  split; [done|]. split; [by apply paletteSchema_rawOfPalette|].
  split; [unfold pickPaletteFromPrompt; by rewrite toLowerCase_idem|].
  intros fallbackPalette. by apply normalizePalette_own.
Qed.

(** X12. The fallback template: five nodes with fixed distinct ids and
    the types start, process, subprocess, decision, end; every edge joins
    two of them; the first node's details are the prompt, cut to its
    first 117 code units and an ellipsis when it has more than 120; the
    palette is valid and the source prompt is the prompt. *)
Theorem fallbackFlowchart_canonical prompt detailLevel audience :
  let doc := fallbackFlowchart prompt detailLevel audience in
  n_id <$> nodes doc
    = ["problem-definition"; "requirements"; "modeling"; "review"; "final-diagram"] /\
  NoDup (n_id <$> nodes doc) /\
  (forall e, e ∈ edges doc ->
     e_source e ∈ n_id <$> nodes doc /\ e_target e ∈ n_id <$> nodes doc) /\
  n_type <$> nodes doc = ["start"; "process"; "subprocess"; "decision"; "end"] /\
  (exists first, nodes doc !! 0%nat = Some first /\
     (String.length (n_details first) <= 120)%nat /\
     ((String.length prompt <= 120)%nat -> n_details first = prompt) /\
     ((120 < String.length prompt)%nat ->
      n_details first = slice0 117 prompt +:+ "...")) /\
  validPalette (palette doc) = true /\
  sourcePrompt doc = prompt.
Proof.
  intros doc. subst doc. cbn [fallbackFlowchart nodes edges palette sourcePrompt
    fallbackNodes fmap list_fmap n_id n_type].
  split; [done|]. split.
  { decide_by_compute. }
  split.
  { intros e He. unfold fallbackEdges in He.
    rewrite !elem_of_cons, elem_of_nil in He.
    destruct_or!; try done; subst e; cbn [e_source e_target];
      split; decide_by_compute. }
  split; [done|]. split.
  - eexists. split; [reflexivity|]. cbn [n_details].
    destruct (Nat.ltb_spec 120 (String.length prompt)) as [Hlong|Hshort].
    + rewrite length_append, slice0_long by lia. simpl.
      split; [lia|]. split; [lia|done].
    + split; [lia|]. split; [done|lia].
  - split; [apply pickPaletteFrom_valid|done].
Qed.

Section PipelineMore.
Variable zodMessage : schemaName -> RawFlowchart -> string.
Variable runModel : Request -> string -> GroqClient -> result RawFlowchart.

(** X13. Generation absorbs a model failure: with a credential, when the
    model call throws, or its answer is rejected by the schema, and the
    message does not mention the missing key, the call returns the
    fallback template for the prompt, the detail level and the audience. *)
Theorem generation_failure_absorbed env prompt detailLevel audience groq :
  let call :=
    generateFlowchartFromPrompt zodMessage runModel env prompt detailLevel audience in
  let detail := default "balanced" detailLevel in
  let reader := default "" audience in
  let answer := runModel (GenerateRequest prompt detail reader) (modelName env) groq in
  getGroqClient env = Return groq ->
  (forall e, answer = Throw e -> mentionsMissingKey e = false ->
     call = Return (fallbackFlowchart prompt detail reader)) /\
  (forall parsed, answer = Return parsed ->
     flowchartSchema parsed = None ->
     mentionsMissingKey (ErrorObject (zodMessage FlowchartSchema parsed)) = false ->
     call = Return (fallbackFlowchart prompt detail reader)).
Proof.
  intros call detail reader answer Hgroq. subst call detail reader answer.
  unfold generateFlowchartFromPrompt. cbv zeta. rewrite Hgroq. cbn [mbind result_bind].
  split.
  - intros e -> Hkey. cbn [mbind result_bind]. by apply catchModelFailure_absorbed.
  - intros parsed -> Hrejected Hkey. cbn [mbind result_bind].
    unfold parseOrThrow. rewrite normalizeFlowchart_rejected by done.
    by apply catchModelFailure_absorbed.
Qed.

(** X14. Generation succeeds with the repaired answer: with a credential
    and a schema-accepted answer the call returns the repair of that
    answer, whose source prompt is the prompt, whose title is the parsed
    title and whose palette is the answer's own, or the keyword palette
    of the prompt when the answer has none. *)
Theorem generation_success env prompt detailLevel audience groq answer parsed :
  getGroqClient env = Return groq ->
  runModel (GenerateRequest prompt (default "balanced" detailLevel) (default "" audience))
           (modelName env) groq = Return answer ->
  flowchartSchema answer = Some parsed ->
  exists doc,
    generateFlowchartFromPrompt zodMessage runModel env prompt detailLevel audience
      = Return doc /\
    normalizeFlowchart answer prompt (Some (rawOfPalette (pickPaletteFromPrompt prompt)))
      = Some doc /\
    sourcePrompt doc = prompt /\
    title doc = pf_title parsed /\
    palette doc = default (pickPaletteFromPrompt prompt) (pf_palette parsed).
Proof.
  intros Hgroq Hrun Hparsed.
  pose proof (normalizeFlowchart_accepted answer prompt
                (Some (rawOfPalette (pickPaletteFromPrompt prompt))) parsed Hparsed)
    as Hdoc.
  eexists. split; [|split; [exact Hdoc|]].
  - unfold generateFlowchartFromPrompt. cbv zeta. rewrite Hgroq. cbn [mbind result_bind].
    rewrite Hrun. cbn [mbind result_bind]. unfold parseOrThrow. rewrite Hdoc. done.
  - cbn [sourcePrompt title palette]. split; [done|]. split; [done|].
    apply flowchartSchema_Some in Hparsed as (_ & _ & _ & _ & _ & _ & Hpalette).
    destruct (pf_palette parsed) as [own|] eqn:Hown; cbn [fmap option_fmap option_map].
    + destruct (rf_palette answer) as [rawOwn|]; cbn [zOptionalObj] in Hpalette; [|done].
      apply fmap_Some in Hpalette as (p & Hp & [= ->]).
      apply normalizePalette_own. by eapply paletteSchema_valid.
    + rewrite normalizePalette_fallback. cbn [from_option id].
      rewrite paletteSchema_rawOfPalette by apply pickPaletteFrom_valid. done.
Qed.

(** X15. Refinement does not absorb what fails before the model step: a
    current flowchart rejected by the input schema or by the repair
    throws the schema's error, and a missing credential throws the
    missing-key error. *)
Theorem refinement_input_errors_propagate env currentFlowchart followUpPrompt
    detailLevel audience :
  let call :=
    refineFlowchartFromPrompt zodMessage runModel env currentFlowchart followUpPrompt
      detailLevel audience in
  (refineInputSchema currentFlowchart = None ->
   call = Throw (ErrorObject (zodMessage RefineInputSchema currentFlowchart))) /\
  (forall parsedCurrent,
     refineInputSchema currentFlowchart = Some parsedCurrent ->
     flowchartSchema (safeInput parsedCurrent) = None ->
     call = Throw (ErrorObject (zodMessage FlowchartSchema (safeInput parsedCurrent)))) /\
  (forall parsedCurrent safeCurrent,
     refineInputSchema currentFlowchart = Some parsedCurrent ->
     repairCurrent parsedCurrent (safeInput parsedCurrent) = Some safeCurrent ->
     credentialAbsent env ->
     call = Throw missingKeyError).
Proof.
  intros call. subst call. unfold refineFlowchartFromPrompt, parseOrThrow. cbv zeta.
  split; [|split].
  - by intros ->.
  - intros parsedCurrent -> Hrejected. cbn [mbind result_bind].
    unfold repairCurrent. by rewrite normalizeFlowchart_rejected.
  - intros parsedCurrent safeCurrent -> Hsafe Habsent. cbn [mbind result_bind].
    rewrite Hsafe. cbn [mbind result_bind]. by rewrite getGroqClient_absent.
Qed.

End PipelineMore.

Lemma repaired_nodes_pass_schema_witness :
  exists parsed,
    flowchartSchema collidingIds = Some parsed /\
    exists doc,
      normalizeFlowchart collidingIds "steps" None = Some doc /\
      nodesSchema (rawOfNode <$> nodes doc) = Some (nodes doc) /\
      Forall (fun n => (1 <= String.length (n_id n) <= 53)%nat) (nodes doc).
Proof.
  eexists. split; [vm_compute; reflexivity|].
  eapply (repaired_nodes_pass_schema collidingIds "steps" None).
  vm_compute. reflexivity.
Defined.

Lemma repaired_edges_reference_nodes_witness :
  exists parsed,
    flowchartSchema abcLinked = Some parsed /\
    exists doc,
      normalizeFlowchart abcLinked "orders" None = Some doc /\
      forall e, e ∈ edges doc ->
        e_source e ∈ n_id <$> nodes doc /\ e_target e ∈ n_id <$> nodes doc.
Proof.
  eexists. split; [vm_compute; reflexivity|].
  eapply (repaired_edges_reference_nodes abcLinked "orders" None).
  vm_compute. reflexivity.
Defined.

Lemma known_endpoints_never_dropped_witness :
  exists parsed,
    flowchartSchema abcLinked = Some parsed /\
    exists doc,
      normalizeFlowchart abcLinked "orders" None = Some doc /\
      Forall2 (fun pe e =>
                 idMap (repairNodes parsed).2 !! pe_source pe = Some (e_source e) /\
                 idMap (repairNodes parsed).2 !! pe_target pe = Some (e_target e) /\
                 e_label e = pe_label pe /\ e_condition e = pe_condition pe)
              (pf_edges parsed) (edges doc).
Proof.
  eexists. split; [vm_compute; reflexivity|].
  eapply (known_endpoints_never_dropped abcLinked "orders" None).
  - vm_compute. reflexivity.
  - cbn. discriminate.
  - cbn. repeat constructor; decide_by_compute.
Defined.

Lemma terminals_present_types_kept_witness :
  exists parsed,
    flowchartSchema abc = Some parsed /\
    exists doc,
      normalizeFlowchart abc "orders" None = Some doc /\
      n_type <$> nodes doc = n_type <$> pf_nodes parsed /\
      Forall2 (fun rn n => rn_type rn = Str (n_type n)) (rf_nodes abc) (nodes doc).
Proof.
  eexists. split; [vm_compute; reflexivity|].
  eapply (terminals_present_types_kept abc "orders" None).
  - vm_compute. reflexivity.
  - vm_compute. reflexivity.
  - vm_compute. reflexivity.
Defined.

Lemma repaired_edges_bounded_witness :
  exists parsed,
    flowchartSchema abcLinked = Some parsed /\
    exists doc,
      normalizeFlowchart abcLinked "orders" None = Some doc /\
      (2 <= length (nodes doc) <= 35)%nat /\
      (length (edges doc) <= 90)%nat /\
      (repairEdges parsed <> [] ->
       (length (edges doc) <= length (rf_edges abcLinked))%nat /\
       forall e, e ∈ edges doc ->
         exists k pe, pf_edges parsed !! k = Some pe /\
           e_label e = pe_label pe /\ e_condition e = pe_condition pe).
Proof.
  eexists. split; [vm_compute; reflexivity|].
  eapply (repaired_edges_bounded abcLinked "orders" None).
  vm_compute. reflexivity.
Defined.

Lemma repaired_ids_distinct_witness :
  exists parsed,
    flowchartSchema abc = Some parsed /\
    NoDup (imap candidateOf (pf_nodes parsed)) /\
    exists doc,
      normalizeFlowchart abc "orders" None = Some doc /\
      NoDup (n_id <$> nodes doc).
Proof.
  eexists. split; [vm_compute; reflexivity|].
  assert (NoDup (imap candidateOf
            [mkNode "a" "Step" "start" "" ""; mkNode "b" "Step" "process" "" "";
             mkNode "c" "Step" "end" "" ""])) as Hnodup by decide_by_compute.
  split; [exact Hnodup|].
  eapply (repaired_ids_distinct abc "orders" None).
  - vm_compute. reflexivity.
  - exact Hnodup.
Defined.

Lemma repaired_terminals_witness :
  exists parsed,
    flowchartSchema startLast = Some parsed /\
    exists doc,
      normalizeFlowchart startLast "ship it" None = Some doc /\
      hasType "end" (nodes doc) = true /\
      hasType "start" (nodes doc) =
        negb (hasType "start" (pf_nodes parsed)) || hasType "end" (pf_nodes parsed)
        || hasType "start" (take (length (pf_nodes parsed) - 1) (pf_nodes parsed)).
Proof.
  eexists. split; [vm_compute; reflexivity|].
  eapply (repaired_terminals startLast "ship it" None).
  vm_compute. reflexivity.
Defined.

Lemma paletteSchema_field_defaults_witness :
  paletteSchema (rawOfPalette clinicalSignal) = Some clinicalSignal /\
  p_accent clinicalSignal
    = slotOr (p_accent DEFAULT_PALETTE) (rp_accent (rawOfPalette clinicalSignal)).
Proof.
  assert (paletteSchema (rawOfPalette clinicalSignal) = Some clinicalSignal) as Hparsed
    by (vm_compute; reflexivity).
  split; [exact Hparsed|].
  apply (paletteSchema_field_defaults _ _ Hparsed).
Defined.

Lemma generation_failure_absorbed_witness :
  getGroqClient sampleEnv = Return (mkGroq "gsk-test") /\
  mentionsMissingKey (ErrorObject "rate limit exceeded") = false /\
  generateFlowchartFromPrompt sampleZodMessage (failingModel "rate limit exceeded")
    sampleEnv "Describe the order handling process" None None
  = Return (fallbackFlowchart "Describe the order handling process" "balanced" "").
Proof.
  split; [reflexivity|]. split; [vm_compute; reflexivity|].
  eapply (proj1 (generation_failure_absorbed sampleZodMessage
                   (failingModel "rate limit exceeded") sampleEnv
                   "Describe the order handling process" None None
                   (mkGroq "gsk-test") eq_refl)).
  - reflexivity.
  - vm_compute. reflexivity.
Defined.

Lemma generation_success_witness :
  exists parsed,
    flowchartSchema abc = Some parsed /\
    exists doc,
      generateFlowchartFromPrompt sampleZodMessage (answeringModel abc) sampleEnv
        "hospital triage" None None = Return doc /\
      normalizeFlowchart abc "hospital triage"
        (Some (rawOfPalette (pickPaletteFromPrompt "hospital triage"))) = Some doc /\
      sourcePrompt doc = "hospital triage" /\
      title doc = pf_title parsed /\
      palette doc = default (pickPaletteFromPrompt "hospital triage") (pf_palette parsed).
Proof.
  eexists. split; [vm_compute; reflexivity|].
  eapply (generation_success sampleZodMessage (answeringModel abc) sampleEnv
            "hospital triage" None None (mkGroq "gsk-test") abc).
  - reflexivity.
  - reflexivity.
  - vm_compute. reflexivity.
Defined.

Lemma refinement_input_errors_propagate_witness :
  refineInputSchema oneNodeAnswer = None /\
  refineFlowchartFromPrompt sampleZodMessage (answeringModel abc) sampleEnv
    oneNodeAnswer "Add a review step" None None
  = Throw (ErrorObject (sampleZodMessage RefineInputSchema oneNodeAnswer)).
Proof.
  assert (refineInputSchema oneNodeAnswer = None) as Hrejected by (vm_compute; reflexivity).
  split; [exact Hrejected|].
  apply (proj1 (refinement_input_errors_propagate sampleZodMessage (answeringModel abc)
                  sampleEnv oneNodeAnswer "Add a review step" None None) Hrejected).
Defined.

End ServiceMore.

(** * Properties of the HTTP handlers *)

Module HttpProps.
Import Js Zod Service Spec Http ServiceProps.

Lemma prefix_includes a b hay :
  String.prefix (a +:+ b) hay = true -> includes hay b = true.
Proof.
  revert hay. induction a as [|c a IH]; intros hay H.
  - change (String.prefix b hay = true) in H.
    destruct hay; cbn [includes]; by rewrite H.
  - change (String.prefix (String c (a +:+ b)) hay = true) in H.
    destruct hay as [|c' hay]; [done|]. cbn [String.prefix] in H.
    destruct (Ascii.ascii_dec c c'); [|done].
    cbn [includes]. rewrite (IH _ H). apply orb_true_r.
Qed.

(** A text that includes [a ++ b] includes [b]. *)
Lemma includes_suffix a b hay :
  includes hay (a +:+ b) = true -> includes hay b = true.
Proof.
  induction hay as [|c hay IH]; cbn [includes]; intros H.
  - rewrite orb_false_r in H. apply prefix_includes in H. done.
  - apply orb_true_iff in H as [H|H].
    + apply prefix_includes in H. done.
    + rewrite (IH H). apply orb_true_r.
Qed.

(** An error the pipelines throw for the missing key is answered with
    status 500. *)
Lemma answer_missing_key e :
  mentionsMissingKey e = true ->
  answer (Throw e) = Failure 500 (errorMessage e).
Proof.
  unfold mentionsMissingKey, answer, errorStatus. destruct e as [message|]; [|done].
  cbn [messageOf errorMessage]. intros H.
  by rewrite (includes_suffix "Missing " "GROQ_API_KEY" message H).
Qed.

Section HandlerFacts.
Variable zodMessage : schemaName -> RawFlowchart -> string.
Variable runModel : Request -> string -> GroqClient -> result RawFlowchart.

(** X16. The generation endpoint never answers 502. It answers 400 when
    the trimmed prompt has fewer than 10 code units; otherwise it answers
    with a flowchart, or with status 500 and a message that mentions the
    missing key: every other failure of the model step was absorbed by
    the fallback. *)
Theorem generate_never_bad_gateway env body :
  let prompt := trimmedText (gb_prompt body) in
  let response := postGenerate zodMessage runModel env body in
  if (String.length prompt <? 10)%nat
  then response = Failure 400 "Prompt must contain at least 10 characters."
  else (exists flowchart, response = Json flowchart) \/
       (exists message,
          response = Failure 500 message /\
          includes message "Missing GROQ_API_KEY" = true).
Proof.
  intros prompt response. subst response. unfold postGenerate. fold prompt.
  destruct (String.length prompt <? 10)%nat eqn:Hshort; [by rewrite orb_true_r|].
  assert (truthy prompt = true) as ->.
  { destruct prompt; [done|done]. }
  cbn [negb orb].
  unfold generateFlowchartFromPrompt. cbv zeta.
  destruct (getGroqClient env) as [groq|e] eqn:Hgroq; cbn [mbind result_bind].
  - unfold catchModelFailure.
    destruct (_ ≫= _) as [flowchart|e]; [left; by eexists|].
    destruct (includes (messageOf e) "Missing GROQ_API_KEY") eqn:Hkey; [|left; by eexists].
    right. exists (errorMessage e). split; [by apply answer_missing_key|].
    by destruct e.
  - right. unfold getGroqClient in Hgroq.
    assert (e = ErrorObject "Missing GROQ_API_KEY in environment.") as ->
      by (destruct (GROQ_API_KEY env) as [key|]; [destruct (truthy key)|]; congruence).
    eexists. split; reflexivity.
Qed.

(** X17. Without a credential both endpoints answer 500 with the
    missing-key message, whatever the model step would do: the generation
    endpoint for every prompt of at least 10 code units, the refinement
    endpoint for every follow-up prompt of at least 5 code units and every
    current flowchart the input schema and the repair accept. *)
Theorem missing_key_is_internal_error env :
  credentialAbsent env ->
  (forall body,
     (10 <= String.length (trimmedText (gb_prompt body)))%nat ->
     postGenerate zodMessage runModel env body
     = Failure 500 "Missing GROQ_API_KEY in environment.") /\
  (forall body currentFlowchart parsedCurrent safeCurrent,
     rb_flowchart body = Some currentFlowchart ->
     (5 <= String.length (trimmedText (rb_followUpPrompt body)))%nat ->
     refineInputSchema currentFlowchart = Some parsedCurrent ->
     repairCurrent parsedCurrent (safeInput parsedCurrent) = Some safeCurrent ->
     postRefine zodMessage runModel env body
     = Failure 500 "Missing GROQ_API_KEY in environment.").
Proof.
  intros Habsent. split.
  - intros body Hlen. unfold postGenerate.
    set (prompt := trimmedText (gb_prompt body)) in *.
    destruct (Nat.ltb_spec (String.length prompt) 10) as [|_]; [lia|].
    assert (truthy prompt = true) as -> by (destruct prompt; [simpl in Hlen; lia|done]).
    cbn [negb orb]. unfold generateFlowchartFromPrompt. cbv zeta.
    by rewrite getGroqClient_absent.
  - intros body currentFlowchart parsedCurrent safeCurrent Hbody Hlen Hparsed Hsafe.
    unfold postRefine. rewrite Hbody.
    destruct (Nat.ltb_spec (String.length (trimmedText (rb_followUpPrompt body))) 5)
      as [|_]; [lia|].
    unfold refineFlowchartFromPrompt, parseOrThrow. cbv zeta.
    rewrite Hparsed. cbn [mbind result_bind]. rewrite Hsafe. cbn [mbind result_bind].
    by rewrite getGroqClient_absent.
Qed.

(** X18. The refinement endpoint answers 400 without a flowchart object or
    with a follow-up prompt of fewer than 5 code units, and gives the
    schema's error, with status 502 unless its text mentions the key, for
    a flowchart object the input schema rejects. *)
Theorem refine_rejects_bad_input env body :
  let followUpPrompt := trimmedText (rb_followUpPrompt body) in
  let response := postRefine zodMessage runModel env body in
  (rb_flowchart body = None ->
   response = Failure 400 "A valid existing flowchart object is required.") /\
  (forall currentFlowchart,
     rb_flowchart body = Some currentFlowchart ->
     (String.length followUpPrompt < 5)%nat ->
     response = Failure 400 "Follow-up prompt must contain at least 5 characters.") /\
  (forall currentFlowchart,
     rb_flowchart body = Some currentFlowchart ->
     (5 <= String.length followUpPrompt)%nat ->
     refineInputSchema currentFlowchart = None ->
     let message := zodMessage RefineInputSchema currentFlowchart in
     response = Failure (errorStatus message) message).
Proof.
  intros followUpPrompt response. subst response. unfold postRefine. fold followUpPrompt.
  split; [by intros ->|]. split.
  - intros currentFlowchart -> Hshort.
    by destruct (Nat.ltb_spec (String.length followUpPrompt) 5); [|lia].
  - intros currentFlowchart -> Hlong Hrejected.
    destruct (Nat.ltb_spec (String.length followUpPrompt) 5); [lia|].
    unfold refineFlowchartFromPrompt, parseOrThrow. cbv zeta.
    by rewrite Hrejected.
Qed.

End HandlerFacts.

Lemma missing_key_is_internal_error_witness :
  credentialAbsent (mkEnv None None) /\
  postGenerate sampleZodMessage (answeringModel abc) (mkEnv None None)
    (mkGenerateBody (Str "  Describe the order handling process ") Missing Missing)
  = Failure 500 "Missing GROQ_API_KEY in environment.".
Proof.
  assert (credentialAbsent (mkEnv None None)) as Habsent by (left; reflexivity).
  split; [exact Habsent|].
  apply (proj1 (missing_key_is_internal_error sampleZodMessage (answeringModel abc)
                  (mkEnv None None) Habsent)).
  vm_compute. lia.
Defined.

Lemma refine_rejects_bad_input_witness :
  refineInputSchema oneNodeAnswer = None /\
  postRefine sampleZodMessage (answeringModel abc) sampleEnv
    (mkRefineBody (Str "Add a review step") Missing Missing (Some oneNodeAnswer))
  = Failure 502 "[ZodError]".
Proof.
  assert (refineInputSchema oneNodeAnswer = None) as Hrejected by (vm_compute; reflexivity).
  split; [exact Hrejected|].
  apply (proj2 (proj2 (refine_rejects_bad_input sampleZodMessage (answeringModel abc)
                         sampleEnv
                         (mkRefineBody (Str "Add a review step") Missing Missing
                            (Some oneNodeAnswer)))) oneNodeAnswer eq_refl).
  - vm_compute. lia.
  - exact Hrejected.
Defined.

End HttpProps.

(** * Properties of binary64 arithmetic *)

Module Binary64.
Import SpecFloat Ieee.

Lemma digits2_bounds m :
  (2 ^ (Zpos (digits2_pos m) - 1) <= Zpos m < 2 ^ Zpos (digits2_pos m))%Z.
Proof.
  induction m as [p IH|p IH|]; cbn [digits2_pos].
  - rewrite Pos2Z.inj_succ, (Pos2Z.inj_xI p).
    replace (Z.succ (Zpos (digits2_pos p)) - 1)%Z with (Z.succ (Zpos (digits2_pos p) - 1))%Z by lia.
    rewrite !Z.pow_succ_r by lia. lia.
  - rewrite Pos2Z.inj_succ, (Pos2Z.inj_xO p).
    replace (Z.succ (Zpos (digits2_pos p)) - 1)%Z with (Z.succ (Zpos (digits2_pos p) - 1))%Z by lia.
    rewrite !Z.pow_succ_r by lia. lia.
  - cbn. lia.
Qed.

Lemma shr_1_m mrs : (0 <= shr_m mrs)%Z -> shr_m (shr_1 mrs) = (shr_m mrs / 2)%Z.
Proof.
  destruct mrs as [m r s]. cbn [shr_m]. intros Hm.
  destruct m as [|[p|p|]|p]; cbn [shr_1 shr_m]; [reflexivity| | |reflexivity|lia].
  - rewrite (Pos2Z.inj_xI p). apply Z.div_unique with 1%Z; lia.
  - rewrite (Pos2Z.inj_xO p). apply Z.div_unique with 0%Z; lia.
Qed.

Lemma iter_pos_shr_1_m p mrs :
  (0 <= shr_m mrs)%Z ->
  shr_m (iter_pos shr_1 p mrs) = (shr_m mrs / 2 ^ Zpos p)%Z.
Proof.
  revert mrs. induction p as [p IH|p IH|]; intros mrs Hm; cbn [iter_pos].
  - assert (0 <= shr_m (shr_1 mrs))%Z as H1
      by (rewrite shr_1_m by done; apply Z.div_pos; lia).
    assert (0 <= shr_m (iter_pos shr_1 p (shr_1 mrs)))%Z as H2
      by (rewrite IH by done; apply Z.div_pos; lia).
    rewrite IH, IH, shr_1_m by done.
    rewrite !Z.div_div by lia. f_equal.
    replace (Zpos p~1) with (1 + Zpos p + Zpos p)%Z by lia.
    rewrite !Z.pow_add_r by lia. change (2 ^ 1)%Z with 2%Z. ring.
  - assert (0 <= shr_m (iter_pos shr_1 p mrs))%Z as H2
      by (rewrite IH by done; apply Z.div_pos; lia).
    rewrite IH, IH by done.
    rewrite !Z.div_div by lia. f_equal.
    replace (Zpos p~0) with (Zpos p + Zpos p)%Z by lia.
    rewrite !Z.pow_add_r by lia. ring.
  - by apply shr_1_m.
Qed.

Lemma shr_m_of_loc m l : shr_m (shr_record_of_loc m l) = m.
Proof. by destruct l as [|[]]. Qed.

Lemma shr_fexp_pos m e l :
  (emin <= e)%Z -> (0 < m)%Z ->
  (0 < shr_m (shr_fexp prec emax m e l).1)%Z /\
  (emin <= (shr_fexp prec emax m e l).2)%Z.
Proof.
  intros He Hm. destruct m as [|p|p]; try lia.
  unfold shr_fexp, shr. cbn [Zdigits2].
  pose proof (digits2_bounds p) as Hd.
  set (d := Zpos (digits2_pos p)) in *.
  destruct (fexp prec emax (d + e) - e)%Z as [|q|q] eqn:Hn; cbn [fst snd];
    rewrite ?shr_m_of_loc; try (split; lia).
  rewrite iter_pos_shr_1_m by (rewrite shr_m_of_loc; lia).
  rewrite shr_m_of_loc. split; [|lia].
  assert (Zpos q <= d - 1)%Z as Hq.
  { unfold fexp, SpecFloat.emin, prec, emax in *. lia. }
  apply Z.div_str_pos. split; [apply Z.pow_pos_nonneg; lia|].
  transitivity (2 ^ (d - 1))%Z; [|lia].
  apply Z.pow_le_mono_r; lia.
Qed.

Lemma round_nearest_even_ge m l : (m <= round_nearest_even m l)%Z.
Proof. destruct l as [|[]]; cbn; try lia. destruct (Z.even m); lia. Qed.

Lemma binary_round_aux_signed s m e l :
  (emin <= e)%Z -> (0 < m)%Z -> signed s (binary_round_aux prec emax s m e l).
Proof.
  intros He Hm. unfold binary_round_aux.
  pose proof (shr_fexp_pos m e l He Hm) as [Hm' He'].
  destruct (shr_fexp prec emax m e l) as [mrs' e']. cbn [fst snd] in Hm', He'.
  pose proof (round_nearest_even_ge (shr_m mrs') (loc_of_shr_record mrs')) as Hr.
  pose proof (shr_fexp_pos _ e' loc_Exact He' (Z.lt_le_trans _ _ _ Hm' Hr)) as [Hm'' _].
  destruct (shr_fexp prec emax _ e' loc_Exact) as [mrs'' e'']. cbn [fst] in Hm''.
  destruct (shr_m mrs''); try lia.
  by destruct (Z.leb _ _).
Qed.

Lemma shl_align_spec m e e' :
  Zpos (shl_align m e e').1 = (Zpos m * 2 ^ (e - Z.min e e'))%Z /\
  (shl_align m e e').2 = Z.min e e'.
Proof.
  unfold shl_align. destruct (e' - e)%Z as [|d|d] eqn:Hd; cbn [fst snd].
  - replace (Z.min e e') with e by lia. rewrite Z.sub_diag, Z.pow_0_r. lia.
  - replace (Z.min e e') with e by lia. rewrite Z.sub_diag, Z.pow_0_r. lia.
  - replace (Z.min e e') with e' by lia.
    replace (e - e')%Z with (Zpos d) by lia. split; [|done].
    change (Pos.iter xO m d) with (shift_pos d m).
    rewrite Zpower.shift_pos_correct.
    change (Z.pow_pos 2 d) with (2 ^ Zpos d)%Z. lia.
Qed.

Lemma binary_round_signed s m e :
  (emin <= e)%Z -> signed s (binary_round prec emax s m e).
Proof.
  intros He. unfold binary_round.
  pose proof (shl_align_spec m e (fexp prec emax (Zpos (digits2_pos m) + e))) as [_ H2].
  destruct (shl_align _ _ _) as [mz ez]. cbn [snd] in H2.
  apply binary_round_aux_signed; [|lia].
  subst ez. unfold fexp. lia.
Qed.

Lemma valid_finite s m e :
  valid_binary prec emax (S754_finite s m e) = true ->
  (emin <= e)%Z /\ (Zpos (digits2_pos m) <= prec)%Z /\
  ((emin < e)%Z -> Zpos (digits2_pos m) = prec).
Proof.
  cbn [valid_binary]. unfold bounded, canonical_mantissa, fexp.
  intros [H _]%andb_prop. apply Z.eqb_eq in H.
  unfold SpecFloat.emin, prec, emax in *. lia.
Qed.

(** Comparing the aligned mantissas of two valid numbers is comparing
    exponent first and mantissa second. *)
Lemma compare_aligned s1 m1 e1 s2 m2 e2 :
  valid_binary prec emax (S754_finite s1 m1 e1) = true ->
  valid_binary prec emax (S754_finite s2 m2 e2) = true ->
  match Z.compare e1 e2 with
  | Lt => Lt
  | Gt => Gt
  | Eq => Pos.compare_cont Eq m1 m2
  end = Z.compare (Zpos (shl_align m1 e1 (Z.min e1 e2)).1)
                  (Zpos (shl_align m2 e2 (Z.min e1 e2)).1).
Proof.
  intros (He1 & Hd1 & Hn1)%valid_finite (He2 & Hd2 & Hn2)%valid_finite.
  pose proof (shl_align_spec m1 e1 (Z.min e1 e2)) as [-> _].
  pose proof (shl_align_spec m2 e2 (Z.min e1 e2)) as [-> _].
  pose proof (digits2_bounds m1) as B1. pose proof (digits2_bounds m2) as B2.
  destruct (Z.compare_spec e1 e2) as [->|Hlt|Hgt].
  - rewrite !Z.min_id, Z.sub_diag, Z.pow_0_r, !Z.mul_1_r. reflexivity.
  - symmetry. apply Z.compare_lt_iff.
    replace (Z.min e1 (Z.min e1 e2)) with e1 by lia.
    replace (Z.min e2 (Z.min e1 e2)) with e1 by lia.
    rewrite Z.sub_diag, Z.pow_0_r, Z.mul_1_r.
    rewrite Hn2 in B2 by lia.
    assert (2 ^ 1 <= 2 ^ (e2 - e1))%Z as Hp by (apply Z.pow_le_mono_r; lia).
    assert (Zpos m1 < 2 ^ prec)%Z as Hm1.
    { eapply Z.lt_le_trans; [apply B1|]. apply Z.pow_le_mono_r; lia. }
    change (2 ^ 1)%Z with 2%Z in Hp.
    change (2 ^ prec)%Z with (2 * 2 ^ (prec - 1))%Z in Hm1.
    nia.
  - symmetry. apply Z.compare_gt_iff.
    replace (Z.min e1 (Z.min e1 e2)) with e2 by lia.
    replace (Z.min e2 (Z.min e1 e2)) with e2 by lia.
    rewrite Z.sub_diag, Z.pow_0_r, Z.mul_1_r.
    rewrite Hn1 in B1 by lia.
    assert (2 ^ 1 <= 2 ^ (e1 - e2))%Z as Hp by (apply Z.pow_le_mono_r; lia).
    assert (Zpos m2 < 2 ^ prec)%Z as Hm2.
    { eapply Z.lt_le_trans; [apply B2|]. apply Z.pow_le_mono_r; lia. }
    change (2 ^ 1)%Z with 2%Z in Hp.
    change (2 ^ prec)%Z with (2 * 2 ^ (prec - 1))%Z in Hm2.
    nia.
Qed.

Lemma SFltb_zero_signed s x : signed s x -> SFltb (S754_zero false) x = negb s.
Proof. destruct x as [|s'| |s' m e]; cbn; try done; intros ->; by destruct s. Qed.

(** The sign of a difference is the order of its operands: no difference
    of two distinct numbers rounds to zero. *)
Lemma SFsub_sign x y :
  valid_binary prec emax x = true -> valid_binary prec emax y = true ->
  SFltb (S754_zero false) (SFsub prec emax x y) = SFltb y x.
Proof.
  intros Hx Hy.
  destruct x as [sx|sx| |sx mx ex], y as [sy|sy| |sy my ey];
    try (by repeat match goal with s : bool |- _ => destruct s end).
  pose proof (compare_aligned sy my ey sx mx ex Hy Hx) as Hc.
  rewrite (Z.min_comm ey ex) in Hc.
  apply valid_finite in Hx as (Hex & _ & _). apply valid_finite in Hy as (Hey & _ & _).
  assert (emin <= Z.min ex ey)%Z as Hez by lia.
  cbn [SFsub]. unfold SFltb at 2. cbn [SFcompare].
  set (Mx := Zpos (shl_align mx ex (Z.min ex ey)).1) in *.
  set (My := Zpos (shl_align my ey (Z.min ex ey)).1) in *.
  assert (0 < Mx)%Z as HMx by (subst Mx; lia).
  assert (0 < My)%Z as HMy by (subst My; lia).
  assert (forall D, (D = 0 \/ 0 < D \/ D < 0)%Z) as Hsplit by lia.
  assert (forall D, (0 < D)%Z ->
            SFltb (S754_zero false)
              (binary_normalize prec emax D (Z.min ex ey) false) = true) as Hpos.
  { intros [|p|p] HD; try lia. cbn [binary_normalize].
    by rewrite (SFltb_zero_signed false) by (by apply binary_round_signed). }
  assert (forall D, (D < 0)%Z ->
            SFltb (S754_zero false)
              (binary_normalize prec emax D (Z.min ex ey) false) = false) as Hneg.
  { intros [|p|p] HD; try lia. cbn [binary_normalize].
    by rewrite (SFltb_zero_signed true) by (by apply binary_round_signed). }
  destruct sx, sy; cbn [cond_Zopp].
  - replace (match (ey ?= ex)%Z with
             | Eq => CompOpp (Pos.compare_cont Eq my mx)
             | Lt => Gt
             | Gt => Lt
             end)
      with (CompOpp (My ?= Mx)%Z)
      by (rewrite <- Hc; by destruct (ey ?= ex)%Z).
    destruct (Z.compare_spec My Mx) as [Heq|Hlt|Hgt]; cbn [CompOpp].
    + replace (- Mx - - My)%Z with 0%Z by lia. reflexivity.
    + apply Hneg. lia.
    + apply Hpos. lia.
  - rewrite Hneg by lia. reflexivity.
  - rewrite Hpos by lia. reflexivity.
  - rewrite Hc.
    destruct (Z.compare_spec My Mx) as [Heq|Hlt|Hgt].
    + replace (Mx - My)%Z with 0%Z by lia. reflexivity.
    + apply Hpos. lia.
    + apply Hneg. lia.
Qed.







End Binary64.

(** * Properties of JavaScript numbers *)

Module NumFacts.
Import SpecFloat Num.







(** [a - b > 0] exactly when [b < a]. *)
Lemma sub_sign a b : ltb 0%float (sub a b) = ltb b a.
Proof.
  unfold ltb, sub. rewrite !FloatAxioms.ltb_spec, FloatAxioms.sub_spec.
  apply Binary64.SFsub_sign; apply FloatAxioms.Prim2SF_valid.
Qed.










End NumFacts.

(** * Properties of the layout library *)

Module LayoutProps.
Import Js Num Layout LayoutSpec.

(** ** Node size estimation *)

Example decision_base_size :
  estimateNodeDimensions "decision" (mkPayload (Some "Approved?") None None)
  = mkDimensions 280 280.
Proof. reflexivity. Qed.

Example long_details_hit_the_clamp :
  estimateNodeDimensions "decision" (mkPayload (Some "Approved?") (Some longDetails) None)
  = mkDimensions 420 560.
Proof. vm_compute. reflexivity. Qed.

(** C9. Size clamp: for every node type and every label, details and notes
    content, however long, the estimated width is at most 420 and the
    estimated height at most 560. *)
Theorem estimate_within_clamp kind payload :
  kind ∈ Service.NODE_TYPES ->
  (width (estimateNodeDimensions kind payload) <= 420)%Z /\
  (height (estimateNodeDimensions kind payload) <= 560)%Z.
Proof.
  intros _. unfold estimateNodeDimensions. cbv zeta.
  repeat match goal with
         | |- context [if ?b then _ else _] => destruct b
         end; cbn [width height]; lia.
Qed.

Lemma estimate_within_clamp_witness :
  "data" ∈ Service.NODE_TYPES /\
  (width (estimateNodeDimensions "data" (mkPayload (Some "Orders") (Some longDetails) None))
   <= 420)%Z /\
  (height (estimateNodeDimensions "data" (mkPayload (Some "Orders") (Some longDetails) None))
   <= 560)%Z.
Proof.
  assert ("data" ∈ Service.NODE_TYPES) as Hkind.
  { unfold Service.NODE_TYPES. do 3 apply list_elem_of_further. apply list_elem_of_here. }
  split; [exact Hkind|].
  exact (estimate_within_clamp "data" (mkPayload (Some "Orders") (Some longDetails) None)
           Hkind).
Defined.

(** ** Orientation choice *)

(** Sorting two candidates keeps the first unless the second is smaller. *)
Lemma sort_pair {A} (key : A -> num) (a b : A) :
  sort (fun u v => sub (key u) (key v)) [a; b] =
  if ltb (key b) (key a) then [b; a] else [a; b].
Proof.
  unfold sort. cbn [foldl insertSorted]. unfold isPositive.
  by rewrite NumFacts.sub_sign.
Qed.

Section Extreme.
Variable op : num -> num -> num.
Variable le : num -> num -> bool.
Variable init : num.
Hypothesis op_NaN : forall a b, isNaN a || isNaN b = true -> op a b = NaN.
Hypothesis op_choice :
  forall a b, isNaN a || isNaN b = false -> op a b = a \/ op a b = b.
Hypothesis op_le :
  forall a b, isNaN a || isNaN b = false ->
    le (op a b) a = true /\ le (op a b) b = true.
Hypothesis le_refl : forall a, isNaN a = false -> le a a = true.
Hypothesis le_trans : forall a b c, le a b = true -> le b c = true -> le a c = true.
Hypothesis init_number : isNaN init = false.
Hypothesis init_extreme : forall a, le init a = true -> a = init.



End Extreme.






Section PlacementFacts.
Variable place : Graph -> string -> Position.

(** One run is one call of the placement routine, on the graph built
    from the nodes, the edges and the options. *)
Lemma runDagreLayout_log nodes edges options :
  (runDagreLayout place nodes edges options).2 = [buildGraph nodes edges options].
Proof. reflexivity. Qed.



(** What the Compact mode returns, from its two runs. *)
Lemma getLayoutedElements_compact nodes edges :
  let tb := (runDagreLayout place nodes edges (mkLayoutOptions "TB" 45 30 20 20)).1 in
  let lr := (runDagreLayout place nodes edges (mkLayoutOptions "LR" 45 30 20 20)).1 in
  let best := if ltb (area lr) (area tb) then lr else tb in
  getLayoutedElements place nodes edges "COMPACT" =
    (Some (mkLayouted (run_nodes best) (run_edges best)),
     [buildGraph nodes edges (mkLayoutOptions "TB" 45 30 20 20);
      buildGraph nodes edges (mkLayoutOptions "LR" 45 30 20 20)]).
Proof.
  intros tb lr best.
  unfold getLayoutedElements. cbn [String.eqb Ascii.eqb Bool.eqb].
  unfold mapT, compactOptions.
  destruct (runDagreLayout place nodes edges (mkLayoutOptions "TB" 45 30 20 20))
    as [tb' logTb] eqn:Htb.
  destruct (runDagreLayout place nodes edges (mkLayoutOptions "LR" 45 30 20 20))
    as [lr' logLr] eqn:Hlr.
  pose proof (runDagreLayout_log nodes edges (mkLayoutOptions "TB" 45 30 20 20))
    as HlogTb.
  pose proof (runDagreLayout_log nodes edges (mkLayoutOptions "LR" 45 30 20 20))
    as HlogLr.
  rewrite Htb in HlogTb. rewrite Hlr in HlogLr. cbn [snd] in HlogTb, HlogLr.
  subst logTb logLr tb lr best. cbn [fst].
  unfold bind, ret. rewrite sort_pair.
  by destruct (ltb (area lr') (area tb')).
Qed.


End PlacementFacts.

(** With two stacked nodes of the default size the left-to-right run is
    the smaller one and is the one returned. *)
Example compact_picks_left_to_right :
  (fun layouted => (fun node => targetPosition node) <$> nodes layouted)
    <$> (getLayoutedElements stackingPlace twoNodes oneEdge "COMPACT").1
  = Some [Some "left"; Some "left"].
Proof. vm_compute. reflexivity. Qed.

(** Areas are compared as the code computes them. One node of 100.1 by
    50 has the same box in both runs; placed at x = 20 by the first run
    and at x = 45.05 by the second, its computed width is 100.1 in the
    first and one unit in the last place less in the second, and the
    left-to-right run is returned. *)
Example compact_follows_rounding :
  let tb := (runDagreLayout driftingPlace [wideNode] [] compactTB).1 in
  let lr := (runDagreLayout driftingPlace [wideNode] [] compactLR).1 in
  area tb = 5005%float /\ ltb (area lr) (area tb) = true /\
  (fun layouted => (fun node => targetPosition node) <$> nodes layouted)
    <$> (getLayoutedElements driftingPlace [wideNode] [] "COMPACT").1
  = Some [Some "left"].
Proof. vm_compute. done. Qed.


End LayoutProps.

(** * Further properties of the layout library *)

Module LayoutMore.
Import Js Num Layout LayoutSpec.

Lemma getNodeDimensions_finite kind :
  isFinite (ofZ (width (getNodeDimensions kind))) = true /\
  isFinite (ofZ (height (getNodeDimensions kind))) = true.
Proof.
  unfold getNodeDimensions, NODE_DIMENSIONS. cbn [lookupKey].
  repeat case_match; split; vm_compute; reflexivity.
Qed.

Lemma toNumber_finite value fallback :
  isFinite fallback = true -> isFinite (toNumber value fallback) = true.
Proof. unfold toNumber. by destruct (isFinite value) eqn:H. Qed.

Lemma toNumber_keeps value fallback :
  isFinite value = true -> toNumber value fallback = value.
Proof. unfold toNumber. by intros ->. Qed.

Lemma getNodeSize_is_finite node :
  isFinite (size_width (getNodeSize node)) = true /\
  isFinite (size_height (getNodeSize node)) = true.
Proof.
  unfold getNodeSize. cbv zeta. cbn [size_width size_height].
  destruct (getNodeDimensions_finite (orElse (default "" (data_kind node)) "process")).
  split; by apply toNumber_finite.
Qed.

(** X19. The size the layout uses for a node of one of the eight types is
    finite in both directions, whatever is configured; a finite size
    configured in [data.size] is used as it is, and one that is not
    finite (an infinity, NaN) gives way to the default of the type. *)
Theorem getNodeSize_finite node :
  nodeKind node ∈ Service.NODE_TYPES ->
  isFinite (size_width (getNodeSize node)) = true /\
  isFinite (size_height (getNodeSize node)) = true /\
  (forall w, data_size node ≫= c_width = Some w ->
     size_width (getNodeSize node) =
       if isFinite w then w else ofZ (width (getNodeDimensions (nodeKind node)))) /\
  (forall h, data_size node ≫= c_height = Some h ->
     size_height (getNodeSize node) =
       if isFinite h then h else ofZ (height (getNodeDimensions (nodeKind node)))).
Proof.
  intros _. destruct (getNodeSize_is_finite node) as [Hw Hh].
  split; [done|]. split; [done|]. split.
  - intros w Hcw. unfold getNodeSize. cbv zeta. cbn [size_width].
    rewrite Hcw. cbn [coalesce default from_option id]. reflexivity.
  - intros h Hch. unfold getNodeSize. cbv zeta. cbn [size_height].
    rewrite Hch. cbn [coalesce default from_option id]. reflexivity.
Qed.

Lemma getNodeSize_finite_witness :
  nodeKind unboundedNode ∈ Service.NODE_TYPES /\
  getNodeSize unboundedNode = mkSize 240%float 120%float.
Proof.
  assert (nodeKind unboundedNode ∈ Service.NODE_TYPES) as Hkind.
  { unfold Service.NODE_TYPES. do 2 apply list_elem_of_further. apply list_elem_of_here. }
  split; [exact Hkind|].
  destruct (getNodeSize_finite unboundedNode Hkind) as (_ & _ & Hw & Hh).
  specialize (Hw PosInf eq_refl). specialize (Hh 120%float eq_refl).
  destruct (getNodeSize unboundedNode) as [w h]. cbn [size_width size_height] in *.
  rewrite Hw, Hh. vm_compute. reflexivity.
Defined.


Lemma withPosition_same node : withPosition node (position node) = node.
Proof. by destruct node. Qed.

(** Normalising positions moves nodes and changes nothing else. *)
Lemma normalizePositions_map nodes margin :
  exists g, normalizePositions nodes margin
            = (fun node => withPosition node (g node)) <$> nodes.
Proof.
  unfold normalizePositions. destruct nodes as [|node rest]; [by exists position|].
  cbv zeta. destruct (_ && _).
  - exists position. symmetry. rewrite <- (list_fmap_id (node :: rest)) at 2.
    apply list_fmap_ext. intros _ n _. apply withPosition_same.
  - by eexists.
Qed.

Lemma getNodeSize_withPosition node p :
  getNodeSize (withPosition node p) = getNodeSize node.
Proof. done. Qed.

(** The size of a laid out node is the size the layout used for it. *)
Lemma getNodeSize_laidOut before after :
  laidOut before after -> getNodeSize after = getNodeSize before.
Proof.
  intros (_ & Hkind & Hsize & Hstyle & Hw & Hh).
  destruct (getNodeSize_is_finite before) as [Hfw Hfh].
  unfold getNodeSize in *. cbv zeta in *. cbn [size_width size_height] in *.
  rewrite Hkind, Hsize, Hstyle, Hw, Hh.
  set (dims := getNodeDimensions (orElse (default "" (data_kind before)) "process")) in *.
  f_equal.
  - destruct (data_size before ≫= c_width) as [w|]; [done|].
    cbn [coalesce default from_option id] in *. by apply toNumber_keeps.
  - destruct (data_size before ≫= c_height) as [h|]; [done|].
    cbn [coalesce default from_option id] in *. by apply toNumber_keeps.
Qed.

Section PlacementMore.
Variable place : Graph -> string -> Position.

Lemma runDagreLayout_laidOut nodes edges options :
  let run := (runDagreLayout place nodes edges options).1 in
  Forall2 laidOut nodes (run_nodes run) /\
  Forall2 marked edges (run_edges run) /\
  Forall (handles (String.eqb (direction options) "LR")) (run_nodes run).
Proof.
  unfold runDagreLayout, dagreLayout, bind, ret. cbn [fst run_nodes run_edges].
  destruct (normalizePositions_map
              ((fun node =>
                  let position := place (buildGraph nodes edges options) (id node) in
                  let size := getNodeSize node in
                  mkFlowNode (id node) (data_kind node) (data_size node)
                    (Some (size_width size)) (Some (size_height size)) (style node)
                    (mkPosition (sub (x position) (div (size_width size) 2%float))
                                (sub (y position) (div (size_height size) 2%float)))
                    (Some (if String.eqb (direction options) "LR" then "right" else "bottom"))
                    (Some (if String.eqb (direction options) "LR" then "left" else "top")))
                 <$> nodes) 20%float) as [g Hg].
  cbv zeta in *. rewrite Hg. rewrite <- list_fmap_compose.
  split; [|split].
  - apply Forall2_fmap_r, Forall_Forall2_diag, Forall_forall. by intros n _.
  - apply Forall2_fmap_r, Forall_Forall2_diag, Forall_forall. by intros e _.
  - apply Forall_fmap, Forall_forall. by intros n _.
Qed.

(** X20. Layout changes positions and handles only. For nodes of the eight
    types and every direction, the call returns one node per input node
    and one edge per input edge, in order: each node with its id, kind and
    configured sizes, its width and height set to the size the layout
    used; each edge with its id and endpoints and the closed arrow as end
    marker; all handles on the right and left, or all on the bottom and
    top (right and left for "LR", bottom and top for every direction that
    is neither "LR" nor "COMPACT"). The sizes are stable: the graph built
    from the returned nodes and edges is the graph built from the input,
    so laying out the result again gives the placement routine the same
    graph. *)
Theorem layout_keeps_structure nodes edges direction :
  Forall (fun node => nodeKind node ∈ Service.NODE_TYPES) nodes ->
  exists layouted horizontal,
    (getLayoutedElements place nodes edges direction).1 = Some layouted /\
    Forall2 laidOut nodes (Layout.nodes layouted) /\
    Forall2 marked edges (Layout.edges layouted) /\
    Forall (handles horizontal) (Layout.nodes layouted) /\
    (direction = "LR" -> horizontal = true) /\
    (direction <> "LR" -> direction <> "COMPACT" -> horizontal = false) /\
    (forall options,
       buildGraph (Layout.nodes layouted) (Layout.edges layouted) options
       = buildGraph nodes edges options).
Proof.
  intros _.
  assert (forall options,
            exists layouted,
              layouted = mkLayouted
                           (run_nodes (runDagreLayout place nodes edges options).1)
                           (run_edges (runDagreLayout place nodes edges options).1) /\
              Forall2 laidOut nodes (Layout.nodes layouted) /\
              Forall2 marked edges (Layout.edges layouted) /\
              Forall (handles (String.eqb (Layout.direction options) "LR"))
                     (Layout.nodes layouted) /\
              (forall options',
                 buildGraph (Layout.nodes layouted) (Layout.edges layouted) options'
                 = buildGraph nodes edges options')) as Hrun.
  { intros options. eexists. split; [reflexivity|]. cbn [Layout.nodes Layout.edges].
    destruct (runDagreLayout_laidOut nodes edges options) as (Hn & He & Hh).
    cbv zeta in *. split; [done|]. split; [done|]. split; [done|].
    intros options'. unfold buildGraph. f_equal.
    - apply list_eq_Forall2, Forall2_fmap, Forall2_flip.
      eapply Forall2_impl; [exact Hn|].
      intros before after Hlaid. rewrite (getNodeSize_laidOut _ _ Hlaid).
      by destruct Hlaid as (-> & _).
    - apply list_eq_Forall2, Forall2_fmap, Forall2_flip.
      eapply Forall2_impl; [exact He|].
      by intros before after (_ & -> & -> & _). }
  destruct (String.eqb_spec direction "COMPACT") as [->|Hcompact].
  - rewrite LayoutProps.getLayoutedElements_compact. cbn [fst].
    destruct (ltb _ _).
    + destruct (Hrun (mkLayoutOptions "LR" 45 30 20 20)) as (l & -> & Hn & He & Hh & Hg).
      eexists _, true. repeat split; try done.
    + destruct (Hrun (mkLayoutOptions "TB" 45 30 20 20)) as (l & -> & Hn & He & Hh & Hg).
      eexists _, false. repeat split; try done.
  - unfold getLayoutedElements.
    destruct (String.eqb_spec direction "COMPACT") as [|_]; [done|].
    unfold bind, ret.
    destruct (String.eqb_spec direction "LR") as [->|Hlr].
    + destruct (Hrun (mkLayoutOptions "LR" 100 80 30 30)) as (l & -> & Hn & He & Hh & Hg).
      destruct (runDagreLayout place nodes edges _) as [run log]. cbn [fst] in *.
      eexists _, true. repeat split; try done.
    + destruct (Hrun (mkLayoutOptions "TB" 100 80 30 30)) as (l & -> & Hn & He & Hh & Hg).
      destruct (runDagreLayout place nodes edges _) as [run log]. cbn [fst] in *.
      eexists _, false. repeat split; try done.
Qed.

End PlacementMore.

Lemma layout_keeps_structure_witness :
  Forall (fun node => nodeKind node ∈ Service.NODE_TYPES) twoNodes /\
  exists layouted horizontal,
    (getLayoutedElements stackingPlace twoNodes oneEdge "sideways").1 = Some layouted /\
    Forall2 laidOut twoNodes (Layout.nodes layouted) /\
    Forall2 marked oneEdge (Layout.edges layouted) /\
    Forall (handles horizontal) (Layout.nodes layouted) /\
    horizontal = false.
Proof.
  assert ("process" ∈ Service.NODE_TYPES) as Hkind.
  { unfold Service.NODE_TYPES. apply list_elem_of_further, list_elem_of_here. }
  assert (Forall (fun node => nodeKind node ∈ Service.NODE_TYPES) twoNodes) as Hguard.
  { repeat constructor; exact Hkind. }
  split; [exact Hguard|].
  destruct (layout_keeps_structure stackingPlace twoNodes oneEdge "sideways" Hguard)
    as (layouted & horizontal & Hcall & Hn & He & Hh & _ & Hplain & _).
  exists layouted, horizontal. repeat split; try done.
  apply Hplain; discriminate.
Defined.

Lemma ceilDiv_nonneg a b : (0 <= a)%Z -> (0 < b)%Z -> (0 <= ceilDiv a b)%Z.
Proof.
  intros Ha Hb. unfold ceilDiv.
  assert (- a / b <= 0)%Z; [|lia].
  apply Z.div_le_upper_bound; lia.
Qed.

Lemma ceilDiv_mono a a' b : (0 < b)%Z -> (a <= a')%Z -> (ceilDiv a b <= ceilDiv a' b)%Z.
Proof.
  intros Hb Ha. unfold ceilDiv.
  assert (- a' / b <= - a / b)%Z; [|lia].
  apply Z.div_le_mono; lia.
Qed.

Lemma len_nonneg s : (0 <= len s)%Z.
Proof. unfold len. lia. Qed.

Ltac each_kind H :=
  unfold Service.NODE_TYPES in H;
  repeat (apply elem_of_cons in H as [->|H]); [..|by apply elem_of_nil in H].

Ltac estimate_cases :=
  cbv [estimateNodeDimensions getNodeDimensions NODE_DIMENSIONS lookupKey from_option Datatypes.id
       String.eqb Ascii.eqb Bool.eqb width height].

(** X21. For each of the eight node types the estimate is never below
    the base size of the type, in width or in height. *)
Theorem estimate_at_least_base kind payload :
  kind ∈ Service.NODE_TYPES ->
  (width (getNodeDimensions kind) <= width (estimateNodeDimensions kind payload))%Z /\
  (height (getNodeDimensions kind) <= height (estimateNodeDimensions kind payload))%Z.
Proof.
  intros Hkind.
  pose proof (ceilDiv_nonneg _ 24 (len_nonneg (textOf (label payload))) eq_refl) as Hl.
  pose proof (ceilDiv_nonneg _ 42 (len_nonneg (textOf (details payload))) eq_refl) as Hd.
  pose proof (ceilDiv_nonneg _ 44 (len_nonneg (textOf (notes payload))) eq_refl) as Hn.
  each_kind Hkind; estimate_cases;
    generalize dependent (ceilDiv (len (textOf (label payload))) 24);
    generalize dependent (ceilDiv (len (textOf (details payload))) 42);
    generalize dependent (ceilDiv (len (textOf (notes payload))) 44);
    intros; lia.
Qed.


(** X22. More text never gives a smaller node: for each of the eight
    node types, a payload whose label, details and notes are each at
    least as long gets an estimate at least as wide and as high. *)
Theorem estimate_monotone kind smaller larger :
  kind ∈ Service.NODE_TYPES ->
  (len (textOf (label smaller)) <= len (textOf (label larger)))%Z ->
  (len (textOf (details smaller)) <= len (textOf (details larger)))%Z ->
  (len (textOf (notes smaller)) <= len (textOf (notes larger)))%Z ->
  (width (estimateNodeDimensions kind smaller)
   <= width (estimateNodeDimensions kind larger))%Z /\
  (height (estimateNodeDimensions kind smaller)
   <= height (estimateNodeDimensions kind larger))%Z.
Proof.
  intros Hkind Hlabel Hdetails Hnotes.
  apply (ceilDiv_mono _ _ 24 eq_refl) in Hlabel.
  apply (ceilDiv_mono _ _ 42 eq_refl) in Hdetails.
  apply (ceilDiv_mono _ _ 44 eq_refl) in Hnotes.
  each_kind Hkind; estimate_cases;
    generalize dependent (ceilDiv (len (textOf (label smaller))) 24);
    generalize dependent (ceilDiv (len (textOf (details smaller))) 42);
    generalize dependent (ceilDiv (len (textOf (notes smaller))) 44);
    generalize dependent (ceilDiv (len (textOf (label larger))) 24);
    generalize dependent (ceilDiv (len (textOf (details larger))) 42);
    generalize dependent (ceilDiv (len (textOf (notes larger))) 44);
    intros; lia.
Qed.


Lemma estimate_at_least_base_witness :
  "decision" ∈ Service.NODE_TYPES /\
  (240 <= width (estimateNodeDimensions "decision"
                   (mkPayload (Some "Approved?") (Some longDetails) None)))%Z /\
  (240 <= height (estimateNodeDimensions "decision"
                    (mkPayload (Some "Approved?") (Some longDetails) None)))%Z.
Proof.
  assert ("decision" ∈ Service.NODE_TYPES) as Hkind.
  { unfold Service.NODE_TYPES. do 2 apply list_elem_of_further. apply list_elem_of_here. }
  split; [exact Hkind|].
  exact (estimate_at_least_base "decision"
           (mkPayload (Some "Approved?") (Some longDetails) None) Hkind).
Defined.

Lemma estimate_monotone_witness :
  "data" ∈ Service.NODE_TYPES /\
  (width (estimateNodeDimensions "data" (mkPayload (Some "Orders") None None))
   <= width (estimateNodeDimensions "data"
               (mkPayload (Some "Orders") (Some longDetails) None)))%Z /\
  (height (estimateNodeDimensions "data" (mkPayload (Some "Orders") None None))
   <= height (estimateNodeDimensions "data"
                (mkPayload (Some "Orders") (Some longDetails) None)))%Z.
Proof.
  assert ("data" ∈ Service.NODE_TYPES) as Hkind.
  { unfold Service.NODE_TYPES. do 3 apply list_elem_of_further. apply list_elem_of_here. }
  split; [exact Hkind|].
  apply (estimate_monotone "data" (mkPayload (Some "Orders") None None)
           (mkPayload (Some "Orders") (Some longDetails) None) Hkind).
  - vm_compute. discriminate.
  - vm_compute. discriminate.
  - vm_compute. discriminate.
Defined.

End LayoutMore.
